(** * aiomixer: catalog, viewport, focus and level synchronisation

    A shallow embedding of [aiomixer.c], the curses front end of the NetBSD
    audio mixer, and theorems relating it to its written specification.

    Conventions of the embedding.
    - A C [int] is a [Z]; the arithmetic the program does on screen rows and
      small indices is far from the ends of the type and is written without
      wrap-around.  Where the program mixes signed and unsigned operands, or
      stores into a narrower type, the conversion is written out
      ([to_unsigned], [to_int], [to_u_char]).
    - An [unsigned] field is a [Z] kept in [0, 2^32).
    - A fixed array with a fill count ([classes]/[nclasses],
      [controls]/[ncontrols]) is the list of its filled slots; the count is
      the length of the list.
    - The audio device and the widget toolkit are outside the program.  A
      device is a pair of response functions; calls made to the toolkit are
      recorded as events, values asked from it are arguments.
    - A loop whose number of rounds is not bounded by its data takes a fuel
      argument and answers [Timeout] when the fuel is used up; reading
      through a null pointer or outside an array has no defined behaviour
      and answers [Undefined]. *)

From stdpp Require Import base numbers list strings pretty.

Open Scope Z_scope.

(** ** C integer conversions *)

Definition UINT_MOD : Z := 2 ^ 32.

(** Conversion of an [int] (or the result of unsigned arithmetic) to
    [unsigned]. *)
Definition to_unsigned (z : Z) : Z := z mod UINT_MOD.

(** Conversion of an [unsigned] to [int], as every NetBSD compiler does it. *)
Definition to_int (u : Z) : Z :=
  let r := u mod UINT_MOD in if r <? 2 ^ 31 then r else r - UINT_MOD.

(** Store into a [u_char]. *)
Definition to_u_char (z : Z) : Z := z mod 256.

(** ** Outcomes of partial code *)

Inductive outcome (A : Type) : Type :=
| Done (a : A)
| Undefined
| Timeout.
Arguments Done {A} a.
Arguments Undefined {A}.
Arguments Timeout {A}.

Global Instance outcome_ret : MRet outcome := fun A a => Done a.

Global Instance outcome_bind : MBind outcome := fun A B k o =>
  match o with
  | Done a => k a
  | Undefined => Undefined
  | Timeout => Timeout
  end.

(** ** Constants *)

Definition MAX_CONTROLS : Z := 64.
Definition MAX_CLASSES : Z := 16.
Definition MAX_CONTROL_LEN : nat := 64.
(** From <sys/audioio.h>. *)
Definition MAX_AUDIO_DEV_LEN : nat := 16.
Definition AUDIO_MIXER_LAST : Z := -1.

(** ** Data model *)

(** The [type] tag of a descriptor or control; the numbering is that of
    <sys/audioio.h>, so a zero-filled slot reads as [AUDIO_MIXER_CLASS]. *)
Inductive mixer_type : Type :=
| AUDIO_MIXER_CLASS
| AUDIO_MIXER_ENUM
| AUDIO_MIXER_SET
| AUDIO_MIXER_VALUE.

Global Instance mixer_type_eq_dec : EqDecision mixer_type.
Proof. solve_decision. Defined.

(** A member of an enum ([ord]) or set ([mask]) control. *)
Record mixer_member : Type := {
  label : string;
  ord : Z
}.

(** [struct mixer_devinfo] as the device fills it in; its [index] is the
    position in the enumeration. *)
Record mixer_devinfo : Type := {
  m_type : mixer_type;
  m_mixer_class : Z;
  m_next : Z;
  m_prev : Z;
  m_label : string;
  m_num_mem : Z;
  m_member : list mixer_member;
  m_num_channels : Z;
  m_delta : Z
}.

(** [struct aiomixer_control].  The anonymous union [e]/[s]/[v] is read only
    through the arm named by [type]; [e] and [s] share [num_mem]/[member]. *)
Record aiomixer_control : Type := {
  name : string;
  dev : Z;
  type : mixer_type;
  next : Z;
  prev : Z;
  current_chan : Z;
  chans_unlocked : bool;
  num_mem : Z;
  member : list mixer_member;
  num_channels : Z;
  delta : Z
}.

Record aiomixer_class : Type := {
  class_name : string;
  id : Z;
  controls : list aiomixer_control
}.

Definition ncontrols (c : aiomixer_class) : Z := Z.of_nat (length (controls c)).

(** [struct aiomixer]; [maxy] stands for [getmaxy(x->screen->window)]. *)
Record aiomixer : Type := {
  classes : list aiomixer_class;
  class_index : Z;
  control_index : Z;
  top_control : Z;
  maxy : Z
}.

Definition nclasses (x : aiomixer) : Z := Z.of_nat (length (classes x)).

(** [struct aiomixer x = {0}] in [main]. *)
Definition zero_control : aiomixer_control :=
  {| name := ""; dev := 0; type := AUDIO_MIXER_CLASS; next := 0; prev := 0;
     current_chan := 0; chans_unlocked := false;
     num_mem := 0; member := []; num_channels := 0; delta := 0 |}.

Definition zero_aiomixer (rows : Z) : aiomixer :=
  {| classes := []; class_index := 0; control_index := 0; top_control := 0;
     maxy := rows |}.

Definition set_classes (x : aiomixer) (cls : list aiomixer_class) : aiomixer :=
  {| classes := cls; class_index := class_index x;
     control_index := control_index x; top_control := top_control x;
     maxy := maxy x |}.

Definition set_controls (c : aiomixer_class) (cs : list aiomixer_control)
  : aiomixer_class :=
  {| class_name := class_name c; id := id c; controls := cs |}.

(** ** ControlCatalog *)

(** [aiomixer_get_class]: the first class with the given id, as its slot
    number. *)
Fixpoint get_class_from (cls : list aiomixer_class) (i : nat) (class_id : Z)
  : option (nat * aiomixer_class) :=
  match cls with
  | [] => None
  | c :: rest =>
      if id c =? class_id then Some (i, c)
      else get_class_from rest (S i) class_id
  end.

Definition aiomixer_get_class (x : aiomixer) (class_id : Z)
  : option (nat * aiomixer_class) :=
  get_class_from (classes x) 0%nat class_id.

(** [aiomixer_get_control]: classes in order, controls in order, first slot
    whose [dev] matches. *)
Fixpoint get_control_in (cs : list aiomixer_control) (d : Z)
  : option aiomixer_control :=
  match cs with
  | [] => None
  | c :: rest => if dev c =? d then Some c else get_control_in rest d
  end.

Fixpoint get_control_from (cls : list aiomixer_class) (d : Z)
  : option aiomixer_control :=
  match cls with
  | [] => None
  | k :: rest =>
      match get_control_in (controls k) d with
      | Some c => Some c
      | None => get_control_from rest d
      end
  end.

Definition aiomixer_get_control (x : aiomixer) (d : Z)
  : option aiomixer_control :=
  get_control_from (classes x) d.

(** The [while] loop of [find_root_control]; one unit of fuel per round.
    [ctrl->prev] of a null [ctrl] is [Undefined]. *)
Fixpoint find_root_loop (fuel : nat) (x : aiomixer) (ctrl : aiomixer_control)
  : outcome aiomixer_control :=
  if prev ctrl =? -1 then Done ctrl
  else
    match fuel with
    | O => Timeout
    | S fuel' =>
        match aiomixer_get_control x (prev ctrl) with
        | None => Undefined
        | Some c => find_root_loop fuel' x c
        end
    end.

Definition find_root_control (fuel : nat) (x : aiomixer) (d : Z)
  : outcome aiomixer_control :=
  match aiomixer_get_control x d with
  | None => Undefined
  | Some c => find_root_loop fuel x c
  end.

(** *** Names

    A name is the text held by a [char] array up to its terminator.
    [memcpy(dst, m.label.name, MAX_AUDIO_DEV_LEN)] into a zero-filled array
    keeps the first 16 characters. *)
Definition memcpy_label (l : string) : string :=
  String.substring 0 MAX_AUDIO_DEV_LEN l.

Fixpoint spaces (n : nat) : string :=
  match n with
  | O => ""
  | S n' => String (Ascii.ascii_of_nat 32) (spaces n')
  end.

Definition newline : string := String (Ascii.ascii_of_nat 10) "".

(** The conversion [%.Ns]: at most [N] characters. *)
Definition fmt_prec (p : nat) (s : string) : string := String.substring 0 p s.

(** The conversion [%Ns]: right-justified in a field of at least [N]. *)
Definition fmt_width (w : nat) (s : string) : string :=
  spaces (w - String.length s)%nat +:+ s.

(** [snprintf(buf, size, ...)] keeps [size - 1] characters. *)
Definition snprintf (size : nat) (s : string) : string :=
  String.substring 0 (size - 1)%nat s.

(** The three [snprintf] calls of [aiomixer_devinfo]: ["%.16s.%16s\n"] in
    the enum and value cases, ["%.16s.%.16s\n"] in the set case. *)
Definition composite_name (ty : mixer_type) (root lbl : string) : string :=
  match ty with
  | AUDIO_MIXER_SET =>
      snprintf MAX_CONTROL_LEN
        (fmt_prec 16 root +:+ "." +:+ fmt_prec 16 lbl +:+ newline)
  | _ =>
      snprintf MAX_CONTROL_LEN
        (fmt_prec 16 root +:+ "." +:+ fmt_width 16 lbl +:+ newline)
  end.

(** *** Construction *)

(** First loop of [aiomixer_devinfo], one descriptor. *)
Definition devinfo_class (x : aiomixer) (m : mixer_devinfo) : aiomixer :=
  if decide (m_type m = AUDIO_MIXER_CLASS) then
    if nclasses x <? MAX_CLASSES then
      set_classes x
        (classes x ++
           [ {| class_name := memcpy_label (m_label m);
                id := m_mixer_class m; controls := [] |} ])
    else x
  else x.

(** [class->controls[class->ncontrols++]] holding [c], for the class in
    slot [k]. *)
Definition push_control (x : aiomixer) (k : nat) (cl : aiomixer_class)
    (c : aiomixer_control) : aiomixer :=
  set_classes x (<[k := set_controls cl (controls cl ++ [c])]> (classes x)).

(** The name stored for a descriptor.  [x] already counts the new, still
    zero-filled slot.  [find_root_control] hands back only pointers it has
    read through, so the test [prev_ctrl != NULL] that follows it passes
    whenever it is reached. *)
Definition control_name (fuel : nat) (x : aiomixer) (m : mixer_devinfo)
  : outcome string :=
  if m_prev m =? -1 then Done (memcpy_label (m_label m))
  else
    prev_ctrl ← find_root_control fuel x (m_prev m);
    Done (composite_name (m_type m) (name prev_ctrl) (m_label m)).

(** The fields stored after the name.  The loops that copy the member
    table do not test [num_mem] against the 32 slots of [member[]]: the
    fields are those the source stores for a table of at most 32 members,
    and statements that promise a catalog for every descriptor carry that
    bound ([descriptor_fits]). *)
Definition fill_control (index : Z) (m : mixer_devinfo) (nm : string)
  : aiomixer_control :=
  match m_type m with
  | AUDIO_MIXER_VALUE =>
      {| name := nm; dev := index; type := AUDIO_MIXER_VALUE;
         next := m_next m; prev := m_prev m;
         current_chan := 0; chans_unlocked := false;
         num_mem := 0; member := [];
         num_channels := m_num_channels m;
         delta := if m_delta m =? 0 then 8 else m_delta m |}
  | ty =>
      {| name := nm; dev := index; type := ty;
         next := m_next m; prev := m_prev m;
         current_chan := 0; chans_unlocked := false;
         num_mem := m_num_mem m;
         member := take (Z.to_nat (m_num_mem m)) (m_member m);
         num_channels := 0; delta := 0 |}
  end.

(** Second loop of [aiomixer_devinfo], one descriptor with its index. *)
Definition devinfo_control (fuel : nat) (x : aiomixer) (index : Z)
    (m : mixer_devinfo) : outcome aiomixer :=
  match m_type m with
  | AUDIO_MIXER_CLASS => Done x
  | _ =>
      match aiomixer_get_class x (m_mixer_class m) with
      | Some (k, cl) =>
          if ncontrols cl <? MAX_CONTROLS then
            nm ← control_name fuel (push_control x k cl zero_control) m;
            Done (push_control x k cl (fill_control index m nm))
          else Done x
      | None => Done x
      end
  end.

Fixpoint devinfo_controls (fuel : nat) (x : aiomixer) (index : Z)
    (ds : list mixer_devinfo) : outcome aiomixer :=
  match ds with
  | [] => Done x
  | m :: rest =>
      x' ← devinfo_control fuel x index m;
      devinfo_controls fuel x' (index + 1) rest
  end.

(** [aiomixer_devinfo]: both loops enumerate the same device. *)
Definition aiomixer_devinfo (fuel : nat) (x : aiomixer)
    (ds : list mixer_devinfo) : outcome aiomixer :=
  devinfo_controls fuel (foldl devinfo_class x ds) 0 ds.

(** Descriptors used in examples. *)
Definition class_desc (cid : Z) (lbl : string) : mixer_devinfo :=
  {| m_type := AUDIO_MIXER_CLASS; m_mixer_class := cid; m_next := -1;
     m_prev := -1; m_label := lbl; m_num_mem := 0; m_member := [];
     m_num_channels := 0; m_delta := 0 |}.

Definition onoff : list mixer_member :=
  [ {| label := "off"; ord := 0 |}; {| label := "on"; ord := 1 |} ].

Definition enum_desc (cid prv : Z) (lbl : string) : mixer_devinfo :=
  {| m_type := AUDIO_MIXER_ENUM; m_mixer_class := cid; m_next := -1;
     m_prev := prv; m_label := lbl; m_num_mem := 2; m_member := onoff;
     m_num_channels := 0; m_delta := 0 |}.

Definition set_desc (cid prv : Z) (lbl : string) : mixer_devinfo :=
  {| m_type := AUDIO_MIXER_SET; m_mixer_class := cid; m_next := -1;
     m_prev := prv; m_label := lbl; m_num_mem := 2; m_member := onoff;
     m_num_channels := 0; m_delta := 0 |}.

Definition value_desc (cid prv : Z) (lbl : string) (chans dlt : Z)
  : mixer_devinfo :=
  {| m_type := AUDIO_MIXER_VALUE; m_mixer_class := cid; m_next := -1;
     m_prev := prv; m_label := lbl; m_num_mem := 0; m_member := [];
     m_num_channels := chans; m_delta := dlt |}.

(** ** ViewportWindow *)

Definition zero_class : aiomixer_class :=
  {| class_name := ""; id := 0; controls := [] |}.

(** [&x->classes[x->class_index]]; a slot past the fill count holds zeros. *)
Definition current_class (x : aiomixer) : aiomixer_class :=
  default zero_class (classes x !! Z.to_nat (class_index x)).

(** [&class->controls[x->control_index]]. *)
Definition current_control (x : aiomixer) : aiomixer_control :=
  default zero_control
    (controls (current_class x) !! Z.to_nat (control_index x)).

(** Rows added to [y] by the [switch] in [control_within_bounds].  The
    product and the sum that takes it are written without wrap-around:
    they are the source's [int] ones for a control of at most 8 channels
    on a screen whose row count leaves room for one more control
    ([channels_ok], [maxy x < 2 ^ 31 - 24]), and statements about rows
    carry those bounds. *)
Definition control_height (c : aiomixer_control) : Z :=
  match type c with
  | AUDIO_MIXER_ENUM | AUDIO_MIXER_SET => 3
  | AUDIO_MIXER_VALUE => 3 * num_channels c
  | AUDIO_MIXER_CLASS => 0
  end.

(** The [for] loop of [control_within_bounds] over the slots from [i] on. *)
Fixpoint within_bounds_loop (cs : list aiomixer_control) (i index y max_y : Z)
  : bool :=
  match cs with
  | [] => true
  | c :: rest =>
      let y' := y + control_height c in
      if y' >=? max_y then false
      else if i =? index then true
      else within_bounds_loop rest (i + 1) index y' max_y
  end.

Definition control_within_bounds (x : aiomixer) (index : Z) : bool :=
  let class := current_class x in
  let max_y := maxy x - 3 in
  if index <? top_control x then false
  else
    within_bounds_loop
      (drop (Z.to_nat (top_control x)) (controls class))
      (top_control x) index 5 max_y.

Definition set_top_control (x : aiomixer) (t : Z) : aiomixer :=
  {| classes := classes x; class_index := class_index x;
     control_index := control_index x; top_control := t; maxy := maxy x |}.

Definition set_control_index (x : aiomixer) (i : Z) : aiomixer :=
  {| classes := classes x; class_index := class_index x;
     control_index := i; top_control := top_control x; maxy := maxy x |}.

Definition set_class_index (x : aiomixer) (i : Z) : aiomixer :=
  {| classes := classes x; class_index := i;
     control_index := control_index x; top_control := top_control x;
     maxy := maxy x |}.

(** [while (!control_within_bounds(x, x->control_index)) x->top_control += 1;] *)
Fixpoint scroll_down (fuel : nat) (x : aiomixer) : outcome aiomixer :=
  if control_within_bounds x (control_index x) then Done x
  else
    match fuel with
    | O => Timeout
    | S fuel' =>
        scroll_down fuel' (set_top_control x (to_unsigned (top_control x + 1)))
    end.

(** The scroll adjustment of [select_class_widget], after
    [x->control_index = index]. *)
Definition adjust_top_control (fuel : nat) (x : aiomixer) : outcome aiomixer :=
  let x1 :=
    if top_control x >? control_index x
    then set_top_control x (control_index x) else x in
  if top_control x1 <? control_index x1 then scroll_down fuel x1 else Done x1.

(** ** FocusEngine *)

(** The widget a call ends up waiting in.  [select_class] starts with
    [activateCDKButtonbox(x->class_buttons, ...)]: the class selector.
    [No_widget] is the fall-through of the [switch] on a slot whose type is
    none of enum, set and value. *)
Inductive activation : Type :=
| Activate_class_buttons
| Activate_enum_widget (index : Z)
| Activate_set_widget (index : Z)
| Activate_value_widget (index chan : Z)
| No_widget.

(** [select_class_widget] from [control = &class->controls[index]] on, up to
    the [activateCDK...] call.  The calls in between that only read the
    device into widgets and redraw them leave [struct aiomixer] as it is. *)
Definition select_class_widget_body (fuel : nat) (x : aiomixer) (index : Z)
  : outcome (aiomixer * activation) :=
  let class := current_class x in
  let control := default zero_control (controls class !! Z.to_nat index) in
  x' ← adjust_top_control fuel (set_control_index x index);
  Done (x',
        match type control with
        | AUDIO_MIXER_ENUM => Activate_enum_widget index
        | AUDIO_MIXER_SET => Activate_set_widget index
        | AUDIO_MIXER_VALUE =>
            Activate_value_widget index (current_chan control)
        | AUDIO_MIXER_CLASS => No_widget
        end).

(** [select_class_widget].  Its call [select_class_widget(x, 0)] for an
    index past the end passes both tests on re-entry, the class having a
    control, and runs the body at 0. *)
Definition select_class_widget (fuel : nat) (x : aiomixer) (index : Z)
  : outcome (aiomixer * activation) :=
  let class := current_class x in
  if (index <? 0) || (ncontrols class <? 1) then
    Done (x, Activate_class_buttons)
  else if to_unsigned index >=? ncontrols class then
    select_class_widget_body fuel x 0
  else select_class_widget_body fuel x index.

(** The slot [select_class_widget] focuses when asked for an index that is
    not negative, in a class that has controls. *)
Definition wrapped_index (x : aiomixer) (index : Z) : Z :=
  if index <? ncontrols (current_class x) then index else 0.

(** Update of the control in slot [index] of the current class. *)
Definition update_control (x : aiomixer) (index : Z)
    (f : aiomixer_control -> aiomixer_control) : aiomixer :=
  set_classes x
    (alter (fun cl => set_controls cl (alter f (Z.to_nat index) (controls cl)))
       (Z.to_nat (class_index x)) (classes x)).

Definition set_current_chan (v : Z) (c : aiomixer_control) : aiomixer_control :=
  {| name := name c; dev := dev c; type := type c; next := next c;
     prev := prev c; current_chan := v; chans_unlocked := chans_unlocked c;
     num_mem := num_mem c; member := member c;
     num_channels := num_channels c; delta := delta c |}.

Definition set_chans_unlocked (b : bool) (c : aiomixer_control)
  : aiomixer_control :=
  {| name := name c; dev := dev c; type := type c; next := next c;
     prev := prev c; current_chan := current_chan c; chans_unlocked := b;
     num_mem := num_mem c; member := member c;
     num_channels := num_channels c; delta := delta c |}.

(** [select_class_widget] after the activation of the control in slot
    [index] has returned [result]. *)
Definition select_class_widget_resume (fuel : nat) (x : aiomixer)
    (index result : Z) : outcome (aiomixer * activation) :=
  let class := current_class x in
  let control := default zero_control (controls class !! Z.to_nat index) in
  match type control with
  | AUDIO_MIXER_ENUM | AUDIO_MIXER_SET =>
      if result =? -1 then Done (x, Activate_class_buttons)
      else select_class_widget fuel x (index + 1)
  | AUDIO_MIXER_VALUE =>
      if result =? -1 then Done (x, Activate_class_buttons)
      else if current_chan control <? num_channels control - 1 then
        select_class_widget fuel
          (update_control x index (set_current_chan (current_chan control + 1)))
          index
      else
        select_class_widget fuel
          (update_control x index (set_current_chan 0)) (index + 1)
  | AUDIO_MIXER_CLASS => Done (x, No_widget)
  end.

(** [select_class] after [activateCDKButtonbox(x->class_buttons, ...)] has
    returned [result]. *)
Definition select_class_resume (fuel : nat) (x : aiomixer) (result : Z)
  : outcome (aiomixer * activation) :=
  let x' :=
    if result =? -1 then x
    else
      set_class_index
        (if to_unsigned result =? class_index x then x
         else set_control_index x 0)
        (to_unsigned result) in
  select_class_widget fuel x' 0.

(** ** ValueSync *)

(** [mixer_ctrl_t] of <sys/audioio.h>.  [mc_ord] is [un.ord] or [un.mask],
    [mc_num_channels] and [mc_level] are [un.value]; [mc_level] is the
    array [u_char level[8]].  A request uses one arm of the union, the one
    its [mc_type] names. *)
Record mixer_ctrl_t : Type := {
  mc_dev : Z;
  mc_type : mixer_type;
  mc_ord : Z;
  mc_num_channels : Z;
  mc_level : list Z
}.

(** The device behind [fd]: its answer to [AUDIO_MIXER_READ] ([None] is
    the failure, -1) and to [AUDIO_MIXER_WRITE] ([false] is the failure). *)
Record device : Type := {
  mixer_read : mixer_ctrl_t -> option mixer_ctrl_t;
  mixer_write : mixer_ctrl_t -> bool
}.

Inductive ioctl_request : Type := AUDIO_MIXER_READ | AUDIO_MIXER_WRITE.

(** What a call does to the world outside [struct aiomixer], in order. *)
Inductive event : Type :=
| Ev_ioctl (rq : ioctl_request) (arg : mixer_ctrl_t)
| Ev_warning (rq : ioctl_request) (d : Z)
| Ev_setCDKSliderValue (chan value : Z)
| Ev_drawCDKSlider (chan : Z)
| Ev_setCDKButtonboxCurrentButton (button : Z)
| Ev_setCDKButtonboxCurrentButton_class (button : Z)
| Ev_destroy_class_widgets
| Ev_create_class_widgets (class : Z).

Definition set_mc_level (d : mixer_ctrl_t) (l : list Z) : mixer_ctrl_t :=
  {| mc_dev := mc_dev d; mc_type := mc_type d; mc_ord := mc_ord d;
     mc_num_channels := mc_num_channels d; mc_level := l |}.

(** [dev.un.value.level[i] = level]. *)
Definition store_level (d : mixer_ctrl_t) (i level : Z) : mixer_ctrl_t :=
  set_mc_level d (<[Z.to_nat i := to_u_char level]> (mc_level d)).

(** The [for] loop of the first branch of [set_level], [count] rounds from
    channel [i]; both arrays it indexes have 8 slots. *)
Fixpoint set_level_all (count : nat) (i level : Z) (d : mixer_ctrl_t)
  : outcome (mixer_ctrl_t * list event) :=
  match count with
  | O => Done (d, [])
  | S count' =>
      if 8 <=? i then Undefined
      else
        r ← set_level_all count' (i + 1) level (store_level d i level);
        Done (r.1,
              Ev_setCDKSliderValue i level :: Ev_drawCDKSlider i :: r.2)
  end.

(** The write that ends [set_level]. *)
Definition set_level_write (fd : device) (d : mixer_ctrl_t) : list event :=
  if mixer_write fd d then [Ev_ioctl AUDIO_MIXER_WRITE d]
  else [Ev_ioctl AUDIO_MIXER_WRITE d; Ev_warning AUDIO_MIXER_WRITE (mc_dev d)].

(** [mixer_ctrl_t dev = {0}] with [dev.dev], [dev.type] and
    [dev.un.value.num_channels] set from the control. *)
Definition value_request (control : aiomixer_control) : mixer_ctrl_t :=
  {| mc_dev := dev control; mc_type := AUDIO_MIXER_VALUE; mc_ord := 0;
     mc_num_channels := num_channels control; mc_level := replicate 8 0 |}.

Definition set_level (fd : device) (control : aiomixer_control)
    (level channel : Z) : outcome (list event) :=
  let dev0 := value_request control in
  if negb (chans_unlocked control) then
    r ← set_level_all (Z.to_nat (num_channels control)) 0 level dev0;
    Done (r.2 ++ set_level_write fd r.1)
  else
    match mixer_read fd dev0 with
    | None =>
        Done [Ev_ioctl AUDIO_MIXER_READ dev0;
              Ev_warning AUDIO_MIXER_READ (mc_dev dev0)]
    | Some d =>
        if (channel <? 0) || (8 <=? channel) then Undefined
        else
          Done (Ev_ioctl AUDIO_MIXER_READ dev0
                  :: Ev_setCDKSliderValue channel level
                  :: Ev_drawCDKSlider channel
                  :: set_level_write fd (store_level d channel level))
    end.

(** The device calls among the events. *)
Definition is_ioctl (e : event) : bool :=
  match e with Ev_ioctl _ _ => true | _ => false end.

Definition is_warning (e : event) : bool :=
  match e with Ev_warning _ _ => true | _ => false end.

Definition is_display (e : event) : bool :=
  match e with
  | Ev_setCDKSliderValue _ _ | Ev_drawCDKSlider _ => true
  | _ => false
  end.

Definition ioctls (tr : list event) : list event := List.filter is_ioctl tr.

Definition warnings (tr : list event) : list event := List.filter is_warning tr.

(** The values the sliders of a control show after the events, from the
    values they showed before.  The sliders are made with the range 0..255
    ([newCDKSlider] in [create_class_widgets]) and the toolkit keeps a value
    it is given inside the range. *)
Definition display_event (sliders : list Z) (e : event) : list Z :=
  match e with
  | Ev_setCDKSliderValue chan v =>
      <[Z.to_nat chan := Z.max 0 (Z.min 255 v)]> sliders
  | _ => sliders
  end.

Definition display_after (tr : list event) (sliders : list Z) : list Z :=
  foldl display_event sliders tr.

(** ** Key callbacks *)

Inductive key : Type :=
| KEY_UP | KEY_DOWN | KEY_LEFT | KEY_RIGHT
| Key_h | Key_j | Key_k | Key_l | Key_u | Key_m
| Key_escape.

Global Instance key_eq_dec : EqDecision key.
Proof. solve_decision. Defined.

(** How a callback ends: with its return value, inside a widget that
    [select_class_widget] has activated, or in [exit]. *)
Inductive callback_end : Type :=
| Returns (x : aiomixer) (ret : bool) (tr : list event)
| Refocus (x : aiomixer) (a : activation)
| Exits (status : Z).

Definition refocus (o : outcome (aiomixer * activation)) : outcome callback_end :=
  r ← o; Done (Refocus r.1 r.2).

(** [set_enum] and [set_set]: one write, a warning when it fails. *)
Definition set_enum_or_set (fd : device) (ty : mixer_type) (dev_id v : Z)
  : list event :=
  set_level_write fd
    {| mc_dev := dev_id; mc_type := ty; mc_ord := v; mc_num_channels := 0;
       mc_level := replicate 8 0 |}.

(** [control->e.member[i]] (or [s]): the array has 32 slots, zero past the
    members copied in. *)
Definition zero_member : mixer_member := {| label := ""; ord := 0 |}.

Definition member_at (c : aiomixer_control) (i : Z) : outcome mixer_member :=
  if (i <? 0) || (32 <=? i) then Undefined
  else Done (default zero_member (member c !! Z.to_nat i)).

(** The [left]/[right] cases of [key_callback_control_buttons]: [current]
    is the new index, already reduced by the button count. *)
Definition control_buttons_commit (fd : device) (x : aiomixer)
    (control : aiomixer_control) (current : Z) (arrow : bool)
  : outcome callback_end :=
  wr ← match type control with
       | AUDIO_MIXER_SET | AUDIO_MIXER_ENUM =>
           m ← member_at control current;
           Done (set_enum_or_set fd (type control) (dev control) (ord m))
       | _ => Done []
       end;
  Done (Returns x false
          (wr ++ if arrow then []
                 else [Ev_setCDKButtonboxCurrentButton current])).

(** [key_callback_control_buttons]; [current] and [count] are
    [getCDKButtonboxCurrentButton(widget)] and
    [getCDKButtonboxButtonCount(widget)].  [%] on two [int]s truncates
    towards zero ([Z.rem]) and is not defined for a zero divisor. *)
Definition key_callback_control_buttons (fd : device) (fuel : nat)
    (x : aiomixer) (current count : Z) (k : key) : outcome callback_end :=
  let control := current_control x in
  match k with
  | Key_k | KEY_UP =>
      refocus (select_class_widget fuel x
                 (to_int (to_unsigned (control_index x - 1))))
  | Key_j | KEY_DOWN =>
      refocus (select_class_widget fuel x
                 (to_int (to_unsigned (control_index x + 1))))
  | Key_h | KEY_LEFT =>
      if count =? 0 then Undefined
      else control_buttons_commit fd x control (Z.rem (current - 1) count)
             (bool_decide (k = KEY_LEFT))
  | Key_l | KEY_RIGHT =>
      if count =? 0 then Undefined
      else control_buttons_commit fd x control (Z.rem (current + 1) count)
             (bool_decide (k = KEY_RIGHT))
  | _ => Done (Returns x false [])
  end.

(** [key_callback_class_buttons]; [current] is
    [getCDKButtonboxCurrentButton(x->class_buttons)], an [int].  In
    [(current - 1) % x->nclasses] the right operand is [unsigned], so the
    left one is converted to [unsigned] before the division. *)
Definition class_buttons_move (x : aiomixer) (target : Z) (arrow : bool)
  : outcome callback_end :=
  if nclasses x =? 0 then Undefined
  else
    let ci := to_unsigned target mod nclasses x in
    Done (Returns (set_class_index x ci) false
            ([Ev_destroy_class_widgets; Ev_create_class_widgets ci]
               ++ if arrow then []
                  else [Ev_setCDKButtonboxCurrentButton_class (to_int ci)])).

Definition key_callback_class_buttons (fuel : nat) (x : aiomixer)
    (current : Z) (k : key) : outcome callback_end :=
  match k with
  | Key_escape => Done (Exits 0)
  | Key_k | KEY_UP => Done (Returns x true [])
  | Key_j | KEY_DOWN => refocus (select_class_widget fuel x 0)
  | Key_h | KEY_LEFT =>
      class_buttons_move x (current - 1) (bool_decide (k = KEY_LEFT))
  | Key_l | KEY_RIGHT =>
      class_buttons_move x (current + 1) (bool_decide (k = KEY_RIGHT))
  | _ => Done (Returns x false [])
  end.

(** [key_callback_slider]; [value] is [getCDKSliderValue(widget)], and the
    slider's low and high values are the 0 and 255 it was made with.
    [new_value] is an [int]: a difference or sum past the ends of the type
    is the wrapped one. *)
Definition key_callback_slider (fd : device) (fuel : nat) (x : aiomixer)
    (value : Z) (k : key) : outcome callback_end :=
  let control := current_control x in
  match k with
  | Key_k | KEY_UP =>
      if current_chan control >? 0 then
        refocus (select_class_widget fuel
                   (update_control x (control_index x)
                      (set_current_chan (current_chan control - 1)))
                   (to_int (control_index x)))
      else
        refocus (select_class_widget fuel
                   (update_control x (control_index x) (set_current_chan 0))
                   (to_int (to_unsigned (control_index x - 1))))
  | Key_j | KEY_DOWN =>
      if current_chan control <? num_channels control - 1 then
        refocus (select_class_widget fuel
                   (update_control x (control_index x)
                      (set_current_chan (current_chan control + 1)))
                   (to_int (control_index x)))
      else
        refocus (select_class_widget fuel
                   (update_control x (control_index x) (set_current_chan 0))
                   (to_int (to_unsigned (control_index x + 1))))
  | Key_h | KEY_LEFT =>
      let new_value := to_int (value - delta control) in
      let new_value := if new_value <? 0 then 0 else new_value in
      tr ← set_level fd control new_value (current_chan control);
      Done (Returns x false tr)
  | Key_l | KEY_RIGHT =>
      let new_value := to_int (value + delta control) in
      let new_value := if new_value >? 255 then 255 else new_value in
      tr ← set_level fd control new_value (current_chan control);
      Done (Returns x false tr)
  | Key_u =>
      Done (Returns
              (update_control x (control_index x)
                 (set_chans_unlocked (negb (chans_unlocked control))))
              false [])
  | Key_m => Done (Returns x false [])
  | Key_escape => Done (Returns x false [])
  end.

(** ** What a catalog records of its descriptors *)

(** The control [c] of class [cl] was stored from the descriptor whose
    index it carries, and that descriptor names the class. *)
Definition control_from (ds : list mixer_devinfo) (cl : aiomixer_class)
    (c : aiomixer_control) : Prop :=
  0 <= dev c /\
  exists m, ds !! Z.to_nat (dev c) = Some m /\
            m_mixer_class m = id cl /\
            m_type m = type c /\ type c <> AUDIO_MIXER_CLASS.

Definition catalog_ok (ds : list mixer_devinfo) (x : aiomixer) : Prop :=
  forall cl c, cl ∈ classes x -> c ∈ controls cl -> control_from ds cl c.

Definition within_capacity (x : aiomixer) : Prop :=
  nclasses x <= MAX_CLASSES /\
  forall cl, cl ∈ classes x -> ncontrols cl <= MAX_CONTROLS.

(** The name of every control without parent fits a device label. *)
Definition names_fit (x : aiomixer) : Prop :=
  forall cl c, cl ∈ classes x -> c ∈ controls cl -> prev c = -1 ->
               (String.length (name c) <= 16)%nat.

(** The class ids of the class descriptors, in enumeration order. *)
Definition class_ids (ds : list mixer_devinfo) : list Z :=
  m_mixer_class <$>
    List.filter (fun m => bool_decide (m_type m = AUDIO_MIXER_CLASS)) ds.

(** Rows taken by the controls [t], ..., [f] of the current class. *)
Definition heights_sum (cs : list aiomixer_control) : Z :=
  foldr (fun c acc => control_height c + acc) 0 cs.

Definition rows_between (x : aiomixer) (t f : Z) : Z :=
  heights_sum
    (take (Z.to_nat (f - t + 1))
       (drop (Z.to_nat t) (controls (current_class x)))).

(** ** Device reads into widgets *)

(** The [for] loop of [enum_get_and_select] and [set_get_and_select]:
    [count] members from slot [i], the first whose value is [v] is made the
    current button. *)
Fixpoint select_member (count : nat) (i : Z) (control : aiomixer_control)
    (v : Z) : outcome (list event) :=
  match count with
  | O => Done []
  | S count' =>
      m ← member_at control i;
      if ord m =? v then Done [Ev_setCDKButtonboxCurrentButton i]
      else select_member count' (i + 1) control v
  end.

(** [mixer_ctrl_t dev = {0}] with [dev.dev] and [dev.type] set. *)
Definition buttons_request (ty : mixer_type) (control : aiomixer_control)
  : mixer_ctrl_t :=
  {| mc_dev := dev control; mc_type := ty; mc_ord := 0; mc_num_channels := 0;
     mc_level := replicate 8 0 |}.

(** [enum_get_and_select] and [set_get_and_select] differ in the type they
    ask for and in the name of the union arm they compare. *)
Definition buttons_get_and_select (ty : mixer_type) (fd : device)
    (control : aiomixer_control) : outcome (list event) :=
  let dev0 := buttons_request ty control in
  match mixer_read fd dev0 with
  | None =>
      Done [Ev_ioctl AUDIO_MIXER_READ dev0;
            Ev_warning AUDIO_MIXER_READ (mc_dev dev0)]
  | Some d =>
      tr ← select_member (Z.to_nat (num_mem control)) 0 control (mc_ord d);
      Done (Ev_ioctl AUDIO_MIXER_READ dev0 :: tr)
  end.

Definition enum_get_and_select : device -> aiomixer_control -> outcome (list event) :=
  buttons_get_and_select AUDIO_MIXER_ENUM.

Definition set_get_and_select : device -> aiomixer_control -> outcome (list event) :=
  buttons_get_and_select AUDIO_MIXER_SET.

(** The [for] loop of [levels_get_and_set]: [count] channels from [chan];
    [value_widget] and [level] have 8 slots. *)
Fixpoint set_sliders (count : nat) (chan : Z) (d : mixer_ctrl_t)
  : outcome (list event) :=
  match count with
  | O => Done []
  | S count' =>
      if 8 <=? chan then Undefined
      else
        tr ← set_sliders count' (chan + 1) d;
        Done (Ev_setCDKSliderValue chan
                (default 0 (mc_level d !! Z.to_nat chan)) :: tr)
  end.

Definition levels_get_and_set (fd : device) (control : aiomixer_control)
  : outcome (list event) :=
  let dev0 := value_request control in
  match mixer_read fd dev0 with
  | None =>
      Done [Ev_ioctl AUDIO_MIXER_READ dev0;
            Ev_warning AUDIO_MIXER_READ (mc_dev dev0)]
  | Some d =>
      tr ← set_sliders (Z.to_nat (num_channels control)) 0 d;
      Done (Ev_ioctl AUDIO_MIXER_READ dev0 :: tr)
  end.

(** ** Layout of the visible widgets *)

(** A widget of the current class: the button box of the enum or set
    control in slot [i], or the slider of channel [chan] of the value
    control in slot [i]. *)
Inductive widget : Type :=
| Enum_widget (i : Z)
| Set_widget (i : Z)
| Value_widget (i chan : Z).

(** Calls of [reposition_visible_widgets] on the widgets: the move to
    [INT_MAX] with the erase, the move to row [y], the draw, and the three
    draws that end it. *)
Inductive layout_event : Type :=
| Hide (w : widget)
| Move (w : widget) (y : Z)
| Draw (w : widget)
| Draw_frame.

(** The sliders of a value control, channels [chan], [chan + 1], ...:
    [value_widget] has 8 slots. *)
Fixpoint slider_widgets (count : nat) (i chan : Z) : outcome (list widget) :=
  match count with
  | O => Done []
  | S count' =>
      if 8 <=? chan then Undefined
      else ws ← slider_widgets count' i (chan + 1);
           Done (Value_widget i chan :: ws)
  end.

(** The widgets the [switch] on [control->type] names. *)
Definition control_widgets (c : aiomixer_control) (i : Z)
  : outcome (list widget) :=
  match type c with
  | AUDIO_MIXER_ENUM => Done [Enum_widget i]
  | AUDIO_MIXER_SET => Done [Set_widget i]
  | AUDIO_MIXER_VALUE => slider_widgets (Z.to_nat (num_channels c)) i 0
  | AUDIO_MIXER_CLASS => Done []
  end.

(** A loop over the controls from slot [i] on that applies [f] to each of
    their widgets. *)
Fixpoint each_widget (f : widget -> layout_event)
    (cs : list aiomixer_control) (i : Z) : outcome (list layout_event) :=
  match cs with
  | [] => Done []
  | c :: rest =>
      ws ← control_widgets c i;
      evs ← each_widget f rest (i + 1);
      Done ((f <$> ws) ++ evs)
  end.

(** Rows [y], [y + 3], ... for the widgets of one control. *)
Fixpoint move_widgets (ws : list widget) (y : Z) : list layout_event :=
  match ws with
  | [] => []
  | w :: rest => Move w y :: move_widgets rest (y + 3)
  end.

(** The second loop of [reposition_visible_widgets], from slot [i] at row
    [y]: the slot at which it breaks ([max_control], the control count when
    it does not break) and the moves it makes. *)
Fixpoint place_visible (x : aiomixer) (cs : list aiomixer_control) (i y : Z)
  : outcome (Z * list layout_event) :=
  match cs with
  | [] => Done (ncontrols (current_class x), [])
  | c :: rest =>
      if negb (control_within_bounds x i) then Done (i, [])
      else
        ws ← control_widgets c i;
        r ← place_visible x rest (i + 1) (y + 3 * Z.of_nat (length ws));
        Done (r.1, move_widgets ws y ++ r.2)
  end.

(** [reposition_visible_widgets]: [max_control] and the calls made. *)
Definition reposition_visible_widgets (x : aiomixer)
  : outcome (Z * list layout_event) :=
  let class := current_class x in
  let top := Z.to_nat (top_control x) in
  hidden ← each_widget Hide (controls class) 0;
  r ← place_visible x (drop top (controls class)) (top_control x) 5;
  drawn ← each_widget Draw
             (take (Z.to_nat (r.1 - top_control x)) (drop top (controls class)))
             (top_control x);
  Done (r.1, hidden ++ r.2 ++ drawn ++ [Draw_frame]).

(** ** Global keys *)



(** ** More of what a catalog records *)

(** The control [c] of the catalog [x] holds the fields of the descriptor
    whose index it carries, and the name computed for it: the label when
    the descriptor has no parent, and otherwise the composite of the name
    of the root that the walk from its parent reaches in [x]. *)
Definition control_ok (fuel : nat) (ds : list mixer_devinfo) (x : aiomixer)
    (c : aiomixer_control) : Prop :=
  0 <= dev c /\
  exists m,
    ds !! Z.to_nat (dev c) = Some m /\
    m_type m <> AUDIO_MIXER_CLASS /\
    c = fill_control (dev c) m (name c) /\
    if m_prev m =? -1 then name c = memcpy_label (m_label m)
    else exists root,
        find_root_control fuel x (m_prev m) = Done root /\
        name c = composite_name (m_type m) (name root) (m_label m).

(** Every control of the catalog satisfies [P]. *)
Definition all_controls (P : aiomixer_control -> Prop) (x : aiomixer) : Prop :=
  forall cl c, cl ∈ classes x -> c ∈ controls cl -> P c.

(** What the second loop of [aiomixer_devinfo] keeps true of the catalog,
    before the descriptor with index [index] is handled. *)
Definition catalog_inv (fuel : nat) (ds : list mixer_devinfo) (index : Z)
    (x : aiomixer) : Prop :=
  all_controls (fun c => dev c < index) x /\
  all_controls (control_ok fuel ds x) x /\
  all_controls (fun c => aiomixer_get_control x (dev c) = Some c) x /\
  (forall cl i j ci cj,
      cl ∈ classes x -> controls cl !! i = Some ci ->
      controls cl !! j = Some cj -> (i < j)%nat -> dev ci < dev cj).

(** A value control has between 0 and 8 channels, the size of
    [value_widget] and of the device's level array. *)
Definition channels_ok (c : aiomixer_control) : Prop :=
  type c = AUDIO_MIXER_VALUE -> 0 <= num_channels c <= 8.

(** The slot of the control a widget belongs to. *)
Definition widget_slot (w : widget) : Z :=
  match w with
  | Enum_widget i | Set_widget i | Value_widget i _ => i
  end.

(** ** The widget of a control *)

(** The widget the [switch] at the end of [select_class_widget] activates
    for the control [c] in slot [index]. *)
Definition control_activation (c : aiomixer_control) (index : Z) : activation :=
  match type c with
  | AUDIO_MIXER_ENUM => Activate_enum_widget index
  | AUDIO_MIXER_SET => Activate_set_widget index
  | AUDIO_MIXER_VALUE => Activate_value_widget index (current_chan c)
  | AUDIO_MIXER_CLASS => No_widget
  end.

(** [control->e.member[i].ord] (or [control->s.member[i].mask]). *)
Definition member_ord (c : aiomixer_control) (i : Z) : Z :=
  ord (default zero_member (member c !! Z.to_nat i)).

(** The values a key of [key_callback_slider] steps a slider to. *)
Definition stepped_down (value dlt : Z) : Z := Z.max 0 (value - dlt).

Definition stepped_up (value dlt : Z) : Z := Z.min 255 (value + dlt).

(** ** Creating and destroying the widgets of a class *)

(** What [create_class_widgets] asks from outside the program and cannot
    know: whether [newCDKLabel] gives the heading label, whether [calloc] of
    [n] pointers gives memory, and whether the constructor of a widget
    gives one. *)
Record toolkit : Type := {
  label_ok : bool;
  calloc_ok : Z -> bool;
  widget_ok : widget -> bool
}.

(** Calls of [create_class_widgets], in order: the heading label made and
    drawn at row [y]; [newCDKButtonbox] and [newCDKSlider] with the row,
    the width or the step, the title and the button labels they are given;
    the events of a [..._get_and_select] or [levels_get_and_set] call; the
    key bindings of a widget ([add_control_button_binds],
    [add_slider_binds]); the draw of a widget. *)
Inductive create_event : Type :=
| Ev_newCDKLabel (y : Z)
| Ev_newCDKButtonbox (w : widget) (y width : Z) (title : string)
    (buttons : list string)
| Ev_newCDKSlider (w : widget) (y : Z) (title : string) (inc : Z)
| Ev_device (e : event)
| Ev_bind (w : widget)
| Ev_draw (w : widget).

(** How the function, or a part of it, ends: it goes on with row [y], or
    [quit_err]/[quit_perror] leaves the program with [status]. *)
Inductive created : Type :=
| Goes_on (y : Z) (evs : list create_event)
| Quits (status : Z) (evs : list create_event).

Definition created_after (evs : list create_event) (r : created) : created :=
  match r with
  | Goes_on y evs' => Goes_on y (evs ++ evs')
  | Quits status evs' => Quits status (evs ++ evs')
  end.

(** [make_enum_list] and [make_set_list]: the labels of the [num_mem]
    members, or [None] for the null pointer.  [calloc] of a negative count,
    converted to [size_t], overflows and gives the null pointer; the member
    array has 32 slots. *)
Definition make_list (tk : toolkit) (c : aiomixer_control)
  : outcome (option (list string)) :=
  if (num_mem c <? 0) || negb (calloc_ok tk (num_mem c)) then Done None
  else if 32 <? num_mem c then Undefined
  else
    Done (Some ((fun i => label (default zero_member (member c !! i)))
                  <$> seq 0 (Z.to_nat (num_mem c)))).

(** [sum_str_list_lengths]. *)
Definition sum_str_list_lengths (l : list string) : Z :=
  foldr (fun s acc => Z.of_nat (String.length s) + acc) 0 l.

(** The enum and set cases of the [switch] in [create_class_widgets]; the
    title is written into [char label[48]]. *)
Definition create_buttonbox (tk : toolkit) (fd : device) (ty : mixer_type)
    (c : aiomixer_control) (w : widget) (y max_y : Z) : outcome created :=
  l ← make_list tk c;
  match l with
  | None => Done (Quits 1 [])
  | Some list =>
      let title := snprintf 48 ("</16>" +:+ name c +:+ "<!16>") in
      let width := sum_str_list_lengths list + num_mem c + 10 in
      let new := Ev_newCDKButtonbox w y width title list in
      if negb (widget_ok tk w) then Done (Quits 1 [new])
      else
        tr ← buttons_get_and_select ty fd c;
        Done (Goes_on (y + 3)
                (new :: (Ev_device <$> tr)
                   ++ Ev_bind w
                   :: if y <? max_y then [Ev_draw w] else []))
  end.

(** The first loop of the value case: [count] sliders from channel [chan]
    at row [y]; [value_widget] has 8 slots. *)
Fixpoint create_sliders (tk : toolkit) (c : aiomixer_control) (i : Z)
    (count : nat) (chan y : Z) : outcome created :=
  match count with
  | O => Done (Goes_on y [])
  | S count' =>
      if 8 <=? chan then Undefined
      else
        let w := Value_widget i chan in
        let title :=
          snprintf 48
            ("</16>" +:+ name c +:+ " (channel " +:+ pretty chan
               +:+ ")<!16>") in
        let new := Ev_newCDKSlider w y title (delta c) in
        if negb (widget_ok tk w) then Done (Quits 1 [new])
        else
          r ← create_sliders tk c i count' (chan + 1) (y + 3);
          Done (created_after [new; Ev_bind w] r)
  end.

(** The second loop of the value case. *)
Fixpoint draw_sliders (i : Z) (count : nat) (chan y max_y : Z)
  : Z * list create_event :=
  match count with
  | O => (y, [])
  | S count' =>
      let r := draw_sliders i count' (chan + 1) (y + 3) max_y in
      (r.1,
       (if y <? max_y then [Ev_draw (Value_widget i chan)] else []) ++ r.2)
  end.

(** One round of the loop of [create_class_widgets]. *)
Definition create_control (tk : toolkit) (fd : device) (c : aiomixer_control)
    (i y max_y : Z) : outcome created :=
  match type c with
  | AUDIO_MIXER_ENUM =>
      create_buttonbox tk fd AUDIO_MIXER_ENUM c (Enum_widget i) y max_y
  | AUDIO_MIXER_SET =>
      create_buttonbox tk fd AUDIO_MIXER_SET c (Set_widget i) y max_y
  | AUDIO_MIXER_VALUE =>
      r ← create_sliders tk c i (Z.to_nat (num_channels c)) 0 y;
      match r with
      | Quits status evs => Done (Quits status evs)
      | Goes_on y1 evs =>
          let y2 := y1 - 3 * num_channels c in
          tr ← levels_get_and_set fd c;
          let d := draw_sliders i (Z.to_nat (num_channels c)) 0 y2 max_y in
          Done (Goes_on d.1 (evs ++ (Ev_device <$> tr) ++ d.2))
      end
  | AUDIO_MIXER_CLASS => Done (Goes_on y [])
  end.

Fixpoint create_controls (tk : toolkit) (fd : device)
    (cs : list aiomixer_control) (i y max_y : Z) : outcome created :=
  match cs with
  | [] => Done (Goes_on y [])
  | c :: rest =>
      r ← create_control tk fd c i y max_y;
      match r with
      | Quits status evs => Done (Quits status evs)
      | Goes_on y' evs =>
          r' ← create_controls tk fd rest (i + 1) y' max_y;
          Done (created_after evs r')
      end
  end.

(** [create_class_widgets].  The heading label is drawn without a test:
    drawing a null label has no defined behaviour. *)
Definition create_class_widgets (tk : toolkit) (fd : device) (x : aiomixer)
    (y : Z) : outcome created :=
  let max_y := maxy x - y - 3 in
  if negb (label_ok tk) then Undefined
  else
    r ← create_controls tk fd (controls (current_class x)) 0 (y + 2) max_y;
    Done (created_after [Ev_newCDKLabel y] r).

(** [destroy_class_widgets]: the widgets destroyed after the heading
    label, in order; [value_widget] has 8 slots. *)
Fixpoint destroy_controls (cs : list aiomixer_control) (i : Z)
  : outcome (list widget) :=
  match cs with
  | [] => Done []
  | c :: rest =>
      ws ← control_widgets c i;
      r ← destroy_controls rest (i + 1);
      Done (ws ++ r)
  end.

Definition destroy_class_widgets (x : aiomixer) : outcome (list widget) :=
  destroy_controls (controls (current_class x)) 0.

(** The widgets made among the events, each with its row; the widgets
    drawn; the events of the device reads. *)
Definition created_at (e : create_event) : option (widget * Z) :=
  match e with
  | Ev_newCDKButtonbox w y _ _ _ | Ev_newCDKSlider w y _ _ => Some (w, y)
  | _ => None
  end.

Definition creations (evs : list create_event) : list (widget * Z) :=
  omap created_at evs.

Definition drawn (evs : list create_event) : list widget :=
  omap (fun e => match e with Ev_draw w => Some w | _ => None end) evs.

Definition device_events (evs : list create_event) : list event :=
  omap (fun e => match e with Ev_device e' => Some e' | _ => None end) evs.

Definition events_of (r : created) : list create_event :=
  match r with Goes_on _ evs | Quits _ evs => evs end.

(** A control that [create_class_widgets] can make widgets for: a value
    control with at most 8 channels, an enum or set control with at most 32
    members. *)
Definition control_fits_arrays (c : aiomixer_control) : Prop :=
  channels_ok c /\
  (type c = AUDIO_MIXER_ENUM \/ type c = AUDIO_MIXER_SET ->
   0 <= num_mem c <= 32).

(** The read that [create_class_widgets] starts the widgets of a control
    with. *)
Definition control_reads (c : aiomixer_control) : list event :=
  match type c with
  | AUDIO_MIXER_VALUE => [Ev_ioctl AUDIO_MIXER_READ (value_request c)]
  | AUDIO_MIXER_ENUM =>
      [Ev_ioctl AUDIO_MIXER_READ (buttons_request AUDIO_MIXER_ENUM c)]
  | AUDIO_MIXER_SET =>
      [Ev_ioctl AUDIO_MIXER_READ (buttons_request AUDIO_MIXER_SET c)]
  | AUDIO_MIXER_CLASS => []
  end.

(** Widgets stacked from row [y], three rows each. *)
Definition widget_rows (ws : list widget) (y : Z) : list (widget * Z) :=
  imap (fun k w => (w, y + 3 * Z.of_nat k)) ws.

Global Arguments widget_rows : simpl never.

(** A toolkit and an allocator that give what they are asked for. *)
Definition toolkit_works (tk : toolkit) : Prop :=
  label_ok tk = true /\
  (forall n, 0 <= n <= 32 -> calloc_ok tk n = true) /\
  (forall w, widget_ok tk w = true).

(** What a part of [create_class_widgets] that makes the widgets [ws],
    stacked from row [y], has done when it ends in [r], the allocator
    giving memory: it went on below the widgets, having made each at its
    row, drawn those whose row is above [max_y] and read the device with
    [reads]; or it left with status 1 at the first widget the toolkit did
    not make. *)
Definition created_spec (tk : toolkit) (ws : list widget) (y max_y : Z)
    (reads : list event) (r : created) : Prop :=
  match r with
  | Goes_on y' evs =>
      y' = y + 3 * Z.of_nat (length ws) /\
      creations evs = widget_rows ws y /\
      drawn evs
      = (List.filter (fun p => p.2 <? max_y) (widget_rows ws y)).*1 /\
      ioctls (device_events evs) = reads /\
      Forall (fun w => widget_ok tk w = true) ws
  | Quits status evs =>
      status = 1 /\
      exists k w,
        ws !! k = Some w /\ widget_ok tk w = false /\
        Forall (fun w => widget_ok tk w = true) (take k ws) /\
        creations evs = take (S k) (widget_rows ws y)
  end.

(** ** Bounds the source relies on *)

(** The member table of an enum or set descriptor fits the 32 slots of
    [member[]]. *)
Definition descriptor_fits (m : mixer_devinfo) : Prop :=
  m_type m = AUDIO_MIXER_ENUM \/ m_type m = AUDIO_MIXER_SET ->
  m_num_mem m <= 32.

Definition members_fit (c : aiomixer_control) : Prop :=
  type c = AUDIO_MIXER_ENUM \/ type c = AUDIO_MIXER_SET -> num_mem c <= 32.

(** The calls that give the sliders of the channels [chans] the value
    [level] and draw them, one channel after the other. *)
Definition slider_updates (level : Z) (chans : list Z) : list event :=
  chans ≫= (fun i => [Ev_setCDKSliderValue i level; Ev_drawCDKSlider i]).

(** What a slider shows once it has been given [level]. *)
Definition shown_level (level : Z) : Z := Z.max 0 (Z.min 255 level).

(** ** Concrete devices and sessions used below *)

(** The session after [aiomixer_devinfo] on a screen of [rows] rows. *)
Definition session (rows : Z) (ds : list mixer_devinfo) : aiomixer :=
  match aiomixer_devinfo (length ds) (zero_aiomixer rows) ds with
  | Done x => x
  | _ => zero_aiomixer rows
  end.

(** One class holding an enum and an eight-channel value control, on a
    terminal of 24 rows. *)
Definition tall_session : aiomixer :=
  session 24
    [class_desc 7 "outputs"; enum_desc 7 (-1) "mute";
     value_desc 7 (-1) "master" 8 8].

(** The same two controls in the other order, scrolled to the enum. *)
Definition tall_first_session : aiomixer :=
  set_top_control
    (set_control_index
       (session 24
          [class_desc 7 "outputs"; value_desc 7 (-1) "master" 8 8;
           enum_desc 7 (-1) "mute"]) 1) 1.

(** One class holding a single enum control. *)
Definition one_enum_session : aiomixer :=
  session 24 [class_desc 7 "outputs"; enum_desc 7 (-1) "mute"].

(** A device that answers every read with the levels 100 and 100 and
    refuses every write. *)
Definition read_only_device : device :=
  {| mixer_read := fun d => Some (set_mc_level d [100; 100; 0; 0; 0; 0; 0; 0]);
     mixer_write := fun _ => false |}.

(** A device that answers every read with the levels 70 and 30 and accepts
    every write. *)
Definition working_device : device :=
  {| mixer_read := fun d => Some (set_mc_level d [70; 30; 0; 0; 0; 0; 0; 0]);
     mixer_write := fun _ => true |}.

(** A device that fails every call. *)
Definition dead_device : device :=
  {| mixer_read := fun _ => None; mixer_write := fun _ => false |}.

(** A stereo value control, channels moving together or independent. *)
Definition stereo (unlocked : bool) : aiomixer_control :=
  set_chans_unlocked unlocked
    (fill_control 4 (value_desc 7 (-1) "master" 2 8) "master").

(** Three classes; the first holds an enum and a stereo value control. *)
Definition three_class_session : aiomixer :=
  session 24
    [class_desc 7 "outputs"; class_desc 8 "inputs"; class_desc 9 "record";
     enum_desc 7 (-1) "mute"; value_desc 7 (-1) "master" 2 8].

(** A child listed with a parent index that no control carries. *)
Definition dangling_parent : list mixer_devinfo :=
  [class_desc 7 "outputs"; enum_desc 7 5 "mute"].

(** A child whose parent index is 0 while no control has index 0. *)
Definition zero_parent : list mixer_devinfo :=
  [class_desc 7 "outputs"; enum_desc 7 0 "mute"].

(** A child enumerated before its parent. *)
Definition child_first : list mixer_devinfo :=
  [class_desc 7 "outputs"; enum_desc 7 2 "mute";
   value_desc 7 (-1) "master" 2 8].

(** The catalog while the second descriptor of [dangling_parent] or
    [zero_parent] is being stored: one class, its first slot counted and
    still zero-filled. *)
Definition fresh_slot : aiomixer :=
  push_control
    (foldl devinfo_class (zero_aiomixer 24) dangling_parent) 0
    {| class_name := "outputs"; id := 7; controls := [] |} zero_control.

(** A parent followed by an enum, a set and a value child. *)
Definition master_family : list mixer_devinfo :=
  [class_desc 7 "outputs"; value_desc 7 (-1) "master" 2 8;
   enum_desc 7 1 "mute"; set_desc 7 1 "source"; value_desc 7 1 "boost" 1 0].

(** The catalog of [master_family], its class and the controls in it. *)
Definition master_catalog : aiomixer := session 24 master_family.

Definition master_class : aiomixer_class := current_class master_catalog.

Definition master_control (i : nat) : aiomixer_control :=
  default zero_control (controls master_class !! i).

(** ** Theorems: ControlCatalog *)

Section Catalog.

Implicit Types (x : aiomixer) (cl : aiomixer_class) (c : aiomixer_control).
Implicit Types (m : mixer_devinfo) (ds : list mixer_devinfo).

Lemma get_control_in_Some cs d c :
  get_control_in cs d = Some c -> c ∈ cs /\ dev c = d.
Proof.
  induction cs as [|c0 cs IH]; simpl; [done|].
  destruct (dev c0 =? d) eqn:E.
  - intros [= <-]. split; [left | lia].
  - intros H. destruct (IH H) as [? ?]. split; [by right | done].
Qed.

Lemma get_control_in_None cs d :
  get_control_in cs d = None -> forall c, c ∈ cs -> dev c <> d.
Proof.
  induction cs as [|c0 cs IH]; simpl; intros H c Hc.
  - by apply elem_of_nil in Hc.
  - destruct (dev c0 =? d) eqn:E; [done|].
    apply elem_of_cons in Hc as [-> | Hc]; [lia | by apply IH].
Qed.

Lemma get_control_from_Some cls d c :
  get_control_from cls d = Some c ->
  exists cl, cl ∈ cls /\ c ∈ controls cl /\ dev c = d.
Proof.
  induction cls as [|k cls IH]; simpl; [done|].
  destruct (get_control_in (controls k) d) eqn:E.
  - intros [= <-]. apply get_control_in_Some in E as [? ?].
    exists k. split; [left | done].
  - intros H. destruct (IH H) as (cl & ? & ? & ?).
    exists cl. split; [by right | done].
Qed.

Lemma get_control_from_None cls d :
  get_control_from cls d = None ->
  forall cl c, cl ∈ cls -> c ∈ controls cl -> dev c <> d.
Proof.
  induction cls as [|k cls IH]; simpl; intros H cl c Hcl Hc.
  - by apply elem_of_nil in Hcl.
  - destruct (get_control_in (controls k) d) eqn:E; [done|].
    apply elem_of_cons in Hcl as [-> | Hcl].
    + by eapply get_control_in_None.
    + by eapply IH.
Qed.

Lemma get_class_from_Some cls i class_id k cl :
  get_class_from cls i class_id = Some (k, cl) ->
  (i <= k)%nat /\ cls !! (k - i)%nat = Some cl /\ id cl = class_id.
Proof.
  revert i. induction cls as [|c0 cls IH]; simpl; intros i; [done|].
  destruct (id c0 =? class_id) eqn:E.
  - intros [= <- <-]. replace (i - i)%nat with 0%nat by lia.
    split; [lia|]. split; [done | lia].
  - intros H. destruct (IH _ H) as (? & ? & ?).
    split; [lia|]. split; [|done].
    replace (k - i)%nat with (S (k - S i)) by lia. done.
Qed.

Lemma get_class_from_None cls i class_id :
  get_class_from cls i class_id = None ->
  forall cl, cl ∈ cls -> id cl <> class_id.
Proof.
  revert i. induction cls as [|c0 cls IH]; simpl; intros i H cl Hcl.
  - by apply elem_of_nil in Hcl.
  - destruct (id c0 =? class_id) eqn:E; [done|].
    apply elem_of_cons in Hcl as [-> | Hcl]; [lia | by eapply IH].
Qed.

Lemma aiomixer_get_class_Some x class_id k cl :
  aiomixer_get_class x class_id = Some (k, cl) ->
  classes x !! k = Some cl /\ id cl = class_id.
Proof.
  intros H. apply get_class_from_Some in H as (_ & H & ?).
  by rewrite Nat.sub_0_r in H.
Qed.

(** The walk stops only at a control without parent. *)
Lemma find_root_loop_root fuel x c r :
  find_root_loop fuel x c = Done r -> prev r = -1.
Proof.
  revert c. induction fuel as [|fuel IH]; simpl; intros c.
  - destruct (prev c =? -1) eqn:E; [|done]. intros [= <-]. lia.
  - destruct (prev c =? -1) eqn:E; [intros [= <-]; lia|].
    destruct (aiomixer_get_control x (prev c)); [apply IH | done].
Qed.

(** The walk stays inside the catalog. *)
Lemma find_root_control_in fuel x d r :
  find_root_control fuel x d = Done r ->
  exists cl, cl ∈ classes x /\ r ∈ controls cl.
Proof.
  assert (Hloop : forall fuel c r,
             (exists cl, cl ∈ classes x /\ c ∈ controls cl) ->
             find_root_loop fuel x c = Done r ->
             exists cl, cl ∈ classes x /\ r ∈ controls cl).
  { clear. intros fuel. induction fuel as [|fuel IH]; intros c r Hc; simpl.
    - destruct (prev c =? -1); [|done]. by intros [= <-].
    - destruct (prev c =? -1); [by intros [= <-]|].
      destruct (aiomixer_get_control x (prev c)) as [c'|] eqn:E; [|done].
      apply IH. apply get_control_from_Some in E as (cl & ? & ? & _).
      by exists cl. }
  unfold find_root_control.
  destruct (aiomixer_get_control x d) as [c|] eqn:E; [|done].
  apply Hloop. apply get_control_from_Some in E as (cl & ? & ? & _).
  by exists cl.
Qed.

(** More fuel does not change a walk that has ended. *)
Lemma find_root_loop_more fuel fuel' x c r :
  (fuel <= fuel')%nat ->
  find_root_loop fuel x c = Done r -> find_root_loop fuel' x c = Done r.
Proof.
  revert fuel' c. induction fuel as [|fuel IH]; intros fuel' c Hle; simpl.
  - destruct (prev c =? -1) eqn:E; [|done].
    intros [= <-]. destruct fuel'; simpl; by rewrite E.
  - destruct fuel' as [|fuel']; [lia|]. simpl.
    destruct (prev c =? -1) eqn:E; [done|].
    destruct (aiomixer_get_control x (prev c)); [|done].
    apply IH. lia.
Qed.

(** A control that is found under its own parent index is walked for ever. *)
Lemma find_root_loop_self fuel x c :
  prev c <> -1 -> aiomixer_get_control x (prev c) = Some c ->
  find_root_loop fuel x c = Timeout.
Proof.
  intros Hp Hg. induction fuel as [|fuel IH]; simpl.
  - destruct (prev c =? -1) eqn:E; [lia | done].
  - destruct (prev c =? -1) eqn:E; [lia|]. by rewrite Hg.
Qed.

(** C5.  The walk of [find_root_control] along the parent references is not
    bounded by the size of the catalog and does read through missing
    controls.  In the catalog as it stands while the second descriptor of
    [dangling_parent] or [zero_parent] is stored, the walk from index 5
    reads [prev] through the null pointer that [aiomixer_get_control]
    returns, and the walk from index 0 finds the freshly counted zero-filled
    slot, whose [prev] is 0, again and again, whatever fuel it is given; so
    [aiomixer_devinfo] does not return a catalog on either sequence. *)
Theorem find_root_control_walk_fails :
  (forall fuel, find_root_control fuel fresh_slot 5 = Undefined) /\
  (forall fuel, find_root_control fuel fresh_slot 0 = Timeout) /\
  (forall fuel rows,
      aiomixer_devinfo fuel (zero_aiomixer rows) dangling_parent = Undefined) /\
  (forall fuel rows,
      aiomixer_devinfo fuel (zero_aiomixer rows) zero_parent = Timeout).
Proof.
  assert (Hloop : forall fuel rows,
             find_root_loop fuel
               (push_control
                  (foldl devinfo_class (zero_aiomixer rows) zero_parent) 0
                  {| class_name := "outputs"; id := 7; controls := [] |}
                  zero_control) zero_control = Timeout).
  { intros fuel rows. by apply find_root_loop_self. }
  split; [by intros fuel|].
  split; [intros fuel; apply (Hloop fuel 24)|].
  split; [by intros fuel rows|].
  intros fuel rows.
  unfold aiomixer_devinfo, zero_parent. simpl.
  unfold devinfo_control. simpl.
  unfold control_name. simpl.
  unfold find_root_control. simpl.
  change (find_root_loop fuel _ _) with
    (find_root_loop fuel
       (push_control
          (foldl devinfo_class (zero_aiomixer rows) zero_parent) 0
          {| class_name := "outputs"; id := 7; controls := [] |}
          zero_control) zero_control).
  by rewrite Hloop.
Qed.

(** *** Stored names *)

Lemma fill_control_dev index m nm : dev (fill_control index m nm) = index.
Proof. unfold fill_control. by destruct (m_type m). Qed.

Lemma fill_control_name index m nm : name (fill_control index m nm) = nm.
Proof. unfold fill_control. by destruct (m_type m). Qed.

Lemma fill_control_type index m nm : type (fill_control index m nm) = m_type m.
Proof. unfold fill_control. by destruct (m_type m). Qed.

Lemma fill_control_prev index m nm : prev (fill_control index m nm) = m_prev m.
Proof. unfold fill_control. by destruct (m_type m). Qed.


Lemma substring_0_length n (s : string) :
  (String.length (String.substring 0 n s) <= n)%nat.
Proof.
  revert n. induction s as [|a s IH]; intros [|n]; simpl; try lia.
  specialize (IH n). lia.
Qed.







Lemma names_fit_push x k cl c :
  classes x !! k = Some cl -> names_fit x ->
  (prev c = -1 -> (String.length (name c) <= 16)%nat) ->
  names_fit (push_control x k cl c).
Proof.
  intros Hk Hfit Hc cl' c' Hcl' Hc' Hp.
  apply list_elem_of_lookup_1 in Hcl' as [j Hj]. simpl in Hj.
  apply list_lookup_insert_Some in Hj as [(-> & <- & _) | (_ & Hj)].
  - simpl in Hc'. apply elem_of_app in Hc' as [Hc' | ->%list_elem_of_singleton].
    + apply (Hfit cl c'); [by eapply list_elem_of_lookup_2 | done..].
    + by apply Hc.
  - apply (Hfit cl' c'); [by eapply list_elem_of_lookup_2 | done..].
Qed.




(** *** Classes, capacities and dropped descriptors *)

Lemma devinfo_control_Done fuel x index m x' :
  devinfo_control fuel x index m = Done x' ->
  x' = x \/
  exists k cl nm,
    m_type m <> AUDIO_MIXER_CLASS /\
    aiomixer_get_class x (m_mixer_class m) = Some (k, cl) /\
    ncontrols cl < MAX_CONTROLS /\
    control_name fuel (push_control x k cl zero_control) m = Done nm /\
    x' = push_control x k cl (fill_control index m nm).
Proof.
  unfold devinfo_control.
  destruct (m_type m) eqn:Et; [intros [= <-]; by left|..];
    (destruct (aiomixer_get_class x (m_mixer_class m)) as [[k cl]|] eqn:Ec;
      [|intros [= <-]; by left];
     destruct (ncontrols cl <? MAX_CONTROLS) eqn:El; [|intros [= <-]; by left];
     destruct (control_name _ _ _) as [nm| |] eqn:En; simpl; [|done..];
     intros [= <-]; right; exists k, cl, nm;
     repeat split; [congruence | lia | done]).
Qed.

Lemma elem_of_push_control x k cl c cl' :
  classes x !! k = Some cl ->
  cl' ∈ classes (push_control x k cl c) ->
  cl' = set_controls cl (controls cl ++ [c]) \/ cl' ∈ classes x.
Proof.
  intros Hk [j Hj]%list_elem_of_lookup_1. simpl in Hj.
  apply list_lookup_insert_Some in Hj as [(-> & <- & _) | (_ & Hj)].
  - by left.
  - right. by eapply list_elem_of_lookup_2.
Qed.

Lemma devinfo_control_capacity fuel x index m x' :
  devinfo_control fuel x index m = Done x' ->
  within_capacity x -> within_capacity x'.
Proof.
  intros [-> | (k & cl & nm & _ & Hc & Hroom & _ & ->)]%devinfo_control_Done;
    [done|].
  apply aiomixer_get_class_Some in Hc as [Hk _].
  intros [Hn Hcs]. split.
  - unfold nclasses in *. simpl. by rewrite length_insert.
  - intros cl' [-> | Hin]%(elem_of_push_control _ _ _ _ _ Hk); [|by apply Hcs].
    unfold ncontrols in *. simpl. rewrite length_app. simpl. lia.
Qed.

Lemma devinfo_control_ids fuel x index m x' :
  devinfo_control fuel x index m = Done x' ->
  id <$> classes x' = id <$> classes x.
Proof.
  intros [-> | (k & cl & nm & _ & Hc & _ & _ & ->)]%devinfo_control_Done;
    [done|].
  apply aiomixer_get_class_Some in Hc as [Hk _]. simpl.
  rewrite list_fmap_insert. simpl. apply list_insert_id.
  by rewrite list_lookup_fmap, Hk.
Qed.

Lemma devinfo_control_ok fuel ds x index m x' :
  0 <= index -> ds !! Z.to_nat index = Some m ->
  devinfo_control fuel x index m = Done x' ->
  catalog_ok ds x -> catalog_ok ds x'.
Proof.
  intros Hi Hm
    [-> | (k & cl & nm & Hty & Hc & _ & _ & ->)]%devinfo_control_Done;
    [done|].
  apply aiomixer_get_class_Some in Hc as [Hk Hid].
  intros Hok cl' c [-> | Hin]%(elem_of_push_control _ _ _ _ _ Hk) Hc';
    [|by apply Hok].
  simpl in Hc'. apply elem_of_app in Hc' as [Hc' | Hc'].
  - by apply (Hok cl c); [eapply list_elem_of_lookup_2|].
  - apply list_elem_of_singleton in Hc' as ->.
    split; [by rewrite fill_control_dev|].
    exists m. rewrite fill_control_dev, fill_control_type. simpl.
    repeat split; done.
Qed.

Lemma devinfo_controls_inv fuel ds pre rest x x' :
  ds = pre ++ rest ->
  devinfo_controls fuel x (Z.of_nat (length pre)) rest = Done x' ->
  within_capacity x -> catalog_ok ds x ->
  within_capacity x' /\ catalog_ok ds x' /\
  id <$> classes x' = id <$> classes x.
Proof.
  revert pre x. induction rest as [|m rest IH]; intros pre x Hds; simpl.
  - by intros [= <-].
  - destruct (devinfo_control fuel x (Z.of_nat (length pre)) m) as [x1| |] eqn:E;
      simpl; [|done..].
    intros Hrest Hcap Hok.
    replace (Z.of_nat (length pre) + 1) with (Z.of_nat (length (pre ++ [m])))
      in Hrest by (rewrite length_app; simpl; lia).
    apply (IH (pre ++ [m])) in Hrest as (? & ? & Hids).
    + split; [done|]. split; [done|].
      rewrite Hids. by eapply devinfo_control_ids.
    + by rewrite <- app_assoc.
    + by eapply devinfo_control_capacity.
    + apply (devinfo_control_ok fuel ds x (Z.of_nat (length pre)) m x1);
        [lia | | exact E | done].
      rewrite Nat2Z.id, Hds. by apply list_lookup_middle.
Qed.

Lemma devinfo_class_controls x m cl :
  cl ∈ classes (devinfo_class x m) -> cl ∈ classes x \/ controls cl = [].
Proof.
  unfold devinfo_class. destruct (decide _); [|by left].
  destruct (nclasses x <? MAX_CLASSES); [|by left]. simpl.
  intros [? | ->%list_elem_of_singleton]%elem_of_app; [by left | by right].
Qed.

Lemma devinfo_class_ids ds x :
  nclasses x <= MAX_CLASSES ->
  id <$> classes (foldl devinfo_class x ds)
  = take (Z.to_nat MAX_CLASSES) ((id <$> classes x) ++ class_ids ds).
Proof.
  revert x. induction ds as [|m ds IH]; intros x Hn; simpl.
  - unfold class_ids. simpl. rewrite app_nil_r, take_ge; [done|].
    rewrite length_fmap. unfold nclasses in Hn. lia.
  - unfold class_ids. simpl. unfold devinfo_class at 2.
    destruct (decide (m_type m = AUDIO_MIXER_CLASS)) as [Ht|Ht].
    + rewrite (bool_decide_eq_true_2 _ Ht). simpl.
      destruct (nclasses x <? MAX_CLASSES) eqn:El.
      * rewrite IH; [|unfold nclasses in *; simpl; rewrite length_app; simpl; lia].
        simpl. rewrite fmap_app. simpl. by rewrite <- app_assoc.
      * rewrite IH by done. unfold nclasses in *.
        rewrite !take_app_le; [done|rewrite length_fmap; lia..].
    + rewrite (bool_decide_eq_false_2 _ Ht). by apply IH.
Qed.

Lemma devinfo_classes_inv ds0 ds x :
  within_capacity x -> catalog_ok ds0 x ->
  within_capacity (foldl devinfo_class x ds) /\
  catalog_ok ds0 (foldl devinfo_class x ds).
Proof.
  revert x. induction ds as [|m ds IH]; intros x Hcap Hok; simpl; [done|].
  apply IH.
  - destruct Hcap as [Hn Hcs]. split.
    + unfold devinfo_class. destruct (decide _); [|done].
      destruct (nclasses x <? MAX_CLASSES) eqn:El; [|done].
      unfold nclasses in *. simpl. rewrite length_app. simpl. lia.
    + intros cl [? | Hnil]%devinfo_class_controls; [by apply Hcs|].
      unfold ncontrols. rewrite Hnil. simpl. unfold MAX_CONTROLS. lia.
  - intros cl c [? | Hnil]%devinfo_class_controls Hc; [by apply Hok|].
    rewrite Hnil in Hc. by apply elem_of_nil in Hc.
Qed.

Lemma devinfo_control_names_fit fuel x index m x' :
  devinfo_control fuel x index m = Done x' -> names_fit x -> names_fit x'.
Proof.
  intros [-> | (k & cl & nm & _ & Hc & _ & Hnm & ->)]%devinfo_control_Done;
    [done|].
  apply aiomixer_get_class_Some in Hc as [Hk _].
  intros Hfit. apply names_fit_push; [done..|].
  rewrite fill_control_prev, fill_control_name. intros Hp.
  unfold control_name in Hnm. rewrite Hp in Hnm. simpl in Hnm.
  injection Hnm as <-. apply substring_0_length.
Qed.

(** Every catalog that [aiomixer_devinfo] returns has parentless controls
    named by a device label. *)
Lemma aiomixer_devinfo_names_fit fuel rows ds x :
  aiomixer_devinfo fuel (zero_aiomixer rows) ds = Done x -> names_fit x.
Proof.
  unfold aiomixer_devinfo.
  assert (Hbase : names_fit (foldl devinfo_class (zero_aiomixer rows) ds)).
  { assert (Hgen : forall ds' x0,
               (forall cl, cl ∈ classes x0 -> controls cl = []) ->
               forall cl, cl ∈ classes (foldl devinfo_class x0 ds') ->
                          controls cl = []).
    { clear. induction ds' as [|m ds' IH]; intros x0 H0; simpl; [done|].
      apply IH. intros cl [? | ?]%devinfo_class_controls; [by apply H0 | done]. }
    intros cl c Hcl Hc.
    rewrite (Hgen ds (zero_aiomixer rows)) in Hc; [|simpl|done].
    - by apply elem_of_nil in Hc.
    - intros cl' Hcl'. by apply elem_of_nil in Hcl'. }
  revert Hbase. generalize (foldl devinfo_class (zero_aiomixer rows) ds).
  generalize 0. induction ds as [|m ds IH]; intros index x0 Hfit; simpl.
  - by intros [= <-].
  - destruct (devinfo_control fuel x0 index m) as [x1| |] eqn:E; simpl;
      [|done..].
    apply IH. by eapply devinfo_control_names_fit.
Qed.

(** X7.  Whenever [aiomixer_devinfo] returns a catalog: the classes are the
    first 16 class descriptors, no class holds more than 64 controls, every
    control was stored from the descriptor whose index it carries, in the
    class that descriptor names, and a control descriptor naming a class
    id that no class of the catalog has left no control. *)
Theorem aiomixer_devinfo_completed fuel rows ds x :
  aiomixer_devinfo fuel (zero_aiomixer rows) ds = Done x ->
  within_capacity x /\ catalog_ok ds x /\
  id <$> classes x = take (Z.to_nat MAX_CLASSES) (class_ids ds) /\
  (forall i m,
      ds !! i = Some m ->
      (forall cl, cl ∈ classes x -> id cl <> m_mixer_class m) ->
      forall cl c, cl ∈ classes x -> c ∈ controls cl -> dev c <> Z.of_nat i).
Proof.
  unfold aiomixer_devinfo. intros H.
  assert (Hcap0 : within_capacity (zero_aiomixer rows)).
  { split; [unfold nclasses, MAX_CLASSES; simpl; lia|].
    intros cl Hcl. by apply elem_of_nil in Hcl. }
  assert (Hok0 : catalog_ok ds (zero_aiomixer rows)).
  { intros cl c Hcl. by apply elem_of_nil in Hcl. }
  destruct (devinfo_classes_inv ds ds _ Hcap0 Hok0) as [Hcap1 Hok1].
  apply (devinfo_controls_inv fuel ds [] ds) in H as (Hcap & Hok & Hids);
    [|done..].
  split; [done|]. split; [done|]. split.
  - rewrite Hids, devinfo_class_ids; [done|]. by destruct Hcap0.
  - intros i m Hm Hno cl c Hcl Hc Hdev.
    destruct (Hok cl c Hcl Hc) as (_ & m' & Hm' & Hcls & _).
    rewrite Hdev, Nat2Z.id, Hm in Hm'. injection Hm' as <-.
    by apply (Hno cl).
Qed.

Lemma aiomixer_devinfo_completed_witness :
  exists x,
    aiomixer_devinfo 8 (zero_aiomixer 24) master_family = Done x /\
    within_capacity x /\ catalog_ok master_family x.
Proof.
  eexists. split; [vm_compute; reflexivity|].
  destruct (aiomixer_devinfo_completed 8 24 master_family _ eq_refl)
    as (H1 & H2 & _).
  split; [exact H1 | exact H2].
Defined.

Lemma get_control_in_absent (cs : list aiomixer_control) d :
  (forall c, c ∈ cs -> dev c <> d) -> get_control_in cs d = None.
Proof.
  induction cs as [|c0 cs IH]; intros H; simpl; [done|].
  destruct (dev c0 =? d) eqn:E.
  - exfalso. apply (H c0); [left | lia].
  - apply IH. intros c Hc. apply H. by right.
Qed.

Lemma get_control_from_absent (cls : list aiomixer_class) d :
  (forall cl c, cl ∈ cls -> c ∈ controls cl -> dev c <> d) ->
  get_control_from cls d = None.
Proof.
  induction cls as [|k cls IH]; intros H; simpl; [done|].
  rewrite get_control_in_absent.
  - apply IH. intros cl c Hcl. apply H. by right.
  - intros c. apply H. left.
Qed.

(** A control descriptor whose class is found and has room, and whose
    parent index is neither 0 nor the index of a stored control, stops the
    construction in [find_root_control], whatever the fuel. *)
Lemma devinfo_control_missing_parent fuel x index m k cl :
  m_type m <> AUDIO_MIXER_CLASS ->
  aiomixer_get_class x (m_mixer_class m) = Some (k, cl) ->
  ncontrols cl < MAX_CONTROLS ->
  m_prev m <> -1 -> m_prev m <> 0 ->
  (forall cl' c, cl' ∈ classes x -> c ∈ controls cl' -> dev c <> m_prev m) ->
  devinfo_control fuel x index m = Undefined.
Proof.
  intros Hty Hcl Hroom Hp H0 Habs.
  assert (Hlt : (ncontrols cl <? MAX_CONTROLS) = true) by lia.
  assert (Hne : (m_prev m =? -1) = false) by lia.
  assert (Hget : aiomixer_get_control (push_control x k cl zero_control)
                   (m_prev m) = None).
  { apply get_control_from_absent. intros cl' c Hcl' Hc.
    pose proof Hcl as Hcl0. apply aiomixer_get_class_Some in Hcl0 as [Hk _].
    apply (elem_of_push_control _ _ _ _ _ Hk) in Hcl' as [-> | Hcl'].
    - simpl in Hc. apply elem_of_app in Hc as [Hc | ->%list_elem_of_singleton].
      + apply (Habs cl c); [by eapply list_elem_of_lookup_2 | done].
      + simpl. lia.
    - by apply (Habs cl' c). }
  unfold devinfo_control. rewrite Hcl, Hlt. unfold control_name.
  rewrite Hne. unfold find_root_control. rewrite Hget.
  by destruct (m_type m).
Qed.

(** C7.  Catalog construction does not complete on every descriptor
    sequence: on [child_first], where the enum at index 1 names as parent
    the value control at index 2 that is stored only later,
    [find_root_control] reads through the null pointer returned for index 2
    and no catalog is returned, for any fuel and screen height. *)
Theorem aiomixer_devinfo_child_first :
  forall fuel rows,
    aiomixer_devinfo fuel (zero_aiomixer rows) child_first = Undefined.
Proof. by intros fuel rows. Qed.

End Catalog.

(** ** Theorems: ViewportWindow *)

Section Viewport.

Implicit Types (x : aiomixer) (c : aiomixer_control).
Implicit Types (cs : list aiomixer_control).

(** A [true] from the loop bounds the rows of the slots it has walked. *)
Lemma within_bounds_loop_rows cs i index y max_y :
  i <= index -> index - i < Z.of_nat (length cs) ->
  within_bounds_loop cs i index y max_y = true ->
  y + heights_sum (take (Z.to_nat (index - i + 1)) cs) < max_y.
Proof.
  revert i y. induction cs as [|c cs IH]; intros i y Hi Hlen; simpl in *.
  - lia.
  - destruct (y + control_height c >=? max_y) eqn:Ey; [done|].
    replace (Z.to_nat (index - i + 1)) with (S (Z.to_nat (index - i))) by lia.
    simpl. destruct (i =? index) eqn:Ei.
    + intros _. replace (index - i) with 0 by lia. rewrite take_0. simpl. lia.
    + intros H. apply IH in H; [|lia..].
      replace (index - (i + 1) + 1) with (index - i) in H by lia. lia.
Qed.

(** When [control_within_bounds] answers [true] for a control [f] at or
    below the scroll offset, the rows of the controls from the offset to
    [f], laid out from row 5, end before row [maxy - 3]. *)
Lemma control_within_bounds_rows x f :
  0 <= top_control x <= f -> f < ncontrols (current_class x) ->
  control_within_bounds x f = true ->
  5 + rows_between x (top_control x) f < maxy x - 3.
Proof.
  intros Ht Hf. unfold control_within_bounds, rows_between.
  destruct (f <? top_control x) eqn:E; [done|].
  apply within_bounds_loop_rows; [lia|].
  rewrite length_drop. unfold ncontrols in Hf. lia.
Qed.

(** A control that fits on the screen by itself is within bounds once the
    scroll offset has reached it. *)
Lemma control_within_bounds_self x f c :
  top_control x = f -> 0 <= f ->
  controls (current_class x) !! Z.to_nat f = Some c ->
  5 + control_height c < maxy x - 3 ->
  control_within_bounds x f = true.
Proof.
  intros Ht Hf Hc Hfit. unfold control_within_bounds. rewrite Ht.
  rewrite Z.ltb_irrefl, (drop_S _ _ _ Hc). simpl.
  destruct (5 + control_height c >=? maxy x - 3) eqn:E; [lia|].
  by rewrite Z.eqb_refl.
Qed.

(** With rows that are never negative, a control too tall for the screen
    is out of bounds from every scroll offset at or above it. *)
Lemma within_bounds_loop_too_tall cs i index y max_y c :
  (forall c', c' ∈ cs -> 0 <= control_height c') ->
  i <= index -> cs !! Z.to_nat (index - i) = Some c ->
  max_y <= y + control_height c ->
  within_bounds_loop cs i index y max_y = false.
Proof.
  revert i y. induction cs as [|c0 cs IH]; intros i y Hpos Hi Hc Htall.
  - done.
  - simpl. destruct (y + control_height c0 >=? max_y) eqn:Ey; [done|].
    destruct (i =? index) eqn:Ei.
    + replace (index - i) with 0 in Hc by lia. simpl in Hc.
      injection Hc as ->. lia.
    + apply IH.
      * intros c' Hc'. apply Hpos. by right.
      * lia.
      * replace (Z.to_nat (index - i)) with (S (Z.to_nat (index - (i + 1))))
          in Hc by lia. done.
      * assert (0 <= control_height c0) by (apply Hpos; left). lia.
Qed.

Lemma scroll_down_more fuel fuel' x x' :
  (fuel <= fuel')%nat ->
  scroll_down fuel x = Done x' -> scroll_down fuel' x = Done x'.
Proof.
  revert fuel' x. induction fuel as [|fuel IH]; intros fuel' x Hle; simpl.
  - destruct (control_within_bounds x (control_index x)) eqn:E; [|done].
    intros [= <-]. destruct fuel'; simpl; by rewrite E.
  - destruct fuel' as [|fuel']; [lia|]. simpl.
    destruct (control_within_bounds x (control_index x)); [done|].
    apply IH. lia.
Qed.

(** The loop leaves only with the focused control within bounds. *)
Lemma scroll_down_Done fuel x x' :
  scroll_down fuel x = Done x' ->
  control_within_bounds x' (control_index x') = true /\
  exists t, x' = set_top_control x t.
Proof.
  revert x. induction fuel as [|fuel IH]; intros x; simpl.
  - destruct (control_within_bounds x (control_index x)) eqn:E; [|done].
    intros [= <-]. split; [done|]. exists (top_control x). by destruct x.
  - destruct (control_within_bounds x (control_index x)) eqn:E.
    + intros [= <-]. split; [done|]. exists (top_control x). by destruct x.
    + intros H. apply IH in H as [? [t ->]]. split; [done|]. by exists t.
Qed.

(** If the focused control fits on the screen by itself, scrolling down
    settles within [f - t] rounds, with the focused control within
    bounds. *)
Lemma scroll_down_settles fuel x c :
  0 <= top_control x <= control_index x -> control_index x < UINT_MOD ->
  (Z.to_nat (control_index x - top_control x) <= fuel)%nat ->
  controls (current_class x) !! Z.to_nat (control_index x) = Some c ->
  5 + control_height c < maxy x - 3 ->
  exists t,
    top_control x <= t <= control_index x /\
    scroll_down fuel x = Done (set_top_control x t) /\
    control_within_bounds (set_top_control x t) (control_index x) = true.
Proof.
  revert x. induction fuel as [|fuel IH]; intros x Ht Hf Hfuel Hc Hfit.
  - assert (top_control x = control_index x) as Heq by lia.
    exists (top_control x). split; [lia|].
    assert (set_top_control x (top_control x) = x) as -> by (by destruct x).
    assert (control_within_bounds x (control_index x) = true) as Hw
        by (eapply control_within_bounds_self; [done | lia | done..]).
    simpl. by rewrite Hw.
  - simpl. destruct (control_within_bounds x (control_index x)) eqn:Hw.
    + exists (top_control x). split; [lia|].
      assert (set_top_control x (top_control x) = x) as -> by (by destruct x).
      done.
    + assert (top_control x <> control_index x) as Hne.
      { intros Heq. erewrite control_within_bounds_self in Hw;
          [done | done | lia | done..]. }
      assert (to_unsigned (top_control x + 1) = top_control x + 1) as ->.
      { unfold to_unsigned. apply Z.mod_small. lia. }
      destruct (IH (set_top_control x (top_control x + 1)))
        as (t & Ht' & Hs & Hw'); simpl; try done; try lia.
      simpl in Ht'. exists t. split; [lia|]. done.
Qed.

Lemma control_within_bounds_too_tall x c t :
  Forall (fun c' => 0 <= control_height c') (controls (current_class x)) ->
  0 <= control_index x ->
  controls (current_class x) !! Z.to_nat (control_index x) = Some c ->
  maxy x - 3 <= 5 + control_height c ->
  0 <= t ->
  control_within_bounds (set_top_control x t) (control_index x) = false.
Proof.
  intros Hpos Hi Hc Htall Ht. unfold control_within_bounds. simpl.
  destruct (control_index x <? t) eqn:E; [done|].
  change (current_class (set_top_control x t)) with (current_class x).
  apply (within_bounds_loop_too_tall _ _ _ _ _ c); [|lia| |done].
  - intros c' Hc'. apply (Forall_drop _ (Z.to_nat t)) in Hpos.
    by eapply Forall_forall in Hpos.
  - rewrite lookup_drop. rewrite <- Hc. f_equal. lia.
Qed.

(** While no scroll offset puts the focused control within bounds, the
    loop keeps running: the offset wraps around at [2^32] and starts over. *)
Lemma scroll_down_never fuel x :
  (forall t, 0 <= t < UINT_MOD ->
             control_within_bounds (set_top_control x t) (control_index x)
             = false) ->
  forall t, 0 <= t < UINT_MOD ->
            scroll_down fuel (set_top_control x t) = Timeout.
Proof.
  intros Hout. induction fuel as [|fuel IH]; intros t Ht; simpl.
  - by rewrite (Hout t Ht).
  - rewrite (Hout t Ht).
    apply (IH (to_unsigned (t + 1))). unfold to_unsigned.
    apply Z.mod_pos_bound. unfold UINT_MOD. lia.
Qed.

(** A focused control too tall for the screen, below the scroll offset:
    the scroll adjustment of [select_class_widget] does not end. *)
Lemma adjust_top_control_too_tall fuel x c :
  Forall (fun c' => 0 <= control_height c') (controls (current_class x)) ->
  0 <= top_control x < control_index x -> control_index x < UINT_MOD ->
  controls (current_class x) !! Z.to_nat (control_index x) = Some c ->
  maxy x - 3 <= 5 + control_height c ->
  adjust_top_control fuel x = Timeout.
Proof.
  intros Hpos Ht Hi Hc Htall. unfold adjust_top_control.
  destruct (top_control x >? control_index x) eqn:E1; [lia|].
  destruct (top_control x <? control_index x) eqn:E2; [|lia].
  assert (x = set_top_control x (top_control x)) as -> by (by destruct x).
  apply scroll_down_never; simpl; [|lia].
  intros t Ht'. apply (control_within_bounds_too_tall x c); [done|lia|done..|lia].
Qed.

(** In [tall_session] (24 rows, so [max_y] is 21) the value control in
    slot 1 takes 24 rows and is out of bounds from every scroll offset. *)
Lemma tall_session_out_of_bounds t :
  0 <= t ->
  control_within_bounds
    (set_top_control (set_control_index tall_session 1) t) 1 = false.
Proof.
  intros Ht.
  apply (control_within_bounds_too_tall (set_control_index tall_session 1)
           (fill_control 2 (value_desc 7 (-1) "master" 8 8) "master")).
  - repeat constructor; vm_compute; discriminate.
  - vm_compute. discriminate.
  - reflexivity.
  - vm_compute. discriminate.
  - lia.
Qed.

(** C4.  The scroll adjustment does not always settle.  Focusing the value
    control in slot 1 of [tall_session], directly or by committing the enum
    above it, runs the [while] loop of [select_class_widget] without end:
    no amount of fuel brings it to an activation. *)
Theorem scroll_adjustment_does_not_settle :
  (forall fuel, select_class_widget fuel tall_session 1 = Timeout) /\
  (forall fuel, select_class_widget_resume fuel tall_session 0 0 = Timeout).
Proof.
  assert (Hadj : forall fuel,
             adjust_top_control fuel (set_control_index tall_session 1)
             = Timeout).
  { intros fuel.
    apply (adjust_top_control_too_tall fuel (set_control_index tall_session 1)
             (fill_control 2 (value_desc 7 (-1) "master" 8 8) "master")).
    - repeat constructor; vm_compute; discriminate.
    - vm_compute. split; [discriminate | reflexivity].
    - reflexivity.
    - reflexivity.
    - vm_compute. discriminate. }
  assert (Hsel : forall fuel, select_class_widget fuel tall_session 1 = Timeout).
  { intros fuel. unfold select_class_widget. cbv zeta.
    assert (((1 <? 0) || (ncontrols (current_class tall_session) <? 1)) = false)
      as -> by reflexivity.
    assert ((to_unsigned 1 >=? ncontrols (current_class tall_session)) = false)
      as -> by reflexivity.
    unfold select_class_widget_body. cbv zeta. by rewrite Hadj. }
  split; [exact Hsel|].
  intros fuel. unfold select_class_widget_resume. cbv zeta.
  assert (type (default zero_control
                  (controls (current_class tall_session) !! Z.to_nat 0))
          = AUDIO_MIXER_ENUM) as -> by reflexivity.
  assert ((0 =? -1) = false) as -> by reflexivity.
  apply Hsel.
Qed.

(** The jump of the scroll offset up to the focused control is not checked
    either: from [tall_first_session], focusing slot 0 settles with the
    offset at 0 and the focused control out of bounds. *)
Lemma scroll_up_out_of_bounds :
  exists x',
    select_class_widget 0 tall_first_session 0
    = Done (x', Activate_value_widget 0 0) /\
    top_control x' = 0 /\ control_index x' = 0 /\
    control_within_bounds x' 0 = false.
Proof. eexists. split; [vm_compute; reflexivity|]. by vm_compute. Qed.

End Viewport.

(** ** Theorems: FocusEngine *)

Section Focus.

Implicit Types (x : aiomixer) (c : aiomixer_control) (a : activation).

Lemma current_class_update_control x index f :
  current_class (update_control x index f)
  = set_controls (current_class x)
      (alter f (Z.to_nat index) (controls (current_class x))).
Proof.
  unfold current_class, update_control. simpl.
  rewrite list_lookup_alter_eq.
  by destruct (classes x !! Z.to_nat (class_index x)).
Qed.

Lemma control_height_set_current_chan v c :
  control_height (set_current_chan v c) = control_height c.
Proof. done. Qed.

(** The scroll adjustment ends, with the focused control within bounds,
    whenever that control fits on the screen by itself. *)
Lemma adjust_top_control_settles fuel x c :
  0 <= top_control x < UINT_MOD -> 0 <= control_index x < UINT_MOD ->
  controls (current_class x) !! Z.to_nat (control_index x) = Some c ->
  5 + control_height c < maxy x - 3 ->
  (Z.to_nat (control_index x - top_control x) <= fuel)%nat ->
  exists t,
    adjust_top_control fuel x = Done (set_top_control x t) /\
    control_within_bounds (set_top_control x t) (control_index x) = true.
Proof.
  intros Ht Hi Hc Hfit Hfuel. unfold adjust_top_control.
  destruct (top_control x >? control_index x) eqn:E1.
  - simpl. rewrite Z.ltb_irrefl. exists (control_index x). split; [done|].
    by apply (control_within_bounds_self _ _ c); [done | lia | done..].
  - destruct (top_control x <? control_index x) eqn:E2.
    + destruct (scroll_down_settles fuel x c) as (t & _ & Hs & Hw);
        [lia | lia | done..|].
      by exists t.
    + exists (top_control x).
      assert (set_top_control x (top_control x) = x) as -> by (by destruct x).
      split; [done|].
      by apply (control_within_bounds_self _ _ c); [lia | lia | done..].
Qed.

Lemma select_class_widget_body_settles fuel x index c :
  0 <= top_control x < UINT_MOD -> 0 <= index < UINT_MOD ->
  controls (current_class x) !! Z.to_nat index = Some c ->
  5 + control_height c < maxy x - 3 ->
  (Z.to_nat (index - top_control x) <= fuel)%nat ->
  exists x' a,
    select_class_widget_body fuel x index = Done (x', a) /\
    control_index x' = index /\ class_index x' = class_index x /\
    classes x' = classes x /\
    a <> Activate_class_buttons /\
    control_within_bounds x' index = true.
Proof.
  intros Ht Hi Hc Hfit Hfuel. unfold select_class_widget_body. cbv zeta.
  destruct (adjust_top_control_settles fuel (set_control_index x index) c)
    as (t & -> & Hw); try done.
  simpl. eexists _, _. split; [done|]. simpl.
  repeat split; [|done]. by destruct (type _).
Qed.

Lemma select_class_widget_settles fuel x index c :
  0 <= top_control x < UINT_MOD -> 0 <= index < UINT_MOD ->
  controls (current_class x) !! Z.to_nat (wrapped_index x index) = Some c ->
  5 + control_height c < maxy x - 3 ->
  (Z.to_nat MAX_CONTROLS <= fuel)%nat ->
  ncontrols (current_class x) <= MAX_CONTROLS ->
  exists x' a,
    select_class_widget fuel x index = Done (x', a) /\
    control_index x' = wrapped_index x index /\
    class_index x' = class_index x /\
    classes x' = classes x /\
    a <> Activate_class_buttons /\
    control_within_bounds x' (wrapped_index x index) = true.
Proof.
  intros Ht Hi Hc Hfit Hfuel Hcap.
  assert (Hn : 1 <= ncontrols (current_class x)).
  { apply lookup_lt_Some in Hc. unfold ncontrols. lia. }
  assert (Hw : 0 <= wrapped_index x index < ncontrols (current_class x)).
  { unfold wrapped_index. destruct (index <? _) eqn:E; lia. }
  unfold select_class_widget. cbv zeta.
  destruct (index <? 0) eqn:E0; [lia|].
  destruct (ncontrols (current_class x) <? 1) eqn:E1; [lia|]. simpl.
  assert (to_unsigned index = index) as ->
      by (unfold to_unsigned; apply Z.mod_small; lia).
  unfold wrapped_index in *. unfold MAX_CONTROLS, UINT_MOD in *.
  destruct (index <? ncontrols (current_class x)) eqn:E2.
  - destruct (index >=? ncontrols (current_class x)) eqn:E3; [lia|].
    apply (select_class_widget_body_settles fuel x index c);
      unfold UINT_MOD; try done; lia.
  - destruct (index >=? ncontrols (current_class x)) eqn:E3; [|lia].
    apply (select_class_widget_body_settles fuel x 0 c);
      unfold UINT_MOD; try done; lia.
Qed.

Lemma lookup_alter_height (cs : list aiomixer_control) i j f ct :
  (forall c, control_height (f c) = control_height c) ->
  cs !! j = Some ct ->
  exists ct', alter f i cs !! j = Some ct' /\
              control_height ct' = control_height ct.
Proof.
  intros Hf Hj. destruct (decide (i = j)) as [->|Hne].
  - rewrite list_lookup_alter_eq, Hj. simpl. eauto.
  - rewrite list_lookup_alter_ne by done. eauto.
Qed.

(** C2 (amended).  After a commit on an enum or set control, or on the last
    channel of a value control, [select_class_widget] is entered with
    [index + 1].  If the control it leads to fits on the screen, focus goes
    to control [index + 1] when the class has one, and otherwise back to
    control 0 of the same class; the class selector is not activated and
    the focused slot is one of the class. *)
Theorem commit_advances_or_wraps fuel x index result c ct :
  0 <= top_control x < UINT_MOD ->
  ncontrols (current_class x) <= MAX_CONTROLS ->
  0 <= index ->
  controls (current_class x) !! Z.to_nat index = Some c ->
  result <> -1 ->
  type c = AUDIO_MIXER_ENUM \/ type c = AUDIO_MIXER_SET \/
    (type c = AUDIO_MIXER_VALUE /\ num_channels c - 1 <= current_chan c) ->
  controls (current_class x) !! Z.to_nat (wrapped_index x (index + 1))
    = Some ct ->
  5 + control_height ct < maxy x - 3 ->
  (Z.to_nat MAX_CONTROLS <= fuel)%nat ->
  exists x' a,
    select_class_widget_resume fuel x index result = Done (x', a) /\
    control_index x' = wrapped_index x (index + 1) /\
    0 <= control_index x' < ncontrols (current_class x) /\
    class_index x' = class_index x /\
    a <> Activate_class_buttons.
Proof.
  intros Ht Hcap Hi Hc Hres Hty Hct Hfit Hfuel.
  assert (Hlt : index < ncontrols (current_class x)).
  { apply lookup_lt_Some in Hc. unfold ncontrols. lia. }
  assert (Hw : 0 <= wrapped_index x (index + 1) < ncontrols (current_class x)).
  { unfold wrapped_index. destruct (index + 1 <? _) eqn:E; lia. }
  assert (Hr : (result =? -1) = false) by lia.
  assert (Hu : 0 <= index + 1 < UINT_MOD)
    by (unfold MAX_CONTROLS, UINT_MOD in *; lia).
  unfold select_class_widget_resume. cbv zeta. rewrite Hc. simpl.
  destruct Hty as [Hty | [Hty | [Hty Hlast]]]; rewrite Hty, Hr.
  - destruct (select_class_widget_settles fuel x (index + 1) ct)
      as (x' & a & H1 & H2 & H3 & _ & H5 & _); try done.
    exists x', a. rewrite H2. done.
  - destruct (select_class_widget_settles fuel x (index + 1) ct)
      as (x' & a & H1 & H2 & H3 & _ & H5 & _); try done.
    exists x', a. rewrite H2. done.
  - destruct (current_chan c <? num_channels c - 1) eqn:E; [lia|].
    set (x1 := update_control x index (set_current_chan 0)).
    assert (Hcc : current_class x1
                  = set_controls (current_class x)
                      (alter (set_current_chan 0) (Z.to_nat index)
                         (controls (current_class x))))
      by apply current_class_update_control.
    assert (Hn1 : ncontrols (current_class x1) = ncontrols (current_class x)).
    { rewrite Hcc. unfold ncontrols. simpl. by rewrite length_alter. }
    assert (Hw1 : wrapped_index x1 (index + 1) = wrapped_index x (index + 1)).
    { unfold wrapped_index. by rewrite Hn1. }
    destruct (lookup_alter_height (controls (current_class x))
                (Z.to_nat index) (Z.to_nat (wrapped_index x (index + 1)))
                (set_current_chan 0) ct) as (ct' & Hct' & Hh); [done..|].
    destruct (select_class_widget_settles fuel x1 (index + 1) ct')
      as (x' & a & H1 & H2 & H3 & _ & H5 & _); try done.
    + rewrite Hw1, Hcc. done.
    + rewrite Hh. done.
    + by rewrite Hn1.
    + exists x', a. rewrite H2, Hw1. done.
Qed.

Lemma commit_advances_or_wraps_witness :
  exists x' a,
    select_class_widget_resume 64 three_class_session 0 0 = Done (x', a) /\
    control_index x' = 1 /\ a <> Activate_class_buttons.
Proof.
  destruct (commit_advances_or_wraps 64 three_class_session 0 0
              (fill_control 3 (enum_desc 7 (-1) "mute") "mute")
              (fill_control 4 (value_desc 7 (-1) "master" 2 8) "master"))
    as (x' & a & H1 & H2 & _ & _ & H5).
  - vm_compute. split; [discriminate | reflexivity].
  - vm_compute. discriminate.
  - lia.
  - reflexivity.
  - lia.
  - left. reflexivity.
  - reflexivity.
  - vm_compute. reflexivity.
  - vm_compute. lia.
  - exists x', a. split; [exact H1|]. split; [exact H2 | exact H5].
Defined.

(** C2 (as stated) fails.  [one_enum_session] has one control; committing
    it asks for index 1, and focus returns to control 0, not to the class
    selector, whatever the fuel. *)
Lemma commit_on_last_control_wraps :
  ncontrols (current_class one_enum_session) = 1 /\
  (forall fuel,
      select_class_widget_resume fuel one_enum_session 0 0
      = Done (one_enum_session, Activate_enum_widget 0)) /\
  Activate_enum_widget 0 <> Activate_class_buttons.
Proof. split; [done|]. split; [by intros fuel | done]. Qed.

(** C10.  A request for a control index below zero, or for any index in a
    class without controls, activates the class selector and reads no
    control slot; so does pressing up on the first control of a class, be
    it an enum or set control or channel 0 of a value control, and
    entering a class that has no controls. *)
Theorem retreat_selects_class fd fuel x :
  (forall index,
      index < 0 \/ ncontrols (current_class x) = 0 ->
      select_class_widget fuel x index = Done (x, Activate_class_buttons)) /\
  (forall current count k,
      control_index x = 0 -> k = KEY_UP \/ k = Key_k ->
      key_callback_control_buttons fd fuel x current count k
      = Done (Refocus x Activate_class_buttons)) /\
  (forall value k,
      control_index x = 0 -> current_chan (current_control x) <= 0 ->
      k = KEY_UP \/ k = Key_k ->
      key_callback_slider fd fuel x value k
      = Done (Refocus (update_control x 0 (set_current_chan 0))
                Activate_class_buttons)) /\
  (forall result,
      result <> -1 ->
      ncontrols (current_class (set_class_index x (to_unsigned result))) = 0 ->
      exists x',
        select_class_resume fuel x result = Done (x', Activate_class_buttons) /\
        class_index x' = to_unsigned result).
Proof.
  assert (Hsel : forall x index,
             index < 0 \/ ncontrols (current_class x) = 0 ->
             select_class_widget fuel x index
             = Done (x, Activate_class_buttons)).
  { intros x0 index H. unfold select_class_widget. cbv zeta.
    destruct (index <? 0) eqn:E0; [done|].
    destruct (ncontrols (current_class x0) <? 1) eqn:E1; [done | lia]. }
  split; [apply Hsel|]. split; [|split].
  - intros current count k Hci Hk.
    assert (key_callback_control_buttons fd fuel x current count k
            = refocus (select_class_widget fuel x
                         (to_int (to_unsigned (control_index x - 1))))) as ->
        by (by destruct Hk as [-> | ->]).
    rewrite Hci. by rewrite Hsel by (by left).
  - intros value k Hci Hch Hk.
    assert (key_callback_slider fd fuel x value k
            = refocus (select_class_widget fuel
                         (update_control x (control_index x)
                            (set_current_chan 0))
                         (to_int (to_unsigned (control_index x - 1))))) as ->.
    { destruct Hk as [-> | ->]; simpl;
        by destruct (current_chan (current_control x) >? 0) eqn:E; [lia|]. }
    rewrite Hci. by rewrite Hsel by (by left).
  - intros result Hres Hn. unfold select_class_resume. cbv zeta.
    destruct (result =? -1) eqn:E; [lia|].
    eexists. split.
    + apply Hsel. right.
      by destruct (to_unsigned result =? class_index x).
    + by destruct (to_unsigned result =? class_index x).
Qed.

Lemma retreat_selects_class_witness :
  select_class_widget 0 three_class_session (-1)
  = Done (three_class_session, Activate_class_buttons) /\
  key_callback_control_buttons
    {| mixer_read := fun _ => None; mixer_write := fun _ => false |}
    0 three_class_session 0 2 KEY_UP
  = Done (Refocus three_class_session Activate_class_buttons) /\
  (exists x',
      select_class_resume 0 three_class_session 1
      = Done (x', Activate_class_buttons) /\ class_index x' = 1).
Proof.
  destruct (retreat_selects_class
              {| mixer_read := fun _ => None; mixer_write := fun _ => false |}
              0 three_class_session) as (H1 & H2 & _ & H4).
  split; [apply H1; left; lia|].
  split; [apply H2; [reflexivity | left; reflexivity]|].
  apply (H4 1); [lia | reflexivity].
Defined.

End Focus.

(** ** Theorems: ValueSync *)

Section ValueSync.

Implicit Types (fd : device) (control : aiomixer_control) (d : mixer_ctrl_t).
Implicit Types (tr : list event).

Lemma to_u_char_level level : 0 <= level <= 255 -> to_u_char level = level.
Proof. intros H. unfold to_u_char. apply Z.mod_small. lia. Qed.

Lemma ioctls_app tr1 tr2 : ioctls (tr1 ++ tr2) = ioctls tr1 ++ ioctls tr2.
Proof. apply List.filter_app. Qed.

Lemma warnings_app tr1 tr2 :
  warnings (tr1 ++ tr2) = warnings tr1 ++ warnings tr2.
Proof. apply List.filter_app. Qed.

Lemma set_level_write_ioctls fd d :
  ioctls (set_level_write fd d) = [Ev_ioctl AUDIO_MIXER_WRITE d].
Proof. unfold set_level_write. by destruct (mixer_write fd d). Qed.

Lemma set_level_write_warnings fd d :
  warnings (set_level_write fd d)
  = if mixer_write fd d then []
    else [Ev_warning AUDIO_MIXER_WRITE (mc_dev d)].
Proof. unfold set_level_write. by destruct (mixer_write fd d). Qed.

(** The loop that broadcasts a level: it stores the level in the channels
    it walks, leaves the others, talks to no device and touches the slider
    of every channel it walks. *)
Lemma set_level_all_spec count i level d :
  0 <= i -> i + Z.of_nat count <= 8 -> length (mc_level d) = 8%nat ->
  exists d' tr,
    set_level_all count i level d = Done (d', tr) /\
    ioctls tr = [] /\ warnings tr = [] /\
    mc_dev d' = mc_dev d /\ mc_type d' = mc_type d /\
    mc_num_channels d' = mc_num_channels d /\
    length (mc_level d') = 8%nat /\
    (forall j, i <= j < i + Z.of_nat count ->
               mc_level d' !! Z.to_nat j = Some (to_u_char level) /\
               Ev_setCDKSliderValue j level ∈ tr /\ Ev_drawCDKSlider j ∈ tr) /\
    (forall j, 0 <= j -> j < i \/ i + Z.of_nat count <= j ->
               mc_level d' !! Z.to_nat j = mc_level d !! Z.to_nat j).
Proof.
  revert i d. induction count as [|count IH]; intros i d Hi Hle Hlen.
  - exists d, []. simpl. repeat split; try done; lia.
  - simpl. destruct (8 <=? i) eqn:E; [lia|].
    destruct (IH (i + 1) (store_level d i level))
      as (d' & tr & -> & Hio & Hwa & Hdev & Hty & Hnc & Hl & Hin & Hout);
      [lia | lia | by (simpl; rewrite length_insert)|].
    simpl. eexists _, _. split; [done|].
    repeat split; try done.
    + destruct (decide (j = i)) as [->|Hne].
      * rewrite Hout by lia. simpl.
        apply list_lookup_insert_eq. lia.
      * apply Hin. lia.
    + destruct (decide (j = i)) as [->|Hne]; [left|].
      do 2 right. apply Hin. lia.
    + destruct (decide (j = i)) as [->|Hne]; [right; left|].
      do 2 right. apply Hin. lia.
    + intros j Hj Hrange. rewrite Hout by lia. simpl.
      apply list_lookup_insert_ne. lia.
Qed.

(** C1.  With levels in 0..255 and a target channel among the at most 8
    channels of the control: when the channels move together
    ([chans_unlocked] false) the only device call is one write, whose
    request carries the new level in every channel of the control; when
    they are independent ([chans_unlocked] true) the device is read first
    and, the read answered, written once, the request carrying the new
    level in the target channel and in every other channel the level just
    read. *)
Theorem set_level_channels fd control level channel :
  0 <= level <= 255 ->
  0 <= channel < num_channels control -> num_channels control <= 8 ->
  (chans_unlocked control = false ->
   exists tr d,
     set_level fd control level channel = Done tr /\
     ioctls tr = [Ev_ioctl AUDIO_MIXER_WRITE d] /\
     mc_dev d = dev control /\
     mc_num_channels d = num_channels control /\
     forall i, 0 <= i < num_channels control ->
               mc_level d !! Z.to_nat i = Some level) /\
  (chans_unlocked control = true ->
   forall r,
     mixer_read fd (value_request control) = Some r ->
     length (mc_level r) = 8%nat ->
     exists tr d,
       set_level fd control level channel = Done tr /\
       ioctls tr = [Ev_ioctl AUDIO_MIXER_READ (value_request control);
                    Ev_ioctl AUDIO_MIXER_WRITE d] /\
       mc_dev d = mc_dev r /\
       mc_level d !! Z.to_nat channel = Some level /\
       forall i, 0 <= i -> i <> channel ->
                 mc_level d !! Z.to_nat i = mc_level r !! Z.to_nat i).
Proof.
  intros Hlevel Hchan Hmax. split.
  - intros Hlock. unfold set_level. cbv zeta. rewrite Hlock. simpl.
    destruct (set_level_all_spec (Z.to_nat (num_channels control)) 0 level
                (value_request control))
      as (d & tr & -> & Hio & _ & Hdev & _ & Hnc & _ & Hin & _);
      [lia | lia | done |].
    simpl. exists (tr ++ set_level_write fd d), d.
    split; [done|].
    rewrite ioctls_app, Hio, set_level_write_ioctls.
    repeat split; try done.
    intros i Hi. destruct (Hin i) as [-> _]; [lia|].
    by rewrite to_u_char_level.
  - intros Hlock r Hread Hlen. unfold set_level. cbv zeta.
    rewrite Hlock, Hread. simpl.
    destruct (channel <? 0) eqn:E0; [lia|].
    destruct (8 <=? channel) eqn:E8; [lia|]. simpl.
    eexists _, (store_level r channel level). split; [done|].
    unfold ioctls. simpl. fold (ioctls (set_level_write fd (store_level r channel level))).
    rewrite set_level_write_ioctls.
    repeat split; try done.
    + simpl. rewrite to_u_char_level by done.
      apply list_lookup_insert_eq. lia.
    + intros i Hi Hne. simpl. apply list_lookup_insert_ne. lia.
Qed.

Lemma set_level_channels_witness :
  (exists tr d,
      set_level working_device (stereo false) 92 1 = Done tr /\
      ioctls tr = [Ev_ioctl AUDIO_MIXER_WRITE d] /\
      mc_level d !! 0%nat = Some 92 /\ mc_level d !! 1%nat = Some 92) /\
  (exists tr d,
      set_level working_device (stereo true) 92 1 = Done tr /\
      ioctls tr = [Ev_ioctl AUDIO_MIXER_READ (value_request (stereo true));
                   Ev_ioctl AUDIO_MIXER_WRITE d] /\
      mc_level d !! 0%nat = Some 70 /\ mc_level d !! 1%nat = Some 92).
Proof.
  split.
  - destruct (set_level_channels working_device (stereo false) 92 1)
      as [H _]; [lia | simpl; lia | simpl; lia |].
    destruct (H eq_refl) as (tr & d & H1 & H2 & _ & _ & H5).
    exists tr, d. split; [exact H1|]. split; [exact H2|].
    split; [apply (H5 0); simpl; lia | apply (H5 1); simpl; lia].
  - destruct (set_level_channels working_device (stereo true) 92 1)
      as [_ H]; [lia | simpl; lia | simpl; lia |].
    destruct (H eq_refl _ eq_refl eq_refl) as (tr & d & H1 & H2 & _ & H4 & H5).
    exists tr, d. split; [exact H1|]. split; [exact H2|].
    split; [etrans; [apply (H5 0); lia | reflexivity] | exact H4].
Defined.

Lemma seqZ_S i (n : nat) :
  seqZ i (Z.of_nat (S n)) = i :: seqZ (i + 1) (Z.of_nat n).
Proof.
  rewrite Nat2Z.inj_succ, seqZ_cons by lia. do 2 f_equal; lia.
Qed.

Lemma slider_updates_cons level i chans :
  slider_updates level (i :: chans)
  = Ev_setCDKSliderValue i level :: Ev_drawCDKSlider i
      :: slider_updates level chans.
Proof. done. Qed.

(** The events of the loop that broadcasts a level, as they come. *)
Lemma set_level_all_trace count i level d d' tr :
  set_level_all count i level d = Done (d', tr) ->
  tr = slider_updates level (seqZ i (Z.of_nat count)).
Proof.
  revert i d d' tr. induction count as [|count IH]; intros i d d' tr.
  - simpl. by intros [= <- <-].
  - rewrite seqZ_S, slider_updates_cons. simpl.
    destruct (8 <=? i); [done|].
    destruct (set_level_all count (i + 1) level (store_level d i level))
      as [[d1 tr1]| |] eqn:E; [|done..].
    simpl. intros [= <- <-]. do 2 f_equal. by eapply IH.
Qed.

Lemma display_after_app tr1 tr2 sliders :
  display_after (tr1 ++ tr2) sliders
  = display_after tr2 (display_after tr1 sliders).
Proof. unfold display_after. apply foldl_app. Qed.

(** The sliders after a run of updates: the channels updated show the
    level, the others what they showed. *)
Lemma display_after_updates (count : nat) i level sliders :
  0 <= i -> i + Z.of_nat count <= Z.of_nat (length sliders) ->
  forall j, 0 <= j ->
    display_after (slider_updates level (seqZ i (Z.of_nat count))) sliders
      !! Z.to_nat j
    = if (i <=? j) && (j <? i + Z.of_nat count)
      then Some (shown_level level) else sliders !! Z.to_nat j.
Proof.
  revert i sliders. induction count as [|count IH]; intros i sliders Hi Hlen j Hj.
  - change (Z.of_nat 0) with 0. simpl.
    destruct (i <=? j) eqn:E1; [|done].
    destruct (j <? i + 0) eqn:E2; [lia | done].
  - rewrite seqZ_S, slider_updates_cons.
    remember (Z.of_nat (S count)) as n1 eqn:Hn1.
    assert (Hn : n1 = 1 + Z.of_nat count) by lia. clear Hn1.
    change (display_after
              (Ev_setCDKSliderValue i level :: Ev_drawCDKSlider i
                 :: slider_updates level (seqZ (i + 1) (Z.of_nat count)))
              sliders)
      with (display_after
              (slider_updates level (seqZ (i + 1) (Z.of_nat count)))
              (<[Z.to_nat i := shown_level level]> sliders)).
    rewrite IH; [|lia | rewrite length_insert; lia | done].
    destruct (decide (j = i)) as [->|Hne].
    + destruct (i + 1 <=? i) eqn:E1; [lia|]. simpl.
      destruct (i <=? i) eqn:E2; [|lia].
      destruct (i <? i + n1) eqn:E3; [|lia]. simpl.
      apply list_lookup_insert_eq. lia.
    + rewrite list_lookup_insert_ne by lia.
      destruct (i + 1 <=? j) eqn:E1; destruct (i <=? j) eqn:E2;
        destruct (j <? i + 1 + Z.of_nat count) eqn:E3;
        destruct (j <? i + n1) eqn:E4;
        simpl; try done; lia.
Qed.

(** C3 (amended).  A failed read (independent channels) is reported and
    ends the update before any slider is touched or anything is written:
    the display is left as it was.  A failed write is reported too and
    nothing is done after it, but the sliders have by then been set to the
    new level and drawn, every channel when the channels move together, the
    target channel when they are independent, and they are not set back:
    the events are the slider updates, then the write, then the warning,
    and the sliders updated show the new level afterwards. *)
Theorem set_level_failure fd control level channel :
  0 <= channel < num_channels control -> num_channels control <= 8 ->
  (chans_unlocked control = true ->
   mixer_read fd (value_request control) = None ->
   exists tr,
     set_level fd control level channel = Done tr /\
     warnings tr = [Ev_warning AUDIO_MIXER_READ (dev control)] /\
     ioctls tr = [Ev_ioctl AUDIO_MIXER_READ (value_request control)] /\
     forall sliders, display_after tr sliders = sliders) /\
  (chans_unlocked control = false ->
   exists tr d,
     set_level fd control level channel = Done tr /\
     ioctls tr = [Ev_ioctl AUDIO_MIXER_WRITE d] /\
     (mixer_write fd d = false ->
      tr = slider_updates level (seqZ 0 (num_channels control))
             ++ [Ev_ioctl AUDIO_MIXER_WRITE d;
                 Ev_warning AUDIO_MIXER_WRITE (dev control)] /\
      warnings tr = [Ev_warning AUDIO_MIXER_WRITE (dev control)] /\
      (forall i, 0 <= i < num_channels control ->
                 Ev_setCDKSliderValue i level ∈ tr /\
                 Ev_drawCDKSlider i ∈ tr) /\
      forall sliders, length sliders = 8%nat ->
        forall i, 0 <= i ->
          display_after tr sliders !! Z.to_nat i
          = if i <? num_channels control then Some (shown_level level)
            else sliders !! Z.to_nat i)) /\
  (chans_unlocked control = true ->
   forall r,
     mixer_read fd (value_request control) = Some r ->
     mixer_write fd (store_level r channel level) = false ->
     exists tr,
       set_level fd control level channel = Done tr /\
       tr = [Ev_ioctl AUDIO_MIXER_READ (value_request control);
             Ev_setCDKSliderValue channel level;
             Ev_drawCDKSlider channel;
             Ev_ioctl AUDIO_MIXER_WRITE (store_level r channel level);
             Ev_warning AUDIO_MIXER_WRITE (mc_dev r)] /\
       warnings tr = [Ev_warning AUDIO_MIXER_WRITE (mc_dev r)] /\
       Ev_setCDKSliderValue channel level ∈ tr /\
       Ev_drawCDKSlider channel ∈ tr /\
       forall sliders,
         display_after tr sliders
         = <[Z.to_nat channel := shown_level level]> sliders).
Proof.
  intros Hchan Hmax. split; [|split].
  - intros Hlock Hread. unfold set_level. cbv zeta.
    rewrite Hlock, Hread. simpl. eexists. split; [done|].
    by repeat split.
  - intros Hlock. unfold set_level. cbv zeta. rewrite Hlock. simpl.
    destruct (set_level_all_spec (Z.to_nat (num_channels control)) 0 level
                (value_request control))
      as (d & tr & Heq & Hio & Hwa & Hdev & _ & _ & _ & Hin & _);
      [lia | lia | done |].
    pose proof (set_level_all_trace _ _ _ _ _ _ Heq) as Htr.
    rewrite Z2Nat.id in Htr by lia.
    rewrite Heq. simpl. exists (tr ++ set_level_write fd d), d.
    split; [done|].
    rewrite ioctls_app, Hio, set_level_write_ioctls. split; [done|].
    intros Hfail.
    rewrite warnings_app, Hwa, set_level_write_warnings, Hfail, Hdev.
    split.
    { unfold set_level_write. by rewrite Hfail, Hdev, Htr. }
    split; [done|]. split.
    { intros i Hi. destruct (Hin i) as (_ & Hs & Hd); [lia|].
      split; apply elem_of_app; by left. }
    intros sliders Hlen i Hi.
    rewrite display_after_app.
    assert (display_after (set_level_write fd d)
              (display_after tr sliders) = display_after tr sliders) as ->.
    { unfold set_level_write. by rewrite Hfail. }
    rewrite Htr.
    rewrite <- (Z2Nat.id (num_channels control)) at 1 by lia.
    rewrite display_after_updates; [|lia | lia | done].
    rewrite Z2Nat.id by lia.
    destruct (0 <=? i) eqn:E0; [|lia]. simpl.
    by destruct (i <? 0 + num_channels control) eqn:E1;
       destruct (i <? num_channels control) eqn:E2; try lia.
  - intros Hlock r Hread Hfail. unfold set_level. cbv zeta.
    rewrite Hlock, Hread. simpl.
    destruct (channel <? 0) eqn:E0; [lia|].
    destruct (8 <=? channel) eqn:E8; [lia|]. simpl.
    eexists. split; [done|].
    unfold set_level_write. rewrite Hfail.
    split; [done|]. split; [done|]. split; [right; left|].
    split; [do 2 right; left | done].
Qed.

Lemma set_level_failure_witness :
  (exists tr,
      set_level dead_device (stereo true) 92 1 = Done tr /\
      warnings tr = [Ev_warning AUDIO_MIXER_READ 4] /\
      display_after tr [100; 100] = [100; 100]) /\
  (exists tr,
      set_level read_only_device (stereo true) 92 1 = Done tr /\
      warnings tr = [Ev_warning AUDIO_MIXER_WRITE 4] /\
      Ev_setCDKSliderValue 1 92 ∈ tr /\
      display_after tr [100; 100] = [100; 92]).
Proof.
  destruct (set_level_failure dead_device (stereo true) 92 1)
    as (H1 & _ & _); [simpl; lia | simpl; lia |].
  destruct (set_level_failure read_only_device (stereo true) 92 1)
    as (_ & _ & H3); [simpl; lia | simpl; lia |].
  split.
  - destruct (H1 eq_refl eq_refl) as (tr & Ha & Hb & _ & Hd).
    exists tr. split; [exact Ha|]. split; [exact Hb | apply Hd].
  - destruct (H3 eq_refl _ eq_refl eq_refl) as (tr & Ha & _ & Hb & Hc & _ & He).
    exists tr. split; [exact Ha|]. split; [exact Hb|]. split; [exact Hc|].
    rewrite He. reflexivity.
Defined.

(** C3 (as stated) fails.  With the channels of a stereo control moving
    together and both sliders showing 100, a [set_level] to 92 on a device
    that refuses the write reports the failure and leaves both sliders
    showing 92. *)
Lemma failed_write_changes_display :
  exists tr d,
    set_level read_only_device (stereo false) 92 0 = Done tr /\
    ioctls tr = [Ev_ioctl AUDIO_MIXER_WRITE d] /\
    mixer_write read_only_device d = false /\
    warnings tr = [Ev_warning AUDIO_MIXER_WRITE 4] /\
    display_after tr [100; 100] = [92; 92] /\
    display_after tr [100; 100] <> [100; 100].
Proof.
  eexists _, _. split; [vm_compute; reflexivity|].
  split; [vm_compute; reflexivity|].
  split; [reflexivity|]. split; [reflexivity|].
  split; [reflexivity | discriminate].
Qed.

End ValueSync.

(** ** Theorems: key callbacks *)

Section Keys.

Implicit Types (fd : device) (x : aiomixer).

(** Right at the class selector: the next class, the first after the
    last. *)
Lemma class_buttons_right fuel x current k :
  k = KEY_RIGHT \/ k = Key_l ->
  0 <= current < nclasses x -> nclasses x < UINT_MOD ->
  exists tr,
    key_callback_class_buttons fuel x current k
    = Done (Returns (set_class_index x ((current + 1) mod nclasses x))
              false tr) /\
    0 <= (current + 1) mod nclasses x < nclasses x.
Proof.
  intros Hk Hc Hn.
  assert (to_unsigned (current + 1) = current + 1) as Hu
      by (unfold to_unsigned; apply Z.mod_small; lia).
  assert (Hm : 0 <= (current + 1) mod nclasses x < nclasses x)
    by (apply Z.mod_pos_bound; lia).
  destruct Hk as [-> | ->]; simpl; unfold class_buttons_move;
    (destruct (nclasses x =? 0) eqn:E; [lia|]); rewrite Hu; eauto.
Qed.

(** Left at the class selector, from a class other than the first: the
    class before. *)
Lemma class_buttons_left_inner fuel x current k :
  k = KEY_LEFT \/ k = Key_h ->
  1 <= current < nclasses x -> nclasses x < UINT_MOD ->
  exists tr,
    key_callback_class_buttons fuel x current k
    = Done (Returns (set_class_index x (current - 1)) false tr).
Proof.
  intros Hk Hc Hn.
  assert (to_unsigned (current - 1) mod nclasses x = current - 1) as Hu.
  { unfold to_unsigned. rewrite (Z.mod_small (current - 1)) by lia.
    apply Z.mod_small. lia. }
  destruct Hk as [-> | ->]; simpl; unfold class_buttons_move;
    (destruct (nclasses x =? 0) eqn:E; [lia|]); rewrite Hu; eauto.
Qed.

(** Whatever the key, the class index stays a valid one. *)
Lemma class_buttons_move_valid x target arrow x' ret tr :
  class_buttons_move x target arrow = Done (Returns x' ret tr) ->
  0 <= class_index x' < nclasses x.
Proof.
  unfold class_buttons_move. destruct (nclasses x =? 0) eqn:E; [done|].
  intros [= <- _ _]. simpl. apply Z.mod_pos_bound.
  unfold nclasses in *. lia.
Qed.

(** C8.  Left from class 0 does not select the last class when the class
    count does not divide [2^32].  With three classes, [current - 1] is -1,
    which the unsigned division sees as 4294967295, a multiple of 3: the
    class index stays 0, where [(0 - 1) mod 3] is 2. *)
Theorem class_left_from_first_stays :
  nclasses three_class_session = 3 /\
  (0 - 1) mod 3 = 2 /\
  to_unsigned (0 - 1) = 4294967295 /\
  to_unsigned (0 - 1) mod nclasses three_class_session = 0 /\
  (forall fuel,
      key_callback_class_buttons fuel three_class_session 0 Key_h
      = Done (Returns (set_class_index three_class_session 0) false
                [Ev_destroy_class_widgets; Ev_create_class_widgets 0;
                 Ev_setCDKButtonboxCurrentButton_class 0])) /\
  (forall fuel,
      key_callback_class_buttons fuel three_class_session 0 KEY_LEFT
      = Done (Returns (set_class_index three_class_session 0) false
                [Ev_destroy_class_widgets; Ev_create_class_widgets 0])).
Proof. repeat split. Qed.

(** Right on an enum or set control: the next member, the first after the
    last, is written and, for the letter key, selected. *)
Lemma control_buttons_right fd fuel x current count k m :
  k = KEY_RIGHT \/ k = Key_l ->
  type (current_control x) = AUDIO_MIXER_ENUM \/
    type (current_control x) = AUDIO_MIXER_SET ->
  0 <= current < count -> count <= 32 ->
  member (current_control x) !! Z.to_nat ((current + 1) mod count) = Some m ->
  key_callback_control_buttons fd fuel x current count k
  = Done (Returns x false
            (set_enum_or_set fd (type (current_control x))
               (dev (current_control x)) (ord m)
               ++ if bool_decide (k = KEY_RIGHT) then []
                  else [Ev_setCDKButtonboxCurrentButton
                          ((current + 1) mod count)])).
Proof.
  intros Hk Hty Hc Hn Hm.
  assert (Hr : Z.rem (current + 1) count = (current + 1) mod count)
    by (apply Z.rem_mod_nonneg; lia).
  assert (Hb : 0 <= (current + 1) mod count < count)
    by (apply Z.mod_pos_bound; lia).
  assert (Hmem : member_at (current_control x) ((current + 1) mod count)
                 = Done m).
  { unfold member_at. rewrite Hm.
    destruct ((current + 1) mod count <? 0) eqn:E1; [lia|].
    destruct (32 <=? (current + 1) mod count) eqn:E2; [lia | done]. }
  destruct Hk as [-> | ->]; simpl;
    (destruct (count =? 0) eqn:E; [lia|]);
    unfold control_buttons_commit; rewrite Hr;
    destruct Hty as [-> | ->]; by rewrite Hmem.
Qed.

(** C9.  Left from member 0 does not reach the last member.  [%] on two
    [int]s truncates: with two members, [(0 - 1) % 2] is -1, and the
    callback reads [member[-1]], a slot before the array, for the value it
    writes; no member's value is written and no member is selected. *)
Theorem member_left_from_first_undefined :
  type (current_control three_class_session) = AUDIO_MIXER_ENUM /\
  num_mem (current_control three_class_session) = 2 /\
  Z.rem (0 - 1) 2 = -1 /\ (0 - 1) mod 2 = 1 /\
  member_at (current_control three_class_session) (Z.rem (0 - 1) 2)
  = Undefined /\
  (forall fd fuel,
      key_callback_control_buttons fd fuel three_class_session 0 2 Key_h
      = Undefined) /\
  (forall fd fuel,
      key_callback_control_buttons fd fuel three_class_session 0 2 KEY_LEFT
      = Undefined).
Proof. repeat split. Qed.

End Keys.

(** ** Theorems: the returned catalog *)

Section ReturnedCatalog.

Implicit Types (x : aiomixer) (cl : aiomixer_class) (c z : aiomixer_control).
Implicit Types (m : mixer_devinfo) (ds : list mixer_devinfo).

Lemma get_control_in_snoc (cs : list aiomixer_control) z d :
  get_control_in (cs ++ [z]) d
  = match get_control_in cs d with
    | Some c => Some c
    | None => if dev z =? d then Some z else None
    end.
Proof.
  induction cs as [|c0 cs IH]; simpl; [done|].
  by destruct (dev c0 =? d).
Qed.

(** A lookup in the catalog with one more control [z] at the end of a class
    gives what it gave before, or [z]. *)
Lemma get_control_from_insert (cls : list aiomixer_class) k cl z d :
  cls !! k = Some cl ->
  let cls' := <[k := set_controls cl (controls cl ++ [z])]> cls in
  (dev z <> d -> get_control_from cls' d = get_control_from cls d) /\
  (forall c, get_control_from cls' d = Some c ->
             get_control_from cls d = Some c \/ (c = z /\ dev z = d)) /\
  (get_control_from cls d = None -> dev z = d ->
   get_control_from cls' d = Some z).
Proof.
  revert k. induction cls as [|c0 cls IH]; intros k Hk; [done|].
  destruct k as [|k]; simpl in *.
  - injection Hk as ->. rewrite get_control_in_snoc.
    destruct (get_control_in (controls cl) d) as [c1|] eqn:E1.
    + repeat split; [by left | done].
    + destruct (dev z =? d) eqn:Ez.
      * split; [lia|]. split.
        -- intros c [= <-]. right. split; [done | lia].
        -- done.
      * split; [done|]. split; [by left | lia].
  - destruct (IH k Hk) as (H1 & H2 & H3).
    destruct (get_control_in (controls c0) d) as [c1|] eqn:E1.
    + repeat split; [by left | done].
    + done.
Qed.

Lemma get_control_push_ne x k cl z d :
  classes x !! k = Some cl -> dev z <> d ->
  aiomixer_get_control (push_control x k cl z) d = aiomixer_get_control x d.
Proof. intros Hk Hd. by apply (get_control_from_insert _ _ _ z d Hk). Qed.

Lemma get_control_push_cases x k cl z d c :
  classes x !! k = Some cl ->
  aiomixer_get_control (push_control x k cl z) d = Some c ->
  aiomixer_get_control x d = Some c \/ (c = z /\ dev z = d).
Proof. intros Hk. by apply (get_control_from_insert _ _ _ z d Hk). Qed.

Lemma get_control_push_new x k cl z d :
  classes x !! k = Some cl -> aiomixer_get_control x d = None -> dev z = d ->
  aiomixer_get_control (push_control x k cl z) d = Some z.
Proof. intros Hk. by apply (get_control_from_insert _ _ _ z d Hk). Qed.

Lemma aiomixer_get_control_Some x d c :
  aiomixer_get_control x d = Some c ->
  (exists cl, cl ∈ classes x /\ c ∈ controls cl) /\ dev c = d.
Proof.
  intros (cl & ? & ? & ?)%get_control_from_Some. split; [by exists cl | done].
Qed.

(** A walk that has ended is not changed by one more control whose index
    no stored control carries. *)
Lemma find_root_loop_push fuel x k cl z c0 r :
  classes x !! k = Some cl ->
  all_controls (fun c => dev c <> dev z) x ->
  find_root_loop fuel x c0 = Done r ->
  find_root_loop fuel (push_control x k cl z) c0 = Done r.
Proof.
  intros Hk Hfresh. revert c0.
  induction fuel as [|fuel IH]; intros c0; simpl; [done|].
  destruct (prev c0 =? -1); [done|].
  destruct (aiomixer_get_control x (prev c0)) as [c1|] eqn:E; [|done].
  intros Hw. rewrite get_control_push_ne, E; [by apply IH | done |].
  apply aiomixer_get_control_Some in E as [(cl1 & Hcl1 & Hc1) <-].
  intros Heq. by apply (Hfresh cl1 c1).
Qed.

Lemma find_root_control_push fuel x k cl z d r :
  classes x !! k = Some cl ->
  all_controls (fun c => dev c <> dev z) x ->
  find_root_control fuel x d = Done r ->
  find_root_control fuel (push_control x k cl z) d = Done r.
Proof.
  intros Hk Hfresh. unfold find_root_control.
  destruct (aiomixer_get_control x d) as [c1|] eqn:E; [|done].
  intros Hw. rewrite get_control_push_ne, E;
    [by apply find_root_loop_push | done |].
  apply aiomixer_get_control_Some in E as [(cl1 & Hcl1 & Hc1) <-].
  intros Heq. by apply (Hfresh cl1 c1).
Qed.

(** A walk that ends while a zero-filled slot is counted did not pass
    through the slot: it ends the same way without it. *)
Lemma find_root_loop_unslot fuel x k cl c0 r :
  classes x !! k = Some cl ->
  find_root_loop fuel (push_control x k cl zero_control) c0 = Done r ->
  find_root_loop fuel x c0 = Done r.
Proof.
  intros Hk. revert c0.
  induction fuel as [|fuel IH]; intros c0; simpl; [done|].
  destruct (prev c0 =? -1); [done|].
  destruct (aiomixer_get_control (push_control x k cl zero_control) (prev c0))
    as [c1|] eqn:E; [|done].
  intros Hw.
  destruct (get_control_push_cases _ _ _ _ _ _ Hk E) as [E' | [-> Hz]].
  - rewrite E'. by apply IH.
  - rewrite find_root_loop_self in Hw; [done | done |].
    simpl in *. by rewrite Hz.
Qed.

Lemma find_root_control_unslot fuel x k cl d r :
  classes x !! k = Some cl ->
  find_root_control fuel (push_control x k cl zero_control) d = Done r ->
  find_root_control fuel x d = Done r.
Proof.
  intros Hk. unfold find_root_control.
  destruct (aiomixer_get_control (push_control x k cl zero_control) d)
    as [c1|] eqn:E; [|done].
  intros Hw.
  destruct (get_control_push_cases _ _ _ _ _ _ Hk E) as [E' | [-> Hz]].
  - rewrite E'. by eapply find_root_loop_unslot.
  - rewrite find_root_loop_self in Hw; [done | done |].
    simpl in *. by rewrite Hz.
Qed.

Lemma all_controls_push (P : aiomixer_control -> Prop) x k cl z :
  classes x !! k = Some cl ->
  all_controls P x -> P z -> all_controls P (push_control x k cl z).
Proof.
  intros Hk Hall Hz cl' c [-> | Hcl']%(elem_of_push_control _ _ _ _ _ Hk) Hc.
  - simpl in Hc. apply elem_of_app in Hc as [Hc | ->%list_elem_of_singleton].
    + apply (Hall cl c); [by eapply list_elem_of_lookup_2 | done].
    + done.
  - by apply (Hall cl' c).
Qed.

Lemma control_ok_push fuel ds x k cl z c :
  classes x !! k = Some cl ->
  all_controls (fun c => dev c <> dev z) x ->
  control_ok fuel ds x c -> control_ok fuel ds (push_control x k cl z) c.
Proof.
  intros Hk Hfresh (Hd & m & Hm & Hty & Hc & Hn).
  split; [done|]. exists m. repeat split; try done.
  destruct (m_prev m =? -1); [done|].
  destruct Hn as (root & Hroot & Hname). exists root.
  split; [by apply find_root_control_push | done].
Qed.

Lemma devinfo_control_inv fuel ds x index m x' :
  0 <= index -> ds !! Z.to_nat index = Some m ->
  devinfo_control fuel x index m = Done x' ->
  catalog_inv fuel ds index x -> catalog_inv fuel ds (index + 1) x'.
Proof.
  intros Hi Hm Hstep (Hlt & Hok & Hget & Hord).
  apply devinfo_control_Done in Hstep
    as [-> | (k & cl & nm & Hty & Hc & _ & Hnm & ->)].
  { split; [|done]. intros cl c Hcl Hc.
    specialize (Hlt cl c Hcl Hc). simpl in Hlt. lia. }
  apply aiomixer_get_class_Some in Hc as [Hk Hid].
  set (z := fill_control index m nm).
  assert (Hdz : dev z = index) by apply fill_control_dev.
  assert (Hfresh : all_controls (fun c => dev c <> dev z) x).
  { intros cl' c Hcl' Hc'. specialize (Hlt cl' c Hcl' Hc'). simpl in *. lia. }
  assert (Hnone : aiomixer_get_control x index = None).
  { apply get_control_from_absent. intros cl' c Hcl' Hc'.
    specialize (Hlt cl' c Hcl' Hc'). simpl in Hlt. lia. }
  split; [|split; [|split]].
  - apply all_controls_push; [done | | simpl; lia].
    intros cl' c Hcl' Hc'. specialize (Hlt cl' c Hcl' Hc'). simpl in *. lia.
  - apply all_controls_push; [done | |].
    + intros cl' c Hcl' Hc'. apply control_ok_push; [done..|].
      by apply (Hok cl' c).
    + split; [lia|]. exists m. rewrite Hdz. split; [done|]. split; [done|].
      split; [unfold z; by rewrite fill_control_name|].
      unfold z. rewrite fill_control_name.
      unfold control_name in Hnm.
      destruct (m_prev m =? -1) eqn:Ep; [by injection Hnm as <-|].
      destruct (find_root_control fuel (push_control x k cl zero_control)
                  (m_prev m)) as [root| |] eqn:Er; simpl in Hnm; [|done..].
      injection Hnm as <-. exists root. split; [|done].
      apply find_root_control_push; [done..|].
      by eapply find_root_control_unslot.
  - apply all_controls_push; [done | |].
    + intros cl' c Hcl' Hc'. simpl.
      rewrite get_control_push_ne; [by apply (Hget cl' c) | done |].
      specialize (Hfresh cl' c Hcl' Hc'). simpl in Hfresh. congruence.
    + simpl. rewrite Hdz. by apply get_control_push_new.
  - intros cl' i j ci cj [-> | Hcl']%(elem_of_push_control _ _ _ _ _ Hk);
      [|by apply Hord].
    simpl. intros Hci Hcj Hij.
    assert (Hcl : cl ∈ classes x) by (by eapply list_elem_of_lookup_2).
    apply lookup_snoc_Some in Hcj as [[Hj Hcj] | [Hj <-]].
    + apply lookup_snoc_Some in Hci as [[_ Hci] | [? _]]; [|lia].
      by apply (Hord cl i j).
    + apply lookup_snoc_Some in Hci as [[_ Hci] | [? _]]; [|lia].
      rewrite Hdz.
      apply (Hlt cl ci Hcl). by eapply list_elem_of_lookup_2.
Qed.

Lemma devinfo_controls_catalog_inv fuel ds pre rest x x' :
  ds = pre ++ rest ->
  devinfo_controls fuel x (Z.of_nat (length pre)) rest = Done x' ->
  catalog_inv fuel ds (Z.of_nat (length pre)) x ->
  catalog_inv fuel ds (Z.of_nat (length ds)) x'.
Proof.
  revert pre x. induction rest as [|m rest IH]; intros pre x Hds; simpl.
  - intros [= <-]. by rewrite Hds, app_nil_r.
  - destruct (devinfo_control fuel x (Z.of_nat (length pre)) m) as [x1| |] eqn:E;
      simpl; [|done..].
    intros Hrest Hinv.
    replace (Z.of_nat (length pre) + 1) with (Z.of_nat (length (pre ++ [m])))
      in Hrest by (rewrite length_app; simpl; lia).
    apply (IH (pre ++ [m])) in Hrest; [done | by rewrite <- app_assoc |].
    rewrite length_app. simpl.
    replace (Z.of_nat (length pre + 1)) with (Z.of_nat (length pre) + 1) by lia.
    apply (devinfo_control_inv fuel ds x _ m); [lia | | done..].
    rewrite Nat2Z.id, Hds. by apply list_lookup_middle.
Qed.

(** Every catalog that [aiomixer_devinfo] returns satisfies the invariant
    at the end of the enumeration. *)
Lemma aiomixer_devinfo_catalog_inv fuel rows ds x :
  aiomixer_devinfo fuel (zero_aiomixer rows) ds = Done x ->
  catalog_inv fuel ds (Z.of_nat (length ds)) x.
Proof.
  unfold aiomixer_devinfo. intros H.
  apply (devinfo_controls_catalog_inv fuel ds [] ds) in H; [done..|].
  assert (Hnil : forall ds' x0,
             (forall cl, cl ∈ classes x0 -> controls cl = []) ->
             forall cl, cl ∈ classes (foldl devinfo_class x0 ds') ->
                        controls cl = []).
  { clear. induction ds' as [|m ds' IH]; intros x0 H0; simpl; [done|].
    apply IH. intros cl [? | ?]%devinfo_class_controls; [by apply H0 | done]. }
  assert (Hempty : forall cl,
             cl ∈ classes (foldl devinfo_class (zero_aiomixer rows) ds) ->
             controls cl = []).
  { apply Hnil. intros cl Hcl. by apply elem_of_nil in Hcl. }
  split; [|split; [|split]].
  - intros cl c Hcl Hc. rewrite (Hempty cl Hcl) in Hc.
    by apply elem_of_nil in Hc.
  - intros cl c Hcl Hc. rewrite (Hempty cl Hcl) in Hc.
    by apply elem_of_nil in Hc.
  - intros cl c Hcl Hc. rewrite (Hempty cl Hcl) in Hc.
    by apply elem_of_nil in Hc.
  - intros cl i j ci cj Hcl Hci. by rewrite (Hempty cl Hcl) in Hci.
Qed.

(** X1.  In a catalog that [aiomixer_devinfo] returns, every control
    carries the fields of the descriptor whose index it has: type, links,
    member table or channel count; a value control has the device's step,
    or 8 when the device reports 0, so never 0; and every control starts on
    channel 0 with its channels moving together. *)
Theorem stored_control_fields fuel rows ds x cl c :
  aiomixer_devinfo fuel (zero_aiomixer rows) ds = Done x ->
  cl ∈ classes x -> c ∈ controls cl ->
  exists m,
    0 <= dev c /\ ds !! Z.to_nat (dev c) = Some m /\
    type c = m_type m /\ type c <> AUDIO_MIXER_CLASS /\
    next c = m_next m /\ prev c = m_prev m /\
    current_chan c = 0 /\ chans_unlocked c = false /\
    (type c = AUDIO_MIXER_VALUE ->
     num_channels c = m_num_channels m /\ delta c <> 0 /\
     (m_delta m <> 0 -> delta c = m_delta m) /\
     (m_delta m = 0 -> delta c = 8)) /\
    (type c <> AUDIO_MIXER_VALUE ->
     num_mem c = m_num_mem m /\
     member c = take (Z.to_nat (m_num_mem m)) (m_member m)).
Proof.
  intros Hx Hcl Hc.
  destruct (aiomixer_devinfo_catalog_inv _ _ _ _ Hx) as (_ & Hok & _).
  destruct (Hok cl c Hcl Hc) as (Hd & m & Hm & Hty & Hfill & _).
  exists m. split; [done|]. split; [done|].
  rewrite Hfill. rewrite fill_control_type, fill_control_prev.
  unfold fill_control.
  destruct (m_type m) eqn:Et; simpl; [done|..];
    repeat split; try done;
    destruct (m_delta m =? 0) eqn:Ed; lia.
Qed.

Lemma stored_control_fields_witness :
  exists m,
    master_family !! Z.to_nat (dev (master_control 3)) = Some m /\
    m_delta m = 0 /\ delta (master_control 3) = 8.
Proof.
  destruct (stored_control_fields 5 24 master_family master_catalog
              master_class (master_control 3))
    as (m & _ & Hm & _ & _ & _ & _ & _ & _ & Hv & _).
  - vm_compute. reflexivity.
  - apply (list_elem_of_lookup_2 _ 0%nat). reflexivity.
  - apply (list_elem_of_lookup_2 _ 3%nat). reflexivity.
  - exists m. split; [exact Hm|].
    assert (Hm0 : m_delta m = 0).
    { vm_compute in Hm. injection Hm as <-. reflexivity. }
    split; [exact Hm0|]. apply Hv; [reflexivity | exact Hm0].
Defined.

(** X2.  In a catalog that [aiomixer_devinfo] returns, every control is
    found again by its device index, no two controls share an index, and
    the index of a descriptor that is a class, or of no descriptor at all,
    finds nothing. *)
Theorem stored_control_lookup fuel rows ds x :
  aiomixer_devinfo fuel (zero_aiomixer rows) ds = Done x ->
  (forall cl c, cl ∈ classes x -> c ∈ controls cl ->
                aiomixer_get_control x (dev c) = Some c) /\
  (forall cl1 c1 cl2 c2,
      cl1 ∈ classes x -> c1 ∈ controls cl1 ->
      cl2 ∈ classes x -> c2 ∈ controls cl2 ->
      dev c1 = dev c2 -> c1 = c2) /\
  (forall d,
      (d < 0 \/ Z.of_nat (length ds) <= d \/
       exists m, ds !! Z.to_nat d = Some m /\ m_type m = AUDIO_MIXER_CLASS) ->
      aiomixer_get_control x d = None).
Proof.
  intros Hx.
  destruct (aiomixer_devinfo_catalog_inv _ _ _ _ Hx) as (Hlt & Hok & Hget & _).
  split; [done|]. split.
  - intros cl1 c1 cl2 c2 Hcl1 Hc1 Hcl2 Hc2 Hd.
    pose proof (Hget cl1 c1 Hcl1 Hc1) as H1.
    pose proof (Hget cl2 c2 Hcl2 Hc2) as H2. simpl in *.
    rewrite Hd in H1. congruence.
  - intros d Hd. apply get_control_from_absent. intros cl c Hcl Hc Heq.
    destruct (Hok cl c Hcl Hc) as (H0 & m & Hm & Hty & _).
    specialize (Hlt cl c Hcl Hc). simpl in Hlt.
    destruct Hd as [Hd | [Hd | (m' & Hm' & Hty')]]; [lia | lia |].
    rewrite Heq, Hm' in Hm. injection Hm as <-. done.
Qed.

Lemma stored_control_lookup_witness :
  aiomixer_get_control master_catalog 4 = Some (master_control 3) /\
  aiomixer_get_control master_catalog 0 = None /\
  aiomixer_get_control master_catalog 5 = None.
Proof.
  destruct (stored_control_lookup 5 24 master_family master_catalog)
    as (H1 & _ & H3).
  - vm_compute. reflexivity.
  - split; [|split].
    + apply (H1 master_class (master_control 3)).
      * apply (list_elem_of_lookup_2 _ 0%nat). reflexivity.
      * apply (list_elem_of_lookup_2 _ 3%nat). reflexivity.
    + apply H3. right. right. exists (class_desc 7 "outputs").
      split; reflexivity.
    + apply H3. right. left. simpl. lia.
Defined.

(** X3.  In a catalog that [aiomixer_devinfo] returns, the controls of a
    class stand in enumeration order: a later slot holds a larger device
    index. *)
Theorem stored_controls_in_order fuel rows ds x cl i j ci cj :
  aiomixer_devinfo fuel (zero_aiomixer rows) ds = Done x ->
  cl ∈ classes x ->
  controls cl !! i = Some ci -> controls cl !! j = Some cj ->
  (i < j)%nat -> dev ci < dev cj.
Proof.
  intros Hx.
  destruct (aiomixer_devinfo_catalog_inv _ _ _ _ Hx) as (_ & _ & _ & Hord).
  apply Hord.
Qed.

Lemma stored_controls_in_order_witness :
  dev (master_control 1) < dev (master_control 3).
Proof.
  apply (stored_controls_in_order 5 24 master_family master_catalog
           master_class 1%nat 3%nat).
  - vm_compute. reflexivity.
  - apply (list_elem_of_lookup_2 _ 0%nat). reflexivity.
  - reflexivity.
  - reflexivity.
  - lia.
Defined.

(** X4.  In a catalog that [aiomixer_devinfo] returns, no parent chain is
    broken or cyclic: from the parent of every control the walk of
    [find_root_control] ends, with the fuel of the construction or more, at
    a stored control without parent, and the name of the control is the
    composite made from the name of that root and the descriptor's label.
    A control without parent is named by the first 16 characters of its
    label. *)
Theorem stored_parent_chains_end fuel rows ds x cl c :
  aiomixer_devinfo fuel (zero_aiomixer rows) ds = Done x ->
  cl ∈ classes x -> c ∈ controls cl ->
  exists m,
    ds !! Z.to_nat (dev c) = Some m /\
    (prev c = -1 -> name c = memcpy_label (m_label m)) /\
    (prev c <> -1 ->
     exists root clr,
       (forall fuel', (fuel <= fuel')%nat ->
                      find_root_control fuel' x (prev c) = Done root) /\
       clr ∈ classes x /\ root ∈ controls clr /\ prev root = -1 /\
       name c = composite_name (type c) (name root) (m_label m)).
Proof.
  intros Hx Hcl Hc.
  destruct (aiomixer_devinfo_catalog_inv _ _ _ _ Hx) as (_ & Hok & _).
  destruct (Hok cl c Hcl Hc) as (Hd & m & Hm & Hty & Hfill & Hn).
  assert (Hp : prev c = m_prev m) by (rewrite Hfill; apply fill_control_prev).
  assert (Ht : type c = m_type m) by (rewrite Hfill; apply fill_control_type).
  exists m. split; [done|]. rewrite Hp, Ht.
  destruct (m_prev m =? -1) eqn:Ep; (split; [intros ?; try done; lia|]);
    [intros ?; lia|].
  intros _. destruct Hn as (root & Hroot & Hname).
  destruct (find_root_control_in _ _ _ _ Hroot) as (clr & Hclr & Hr).
  exists root, clr. repeat split; try done.
  - intros fuel' Hle. unfold find_root_control in *.
    destruct (aiomixer_get_control x (m_prev m)); [|done].
    by eapply find_root_loop_more.
  - unfold find_root_control in Hroot.
    destruct (aiomixer_get_control x (m_prev m)); [|done].
    by eapply find_root_loop_root.
Qed.

Lemma stored_parent_chains_end_witness :
  exists root,
    find_root_control 5 master_catalog (prev (master_control 2)) = Done root /\
    name root = "master" /\
    name (master_control 2) = "master.source" +:+ newline.
Proof.
  destruct (stored_parent_chains_end 5 24 master_family master_catalog
              master_class (master_control 2)) as (m & Hm & _ & H).
  - vm_compute. reflexivity.
  - apply (list_elem_of_lookup_2 _ 0%nat). reflexivity.
  - apply (list_elem_of_lookup_2 _ 2%nat). reflexivity.
  - destruct H as (root & clr & Hw & _ & _ & _ & Hn);
      [vm_compute; discriminate|].
    exists root. pose proof (Hw 5%nat (le_n 5)) as Hw5.
    split; [exact Hw5|].
    assert (Hr : root = master_control 0).
    { vm_compute in Hw5. injection Hw5 as <-. reflexivity. }
    split; [rewrite Hr; reflexivity | reflexivity].
Defined.

Lemma devinfo_control_without_parent x index m :
  (m_type m <> AUDIO_MIXER_CLASS -> m_prev m = -1) ->
  exists x', forall fuel', devinfo_control fuel' x index m = Done x'.
Proof.
  intros Hp. unfold devinfo_control, control_name.
  destruct (m_type m) eqn:Et; [by exists x|..];
    (rewrite Hp by done; simpl;
     destruct (aiomixer_get_class x (m_mixer_class m)) as [[k cl]|];
       [|by exists x];
     destruct (ncontrols cl <? MAX_CONTROLS); [|by exists x];
     by eexists).
Qed.

Lemma aiomixer_devinfo_without_parents_returns rows ds :
  Forall (fun m => m_type m <> AUDIO_MIXER_CLASS -> m_prev m = -1) ds ->
  exists x,
    forall fuel, aiomixer_devinfo fuel (zero_aiomixer rows) ds = Done x.
Proof.
  intros Hall. unfold aiomixer_devinfo.
  generalize (foldl devinfo_class (zero_aiomixer rows) ds). generalize 0.
  induction Hall as [|m ds Hm Hall IH]; intros index x; simpl.
  - by exists x.
  - destruct (devinfo_control_without_parent x index m Hm) as [x1 H1].
    destruct (IH (index + 1) x1) as [x2 H2].
    exists x2. intros fuel. rewrite H1. simpl. apply H2.
Qed.

(** X5.  When no control descriptor names a parent and the member table of
    every enum or set descriptor fits the 32 slots of [member[]],
    [aiomixer_devinfo] returns a catalog, and the same one whatever the
    fuel: nothing walks, a descriptor whose class is unknown or full is
    passed over, and no control of the catalog has more than 32 members. *)
Theorem aiomixer_devinfo_without_parents rows ds :
  Forall (fun m => m_type m <> AUDIO_MIXER_CLASS -> m_prev m = -1) ds ->
  Forall descriptor_fits ds ->
  exists x,
    (forall fuel, aiomixer_devinfo fuel (zero_aiomixer rows) ds = Done x) /\
    all_controls members_fit x.
Proof.
  intros Hall Hfit.
  destruct (aiomixer_devinfo_without_parents_returns rows ds Hall) as [x Hx].
  exists x. split; [done|].
  destruct (aiomixer_devinfo_catalog_inv _ _ _ _ (Hx 0%nat))
    as (_ & Hok & _ & _).
  intros cl c Hcl Hc.
  destruct (Hok cl c Hcl Hc) as (_ & m & Hm & _ & Heq & _).
  assert (Hmfit : descriptor_fits m).
  { eapply Forall_forall in Hfit; [done|]. by eapply list_elem_of_lookup_2. }
  unfold members_fit, descriptor_fits in *. rewrite Heq.
  unfold fill_control. destruct (m_type m); simpl; intros [? | ?]; try done;
    apply Hmfit; auto.
Qed.

Lemma aiomixer_devinfo_without_parents_witness :
  exists x,
    forall fuel,
      aiomixer_devinfo fuel (zero_aiomixer 24)
        [class_desc 7 "outputs"; enum_desc 7 (-1) "mute";
         value_desc 7 (-1) "master" 2 8] = Done x.
Proof.
  destruct (aiomixer_devinfo_without_parents 24
              [class_desc 7 "outputs"; enum_desc 7 (-1) "mute";
               value_desc 7 (-1) "master" 2 8]) as (x & Hx & _).
  - repeat constructor.
  - repeat (apply List.Forall_cons;
            [unfold descriptor_fits; simpl; intros _; lia|]).
    apply List.Forall_nil.
  - by exists x.
Defined.

(** The second loop only appends: a class keeps its slot and its id, and
    its controls stay where they are. *)
Lemma devinfo_control_appends fuel x index m x' k cl :
  devinfo_control fuel x index m = Done x' ->
  classes x !! k = Some cl ->
  exists cl', classes x' !! k = Some cl' /\
              controls cl `prefix_of` controls cl'.
Proof.
  intros [-> | (k0 & cl0 & nm & _ & Hc & _ & _ & ->)]%devinfo_control_Done Hk.
  { by exists cl. }
  apply aiomixer_get_class_Some in Hc as [Hk0 _]. simpl.
  destruct (decide (k0 = k)) as [->|Hne].
  - rewrite Hk in Hk0. injection Hk0 as <-.
    eexists. split.
    + apply list_lookup_insert_eq. by eapply lookup_lt_Some.
    + simpl. by apply prefix_app_r.
  - exists cl. by rewrite list_lookup_insert_ne.
Qed.

Lemma devinfo_controls_appends fuel x index rest x' k cl :
  devinfo_controls fuel x index rest = Done x' ->
  classes x !! k = Some cl ->
  id <$> classes x' = id <$> classes x /\
  exists cl', classes x' !! k = Some cl' /\
              controls cl `prefix_of` controls cl'.
Proof.
  revert x index cl. induction rest as [|m rest IH]; intros x index cl; simpl.
  - intros [= <-] Hk. split; [done|]. by exists cl.
  - destruct (devinfo_control fuel x index m) as [x1| |] eqn:E; simpl;
      [|done..].
    intros Hrest Hk.
    destruct (devinfo_control_appends _ _ _ _ _ _ _ E Hk) as (cl1 & Hk1 & Hp1).
    destruct (IH _ _ _ Hrest Hk1) as (Hids & cl' & Hk' & Hp').
    split.
    + rewrite Hids. by eapply devinfo_control_ids.
    + exists cl'. split; [done|]. by etrans.
Qed.

(** The class found for an id depends on the ids of the classes only. *)
Lemma get_class_from_ids (cls cls' : list aiomixer_class) i class_id k cl :
  id <$> cls' = id <$> cls ->
  get_class_from cls i class_id = Some (k, cl) ->
  exists cl', get_class_from cls' i class_id = Some (k, cl').
Proof.
  revert cls' i. induction cls as [|c0 cls IH]; intros cls' i Hids; [done|].
  destruct cls' as [|c0' cls']; [done|]. simpl in *.
  injection Hids as Hid0 Hids. rewrite Hid0.
  destruct (id c0 =? class_id); [intros [= <- <-]; by eexists|].
  by apply IH.
Qed.

Lemma devinfo_controls_stores fuel ds pre rest x x' i m k cl :
  ds = pre ++ rest ->
  devinfo_controls fuel x (Z.of_nat (length pre)) rest = Done x' ->
  (length pre <= i)%nat -> ds !! i = Some m ->
  m_type m <> AUDIO_MIXER_CLASS ->
  aiomixer_get_class x' (m_mixer_class m) = Some (k, cl) ->
  ncontrols cl < MAX_CONTROLS ->
  exists c, c ∈ controls cl /\ dev c = Z.of_nat i.
Proof.
  revert pre x. induction rest as [|m0 rest IH]; intros pre x Hds; simpl.
  - intros _ Hi Hm. apply lookup_lt_Some in Hm.
    rewrite Hds, app_nil_r in Hm. lia.
  - destruct (devinfo_control fuel x (Z.of_nat (length pre)) m0)
      as [x1| |] eqn:E; simpl; [|done..].
    intros Hrest Hi Hm Hty Hc Hroom.
    destruct (decide (i = length pre)) as [->|Hne].
    + assert (m0 = m) as ->.
      { rewrite Hds, list_lookup_middle in Hm by done. by injection Hm. }
      pose proof Hc as Hc'. apply aiomixer_get_class_Some in Hc' as [Hk' Hid'].
      assert (Hids : id <$> classes x' = id <$> classes x).
      { destruct (classes x1 !! k) as [cl1|] eqn:Hk1.
        - destruct (devinfo_controls_appends _ _ _ _ _ _ _ Hrest Hk1)
            as [Hids _].
          rewrite Hids. by eapply devinfo_control_ids.
        - apply lookup_ge_None in Hk1. apply lookup_lt_Some in Hk'.
          assert (length (id <$> classes x') = length (id <$> classes x1))
            as Hl.
          { clear -Hrest. revert x1 Hrest.
            generalize (Z.of_nat (length pre) + 1).
            induction rest as [|m1 rest IH]; intros index x1; simpl.
            - by intros [= <-].
            - destruct (devinfo_control fuel x1 index m1) as [x2| |] eqn:E;
                simpl; [|done..].
              intros H. rewrite (IH _ _ H).
              by rewrite (devinfo_control_ids _ _ _ _ _ E). }
          rewrite !length_fmap in Hl. lia. }
      destruct (get_class_from_ids (classes x') (classes x) 0%nat
                  (m_mixer_class m) k cl) as [cl0 Hc0]; [done | exact Hc |].
      pose proof Hc0 as Hc0'. apply get_class_from_Some in Hc0' as (_ & Hk0 & _).
      rewrite Nat.sub_0_r in Hk0.
      assert (Hroom0 : (ncontrols cl0 <? MAX_CONTROLS) = true).
      { destruct (devinfo_control_appends _ _ _ _ _ _ _ E Hk0)
          as (cl1 & Hk1 & Hp1).
        destruct (devinfo_controls_appends _ _ _ _ _ _ _ Hrest Hk1)
          as (_ & cl' & Hkf & Hp').
        rewrite Hk' in Hkf. injection Hkf as <-.
        apply prefix_length in Hp1. apply prefix_length in Hp'.
        unfold ncontrols in *. lia. }
      unfold devinfo_control in E. fold (aiomixer_get_class x (m_mixer_class m)) in Hc0.
      rewrite Hc0, Hroom0 in E.
      destruct (control_name fuel (push_control x k cl0 zero_control) m)
        as [nm| |] eqn:En; simpl in E; [|by destruct (m_type m)..].
      assert (x1 = push_control x k cl0
                     (fill_control (Z.of_nat (length pre)) m nm)) as ->.
      { destruct (m_type m); [done|..]; by injection E. }
      assert (Hk1 : classes
                      (push_control x k cl0
                         (fill_control (Z.of_nat (length pre)) m nm)) !! k
                    = Some (set_controls cl0
                              (controls cl0
                                 ++ [fill_control (Z.of_nat (length pre)) m nm]))).
      { simpl. apply list_lookup_insert_eq. by eapply lookup_lt_Some. }
      destruct (devinfo_controls_appends _ _ _ _ _ _ _ Hrest Hk1)
        as (_ & cl' & Hkf & [tail Hp']).
      rewrite Hk' in Hkf. injection Hkf as <-.
      exists (fill_control (Z.of_nat (length pre)) m nm).
      split; [|apply fill_control_dev].
      rewrite Hp'. simpl. apply elem_of_app. left. apply elem_of_app. right.
      by apply list_elem_of_singleton.
    + replace (Z.of_nat (length pre) + 1)
        with (Z.of_nat (length (pre ++ [m0]))) in Hrest
        by (rewrite length_app; simpl; lia).
      apply (IH (pre ++ [m0]) x1); try done.
      * by rewrite <- app_assoc.
      * rewrite length_app. simpl. lia.
Qed.

(** X6.  Nothing is dropped while there is room: in a catalog that
    [aiomixer_devinfo] returns, a control descriptor whose class id is
    found, in a class that holds fewer than 64 controls at the end, has its
    control in that class. *)
Theorem descriptor_stored_while_room fuel rows ds x i m k cl :
  aiomixer_devinfo fuel (zero_aiomixer rows) ds = Done x ->
  ds !! i = Some m -> m_type m <> AUDIO_MIXER_CLASS ->
  aiomixer_get_class x (m_mixer_class m) = Some (k, cl) ->
  ncontrols cl < MAX_CONTROLS ->
  exists c, c ∈ controls cl /\ dev c = Z.of_nat i.
Proof.
  unfold aiomixer_devinfo. intros Hx Hm Hty Hc Hroom.
  apply (devinfo_controls_stores fuel ds [] ds
           (foldl devinfo_class (zero_aiomixer rows) ds) x i m k cl);
    try done.
  simpl. lia.
Qed.

Lemma descriptor_stored_while_room_witness :
  exists c, c ∈ controls master_class /\ dev c = 3.
Proof.
  apply (descriptor_stored_while_room 5 24 master_family master_catalog
           3%nat (set_desc 7 1 "source") 0%nat master_class).
  - vm_compute. reflexivity.
  - reflexivity.
  - simpl. discriminate.
  - reflexivity.
  - vm_compute. reflexivity.
Defined.

End ReturnedCatalog.

(** Membership in a list that is written out. *)
Ltac in_list :=
  repeat first [apply list_elem_of_here | apply list_elem_of_further].

(** [channels_ok] for every control of a given class. *)
Ltac channels_ok_all :=
  match goal with
  | |- Forall channels_ok ?l =>
      let l' := eval vm_compute in l in change (Forall channels_ok l')
  end;
  repeat (apply List.Forall_cons; [unfold channels_ok; simpl; intros; lia|]);
  apply List.Forall_nil.

(** ** Theorems: the visible window *)

Section VisibleWindow.

Implicit Types (x : aiomixer) (c : aiomixer_control).
Implicit Types (cs : list aiomixer_control).

(** With rows that are never negative, the loop accepts whatever ends
    before [max_y]. *)
Lemma within_bounds_loop_fits cs i index y max_y :
  Forall (fun c => 0 <= control_height c) cs ->
  i <= index -> index - i < Z.of_nat (length cs) ->
  y + heights_sum (take (Z.to_nat (index - i + 1)) cs) < max_y ->
  within_bounds_loop cs i index y max_y = true.
Proof.
  intros Hpos. revert i y.
  induction Hpos as [|c cs Hc Hpos IH]; intros i y Hi Hlen; simpl in *; [lia|].
  replace (Z.to_nat (index - i + 1)) with (S (Z.to_nat (index - i))) by lia.
  simpl. intros Hsum.
  assert (Hrest : 0 <= heights_sum (take (Z.to_nat (index - i)) cs)).
  { clear -Hpos. generalize (Z.to_nat (index - i)).
    induction Hpos as [|c cs Hc Hpos IH]; intros [|n]; simpl; try lia.
    specialize (IH n). lia. }
  destruct (y + control_height c >=? max_y) eqn:Ey; [lia|].
  destruct (i =? index) eqn:Ei; [done|].
  apply IH; [lia | lia |].
  replace (index - (i + 1) + 1) with (index - i) by lia. lia.
Qed.

(** A smaller starting row is accepted where a larger one is. *)
Lemma within_bounds_loop_lower cs i index y y' max_y :
  y' <= y ->
  within_bounds_loop cs i index y max_y = true ->
  within_bounds_loop cs i index y' max_y = true.
Proof.
  revert i y y'. induction cs as [|c cs IH]; intros i y y' Hy; simpl; [done|].
  destruct (y + control_height c >=? max_y) eqn:Ey; [done|].
  destruct (y' + control_height c >=? max_y) eqn:Ey'; [lia|].
  destruct (i =? index); [done|]. apply IH. lia.
Qed.

(** What is accepted for [index] is accepted for every slot before it. *)
Lemma within_bounds_loop_prefix cs i index index' y max_y :
  i <= index' <= index ->
  within_bounds_loop cs i index y max_y = true ->
  within_bounds_loop cs i index' y max_y = true.
Proof.
  revert i y. induction cs as [|c cs IH]; intros i y Hi; simpl; [done|].
  destruct (y + control_height c >=? max_y); [done|].
  destruct (i =? index') eqn:E'; [done|].
  destruct (i =? index) eqn:E; [lia|].
  apply IH. lia.
Qed.

(** With rows that are never negative, what is accepted from slot [i] is
    accepted from every later slot up to [index]. *)
Lemma within_bounds_loop_drop cs i index y max_y (n : nat) :
  Forall (fun c => 0 <= control_height c) cs ->
  i + Z.of_nat n <= index ->
  within_bounds_loop cs i index y max_y = true ->
  within_bounds_loop (drop n cs) (i + Z.of_nat n) index y max_y = true.
Proof.
  revert cs i. induction n as [|n IH]; intros cs i Hpos Hn Hw.
  - rewrite drop_0. by replace (i + Z.of_nat 0) with i by lia.
  - destruct Hpos as [|c cs Hc Hpos]; [done|].
    simpl in Hw. simpl drop.
    destruct (y + control_height c >=? max_y) eqn:Ey; [done|].
    destruct (i =? index) eqn:Ei; [lia|].
    replace (i + Z.of_nat (S n)) with (i + 1 + Z.of_nat n) by lia.
    apply IH; [done | lia |].
    apply (within_bounds_loop_lower _ _ _ (y + control_height c)); [lia|done].
Qed.

(** A control of at most 8 channels takes between 0 and 24 rows. *)
Lemma channels_ok_rows (cs : list aiomixer_control) :
  Forall channels_ok cs -> Forall (fun c => 0 <= control_height c) cs.
Proof.
  intros H. eapply Forall_impl; [exact H|].
  intros c Hc. unfold channels_ok, control_height in *.
  destruct (type c); try lia. specialize (Hc eq_refl). lia.
Qed.

(** X9.  In a class whose value controls have at most 8 channels, on a
    screen whose row count leaves the row arithmetic inside [int]:
    [control_within_bounds] answers [true] for a control at or below the
    scroll offset exactly when the rows from the offset to that control,
    laid out from row 5, end before row [maxy - 3]; for a control above the
    scroll offset it answers [false]. *)
Theorem control_within_bounds_iff x f :
  Forall channels_ok (controls (current_class x)) ->
  maxy x < 2 ^ 31 - 24 ->
  0 <= top_control x -> 0 <= f < ncontrols (current_class x) ->
  (top_control x <= f ->
   (control_within_bounds x f = true
    <-> 5 + rows_between x (top_control x) f < maxy x - 3)) /\
  (f < top_control x -> control_within_bounds x f = false).
Proof.
  intros Hok _ Ht [Hf0 Hf]. apply channels_ok_rows in Hok as Hpos. split.
  - intros Hle. split.
    + by apply control_within_bounds_rows.
    + intros Hrows. unfold control_within_bounds, rows_between in *.
      destruct (f <? top_control x) eqn:E; [lia|].
      apply within_bounds_loop_fits; [by apply Forall_drop | lia | | done].
      rewrite length_drop. unfold ncontrols in Hf. lia.
  - intros Hlt. unfold control_within_bounds.
    by destruct (f <? top_control x) eqn:E; [|lia].
Qed.

Lemma control_within_bounds_iff_witness :
  control_within_bounds three_class_session 1 = true /\
  5 + rows_between three_class_session 0 1 < 24 - 3.
Proof.
  destruct (control_within_bounds_iff three_class_session 1) as [H _].
  - channels_ok_all.
  - reflexivity.
  - vm_compute. discriminate.
  - vm_compute. split; [discriminate | reflexivity].
  - destruct H as [H1 H2]; [vm_compute; discriminate|].
    assert (Hr : 5 + rows_between three_class_session
                       (top_control three_class_session) 1
                 < maxy three_class_session - 3)
      by (vm_compute; reflexivity).
    split; [exact (H2 Hr) | exact Hr].
Defined.

Lemma control_within_bounds_prefix x f i :
  control_within_bounds x f = true -> top_control x <= i <= f ->
  control_within_bounds x i = true.
Proof.
  intros Hw Hi. unfold control_within_bounds in *.
  destruct (f <? top_control x) eqn:E; [done|].
  destruct (i <? top_control x) eqn:E'; [lia|].
  by eapply within_bounds_loop_prefix.
Qed.

(** X10.  In a class whose value controls have at most 8 channels, on a
    screen whose row count leaves the row arithmetic inside [int], the
    controls within bounds form one run from the scroll offset: a control
    within bounds has every control between the scroll offset and itself
    within bounds too, and it stays within bounds when the scroll offset
    moves down towards it. *)
Theorem control_within_bounds_run x f :
  Forall channels_ok (controls (current_class x)) ->
  maxy x < 2 ^ 31 - 24 ->
  0 <= top_control x ->
  control_within_bounds x f = true ->
  (forall i, top_control x <= i <= f -> control_within_bounds x i = true) /\
  (forall t, top_control x <= t <= f ->
             control_within_bounds (set_top_control x t) f = true).
Proof.
  intros Hok _ Ht Hw. apply channels_ok_rows in Hok as Hpos. split.
  - intros i Hi. by apply (control_within_bounds_prefix x f).
  - intros t Hle. unfold control_within_bounds in *. simpl.
    change (current_class (set_top_control x t)) with (current_class x).
    destruct (f <? top_control x) eqn:E; [done|].
    destruct (f <? t) eqn:E'; [lia|].
    replace (Z.to_nat t)
      with (Z.to_nat (top_control x) + Z.to_nat (t - top_control x))%nat
      by lia.
    rewrite <- drop_drop.
    replace t with (top_control x + Z.of_nat (Z.to_nat (t - top_control x)))
      at 2 by lia.
    apply within_bounds_loop_drop; [by apply Forall_drop | lia | done].
Qed.

Lemma control_within_bounds_run_witness :
  control_within_bounds three_class_session 0 = true /\
  control_within_bounds (set_top_control three_class_session 1) 1 = true.
Proof.
  destruct (control_within_bounds_run three_class_session 1) as [H1 H2].
  - channels_ok_all.
  - reflexivity.
  - vm_compute. discriminate.
  - vm_compute. reflexivity.
  - split.
    + apply H1. vm_compute. split; discriminate.
    + apply H2. vm_compute. split; discriminate.
Defined.

(** Scrolling down stops at the first scroll offset that puts the focused
    control within bounds. *)
Lemma scroll_down_first fuel x c :
  0 <= top_control x <= control_index x -> control_index x < UINT_MOD ->
  (Z.to_nat (control_index x - top_control x) <= fuel)%nat ->
  controls (current_class x) !! Z.to_nat (control_index x) = Some c ->
  5 + control_height c < maxy x - 3 ->
  exists t,
    top_control x <= t <= control_index x /\
    scroll_down fuel x = Done (set_top_control x t) /\
    control_within_bounds (set_top_control x t) (control_index x) = true /\
    forall t', top_control x <= t' < t ->
               control_within_bounds (set_top_control x t') (control_index x)
               = false.
Proof.
  revert x. induction fuel as [|fuel IH]; intros x Ht Hf Hfuel Hc Hfit.
  - assert (top_control x = control_index x) as Heq by lia.
    exists (top_control x). split; [lia|].
    assert (set_top_control x (top_control x) = x) as Hx by (by destruct x).
    rewrite Hx.
    assert (control_within_bounds x (control_index x) = true) as Hw
        by (eapply control_within_bounds_self; [done | lia | done..]).
    simpl. rewrite Hw. repeat split; try done. intros t' Ht'. lia.
  - simpl. destruct (control_within_bounds x (control_index x)) eqn:Hw.
    + exists (top_control x). split; [lia|].
      assert (set_top_control x (top_control x) = x) as -> by (by destruct x).
      repeat split; try done. intros t' Ht'. lia.
    + assert (top_control x <> control_index x) as Hne.
      { intros Heq. erewrite control_within_bounds_self in Hw;
          [done | done | lia | done..]. }
      assert (to_unsigned (top_control x + 1) = top_control x + 1) as ->.
      { unfold to_unsigned. apply Z.mod_small. lia. }
      destruct (IH (set_top_control x (top_control x + 1)))
        as (t & Ht' & Hs & Hw' & Hleast); simpl; try done; try lia.
      simpl in *. exists t. split; [lia|]. repeat split; try done.
      intros t' Hr. destruct (decide (t' = top_control x)) as [->|Hn].
      * assert (set_top_control x (top_control x) = x) as ->
            by (by destruct x). done.
      * apply Hleast. lia.
Qed.

(** X11.  In a class whose value controls have at most 8 channels, on a
    screen whose row count leaves the row arithmetic inside [int]: when the
    focused control fits on the screen by itself, the scroll adjustment of
    [select_class_widget] ends with the focused control within bounds, and
    it moves the scroll offset no further than needed:
    up to the focused control when that is above the offset, and otherwise
    down to the first offset from which the focused control is within
    bounds, which is the old offset when it already is. *)
Theorem adjust_top_control_least fuel x c :
  Forall channels_ok (controls (current_class x)) ->
  maxy x < 2 ^ 31 - 24 ->
  0 <= top_control x < UINT_MOD -> 0 <= control_index x < UINT_MOD ->
  controls (current_class x) !! Z.to_nat (control_index x) = Some c ->
  5 + control_height c < maxy x - 3 ->
  (Z.to_nat (control_index x - top_control x) <= fuel)%nat ->
  exists t,
    adjust_top_control fuel x = Done (set_top_control x t) /\
    control_within_bounds (set_top_control x t) (control_index x) = true /\
    (control_index x < top_control x -> t = control_index x) /\
    (top_control x <= control_index x ->
     top_control x <= t <= control_index x /\
     forall t', top_control x <= t' < t ->
                control_within_bounds (set_top_control x t')
                  (control_index x) = false).
Proof.
  intros _ _ Ht Hi Hc Hfit Hfuel. unfold adjust_top_control.
  destruct (top_control x >? control_index x) eqn:E1.
  - simpl. rewrite Z.ltb_irrefl. exists (control_index x).
    split; [done|]. split.
    + by apply (control_within_bounds_self _ _ c); [done | lia | done..].
    + split; [done | lia].
  - destruct (top_control x <? control_index x) eqn:E2.
    + destruct (scroll_down_first fuel x c) as (t & Hr & Hs & Hw & Hl);
        [lia | lia | done..|].
      exists t. repeat split; try done; lia.
    + exists (top_control x).
      assert (set_top_control x (top_control x) = x) as -> by (by destruct x).
      split; [done|]. split.
      * by apply (control_within_bounds_self _ _ c); [lia | lia | done..].
      * split; [lia|]. intros _. split; [lia|]. intros t' Ht'. lia.
Qed.

Lemma adjust_top_control_least_witness :
  exists t,
    adjust_top_control 1
      (set_control_index (set_top_control tall_first_session 0) 1)
    = Done (set_top_control
              (set_control_index (set_top_control tall_first_session 0) 1) t)
    /\ t = 1.
Proof.
  destruct (adjust_top_control_least 1
              (set_control_index (set_top_control tall_first_session 0) 1)
              (fill_control 2 (enum_desc 7 (-1) "mute") "mute"))
    as (t & Hs & Hw & _ & Hl).
  - channels_ok_all.
  - reflexivity.
  - vm_compute. split; [discriminate | reflexivity].
  - vm_compute. split; [discriminate | reflexivity].
  - reflexivity.
  - vm_compute. reflexivity.
  - vm_compute. lia.
  - destruct Hl as [Hr Hleast]; [vm_compute; discriminate|].
    exists t. split; [exact Hs|].
    destruct (decide (t = 0)) as [->|Hn].
    + vm_compute in Hw. discriminate.
    + simpl in Hr. lia.
Defined.

(** *** [reposition_visible_widgets] *)

Lemma slider_widgets_Done count i chan :
  0 <= chan -> chan + Z.of_nat count <= 8 ->
  exists ws, slider_widgets count i chan = Done ws /\
             length ws = count /\
             Forall (fun w => widget_slot w = i) ws.
Proof.
  revert chan. induction count as [|count IH]; intros chan H0 H8; simpl.
  - by exists [].
  - destruct (8 <=? chan) eqn:E; [lia|].
    destruct (IH (chan + 1)) as (ws & -> & Hl & Hs); [lia..|]. simpl.
    eexists. split; [done|]. split; [simpl; by rewrite Hl|].
    by constructor.
Qed.

Lemma control_widgets_Done c i :
  channels_ok c ->
  0 <= control_height c /\
  exists ws, control_widgets c i = Done ws /\
             3 * Z.of_nat (length ws) = control_height c /\
             Forall (fun w => widget_slot w = i) ws.
Proof.
  unfold channels_ok, control_widgets, control_height.
  destruct (type c); intros Hok.
  - split; [lia|]. by exists [].
  - split; [lia|]. exists [Enum_widget i]. repeat split; by repeat constructor.
  - split; [lia|]. exists [Set_widget i]. repeat split; by repeat constructor.
  - specialize (Hok eq_refl). split; [lia|].
    destruct (slider_widgets_Done (Z.to_nat (num_channels c)) i 0)
      as (ws & -> & Hl & Hs); [lia | lia |].
    exists ws. split; [done|]. split; [rewrite Hl; lia | done].
Qed.

Lemma channels_ok_heights (cs : list aiomixer_control) :
  Forall channels_ok cs -> Forall (fun c => 0 <= control_height c) cs.
Proof.
  intros H. eapply Forall_impl; [exact H|].
  intros c Hc. by destruct (control_widgets_Done c 0 Hc).
Qed.

Lemma each_widget_Done f cs i :
  Forall channels_ok cs ->
  exists evs,
    each_widget f cs i = Done evs /\
    forall e, e ∈ evs <->
              exists n c ws w,
                cs !! n = Some c /\
                control_widgets c (i + Z.of_nat n) = Done ws /\
                w ∈ ws /\ e = f w.
Proof.
  intros Hok. revert i. induction Hok as [|c cs Hc Hok IH]; intros i; simpl.
  - exists []. split; [done|]. intros e. split.
    + intros He. by apply elem_of_nil in He.
    + by intros (n & c & ws & w & Hn & _).
  - destruct (control_widgets_Done c i Hc) as (_ & ws & Hws & _).
    destruct (IH (i + 1)) as (evs & Hevs & Hin).
    rewrite Hws, Hevs. simpl. eexists. split; [done|].
    intros e. rewrite elem_of_app, list_elem_of_fmap, Hin. split.
    + intros [(w & -> & Hw) | (n & c' & ws' & w & Hn & Hc' & Hw & ->)].
      * exists 0%nat, c, ws, w. replace (i + Z.of_nat 0) with i by lia. done.
      * exists (S n), c', ws', w.
        replace (i + Z.of_nat (S n)) with (i + 1 + Z.of_nat n) by lia. done.
    + intros (n & c' & ws' & w & Hn & Hc' & Hw & ->).
      destruct n as [|n]; simpl in Hn.
      * injection Hn as <-.
        replace (i + Z.of_nat 0) with i in Hc' by lia.
        rewrite Hws in Hc'. injection Hc' as <-. left. by exists w.
      * right. exists n, c', ws', w.
        replace (i + 1 + Z.of_nat n) with (i + Z.of_nat (S n)) by lia. done.
Qed.

Lemma move_widgets_in ws y e :
  e ∈ move_widgets ws y ->
  exists w y', e = Move w y' /\ w ∈ ws /\
               y <= y' /\ y' + 3 <= y + 3 * Z.of_nat (length ws).
Proof.
  revert y. induction ws as [|w0 ws IH]; intros y; simpl.
  - intros He. by apply elem_of_nil in He.
  - intros [-> | He]%elem_of_cons.
    + exists w0, y. repeat split; [left | lia | lia].
    + destruct (IH _ He) as (w & y' & -> & Hw & Hy1 & Hy2).
      exists w, y'. repeat split; [by right | lia | lia].
Qed.

Lemma heights_sum_take_S (cs : list aiomixer_control) n c :
  cs !! n = Some c ->
  heights_sum (take (S n) cs) = heights_sum (take n cs) + control_height c.
Proof.
  revert n. induction cs as [|c0 cs IH]; intros n Hn; [done|].
  destruct n as [|n]; simpl in *.
  - injection Hn as ->. lia.
  - rewrite (IH n Hn). lia.
Qed.

(** The second loop, from slot [i] at the row the slots before it have
    used up. *)
Lemma place_visible_spec x cs i y :
  Forall channels_ok (controls (current_class x)) ->
  0 <= top_control x <= i -> i <= ncontrols (current_class x) ->
  cs = drop (Z.to_nat i) (controls (current_class x)) ->
  y = 5 + heights_sum
            (take (Z.to_nat (i - top_control x))
               (drop (Z.to_nat (top_control x)) (controls (current_class x)))) ->
  exists mc evs,
    place_visible x cs i y = Done (mc, evs) /\
    i <= mc <= ncontrols (current_class x) /\
    (forall j, i <= j < mc -> control_within_bounds x j = true) /\
    (mc < ncontrols (current_class x) -> control_within_bounds x mc = false) /\
    (forall e, e ∈ evs ->
               exists w y', e = Move w y' /\ i <= widget_slot w < mc /\
                            y <= y' /\ y' + 3 < maxy x - 3).
Proof.
  intros Hok. revert i y.
  induction cs as [|c cs IH]; intros i y Ht Hi Hcs Hy.
  - simpl. eexists _, _. split; [done|].
    assert (ncontrols (current_class x) <= i).
    { symmetry in Hcs. apply drop_nil_inv in Hcs. unfold ncontrols. lia. }
    repeat split; try lia.
    intros e He. by apply elem_of_nil in He.
  - assert (Hc : controls (current_class x) !! Z.to_nat i = Some c).
    { rewrite <- (Nat.add_0_r (Z.to_nat i)), <- lookup_drop. by rewrite <- Hcs. }
    assert (Hlt : i < ncontrols (current_class x)).
    { apply lookup_lt_Some in Hc. unfold ncontrols. lia. }
    simpl. destruct (control_within_bounds x i) eqn:Hw; simpl.
    + assert (Hcok : channels_ok c).
      { eapply Forall_forall in Hok; [done|].
        by eapply list_elem_of_lookup_2. }
      destruct (control_widgets_Done c i Hcok) as (Hh & ws & -> & Hlen & Hslot).
      simpl.
      assert (Hrows : y + control_height c
                      = 5 + rows_between x (top_control x) i).
      { unfold rows_between. rewrite Hy.
        replace (Z.to_nat (i - top_control x + 1))
          with (S (Z.to_nat (i - top_control x))) by lia.
        rewrite (heights_sum_take_S _ _ c); [lia|].
        rewrite lookup_drop. rewrite <- Hc. f_equal. lia. }
      assert (Hfit : 5 + rows_between x (top_control x) i < maxy x - 3)
        by (apply control_within_bounds_rows; [lia | done..]).
      destruct (IH (i + 1) (y + 3 * Z.of_nat (length ws)))
        as (mc & evs & -> & Hmc & Hin & Hout & Hmoves); [lia | lia | | |].
      { replace (Z.to_nat (i + 1)) with (S (Z.to_nat i)) by lia.
        rewrite (drop_S _ _ _ Hc) in Hcs. by injection Hcs. }
      { rewrite Hlen, Hrows. unfold rows_between. do 3 f_equal. lia. }
      simpl. eexists _, _. split; [done|]. split; [lia|]. split; [|split].
      * intros j Hj. destruct (decide (j = i)) as [->|Hne]; [done|].
        apply Hin. lia.
      * done.
      * intros e [He | He]%elem_of_app.
        -- destruct (move_widgets_in _ _ _ He) as (w & y' & -> & Hwin & H1 & H2).
           exists w, y'. split; [done|].
           eapply Forall_forall in Hslot; [|done].
           rewrite Hslot. repeat split; lia.
        -- destruct (Hmoves e He) as (w & y' & -> & Hs & H1 & H2).
           exists w, y'. repeat split; lia.
    + eexists _, _. split; [done|]. repeat split; try lia.
      * done.
      * intros e He. by apply elem_of_nil in He.
Qed.

Lemma reposition_visible_widgets_spec x :
  Forall channels_ok (controls (current_class x)) ->
  0 <= top_control x <= ncontrols (current_class x) ->
  exists mc evs,
    reposition_visible_widgets x = Done (mc, evs) /\
    top_control x <= mc <= ncontrols (current_class x) /\
    (forall j, top_control x <= j < mc -> control_within_bounds x j = true) /\
    (mc < ncontrols (current_class x) -> control_within_bounds x mc = false) /\
    (forall w y, Move w y ∈ evs ->
                 top_control x <= widget_slot w < mc /\
                 5 <= y /\ y + 3 < maxy x - 3) /\
    (forall w, Draw w ∈ evs <->
               top_control x <= widget_slot w < mc /\
               exists c ws,
                 controls (current_class x) !! Z.to_nat (widget_slot w)
                 = Some c /\
                 control_widgets c (widget_slot w) = Done ws /\ w ∈ ws).
Proof.
  intros Hok Ht. unfold reposition_visible_widgets. cbv zeta.
  destruct (each_widget_Done Hide (controls (current_class x)) 0 Hok)
    as (hidden & -> & Hhid).
  destruct (place_visible_spec x
              (drop (Z.to_nat (top_control x)) (controls (current_class x)))
              (top_control x) 5 Hok)
    as (mc & moves & -> & Hmc & Hin & Hout & Hmov); [lia | lia | done | |].
  { by rewrite Z.sub_diag. }
  simpl.
  destruct (each_widget_Done Draw
              (take (Z.to_nat (mc - top_control x))
                 (drop (Z.to_nat (top_control x))
                    (controls (current_class x))))
              (top_control x))
    as (drawn & -> & Hdr); [by apply Forall_take, Forall_drop|].
  simpl. eexists _, _. split; [done|]. split; [done|]. split; [done|].
  split; [done|]. split.
  - intros w y [He | [He | [He | He]%elem_of_app]%elem_of_app]%elem_of_app.
    + apply Hhid in He as (? & ? & ? & ? & _ & _ & _ & ?). done.
    + destruct (Hmov _ He) as (w' & y' & [= <- <-] & Hs & H1 & H2). done.
    + apply Hdr in He as (? & ? & ? & ? & _ & _ & _ & ?). done.
    + apply list_elem_of_singleton in He. done.
  - intros w. split.
    + intros [He | [He | [He | He]%elem_of_app]%elem_of_app]%elem_of_app.
      * apply Hhid in He as (? & ? & ? & ? & _ & _ & _ & ?). done.
      * destruct (Hmov _ He) as (? & ? & ? & _). done.
      * apply Hdr in He as (n & c & ws & w' & Hn & Hc & Hw & [= <-]).
        apply lookup_take_Some in Hn as [Hn Hlt].
        rewrite lookup_drop in Hn.
        assert (Hcok : channels_ok c).
        { eapply Forall_forall in Hok; [done|].
          by eapply list_elem_of_lookup_2. }
        destruct (control_widgets_Done c (top_control x + Z.of_nat n) Hcok)
          as (_ & ws' & Hc' & _ & Hslot).
        rewrite Hc in Hc'. injection Hc' as <-.
        eapply Forall_forall in Hslot; [|done].
        rewrite Hslot. split; [lia|]. exists c, ws.
        split; [|done]. rewrite <- Hn. f_equal. lia.
      * apply list_elem_of_singleton in He. done.
    + intros (Hs & c & ws & Hc & Hws & Hw).
      apply elem_of_app. right. apply elem_of_app. right.
      apply elem_of_app. left. apply Hdr.
      exists (Z.to_nat (widget_slot w - top_control x)), c, ws, w.
      split; [|split; [|done]].
      * apply lookup_take_Some. split; [|lia].
        rewrite lookup_drop. rewrite <- Hc. f_equal. lia.
      * rewrite <- Hws. f_equal. lia.
Qed.

(** X12.  [reposition_visible_widgets] on a class whose value controls
    have at most 8 channels: it ends; the controls it shows are one run
    from the scroll offset, every control of the run within bounds and the
    control after the run, when there is one, not; it moves only widgets of
    the controls it shows, each to a row from 5 on whose three lines end
    above row [maxy - 3]; and it draws the widgets of the controls it
    shows, all of them and no widget of another control. *)
Theorem reposition_visible_widgets_shows x :
  Forall channels_ok (controls (current_class x)) ->
  0 <= top_control x <= ncontrols (current_class x) ->
  exists mc evs,
    reposition_visible_widgets x = Done (mc, evs) /\
    top_control x <= mc <= ncontrols (current_class x) /\
    (forall j, top_control x <= j < mc -> control_within_bounds x j = true) /\
    (mc < ncontrols (current_class x) -> control_within_bounds x mc = false) /\
    (forall w y, Move w y ∈ evs ->
                 top_control x <= widget_slot w < mc /\
                 5 <= y /\ y + 3 < maxy x - 3) /\
    (forall w, Draw w ∈ evs <->
               top_control x <= widget_slot w < mc /\
               exists c ws,
                 controls (current_class x) !! Z.to_nat (widget_slot w)
                 = Some c /\
                 control_widgets c (widget_slot w) = Done ws /\ w ∈ ws).
Proof. apply reposition_visible_widgets_spec. Qed.

Lemma reposition_visible_widgets_shows_witness :
  exists evs,
    reposition_visible_widgets (set_top_control three_class_session 1)
    = Done (2, evs) /\
    Draw (Value_widget 1 0) ∈ evs /\ ~ Draw (Enum_widget 0) ∈ evs.
Proof.
  destruct (reposition_visible_widgets_shows
              (set_top_control three_class_session 1))
    as (mc & evs & H1 & _ & _ & _ & _ & H6).
  - channels_ok_all.
  - vm_compute. split; discriminate.
  - assert (mc = 2) as ->.
    { vm_compute in H1. injection H1 as <- _. reflexivity. }
    exists evs. split; [exact H1|]. split.
    + apply H6. split; [vm_compute; split; [discriminate | reflexivity]|].
      eexists _, _. split; [reflexivity|]. split; [reflexivity|]. in_list.
    + intros H. apply H6 in H as [[H _] _]. vm_compute in H. by apply H.
Defined.

(** The scroll adjustment, when the focused control fits by itself, ends
    at an offset between 0 and the focused control. *)
Lemma adjust_top_control_range fuel x c :
  0 <= top_control x < UINT_MOD -> 0 <= control_index x < UINT_MOD ->
  controls (current_class x) !! Z.to_nat (control_index x) = Some c ->
  5 + control_height c < maxy x - 3 ->
  (Z.to_nat (control_index x - top_control x) <= fuel)%nat ->
  exists t,
    0 <= t <= control_index x /\
    adjust_top_control fuel x = Done (set_top_control x t) /\
    control_within_bounds (set_top_control x t) (control_index x) = true.
Proof.
  intros Ht Hi Hc Hfit Hfuel. unfold adjust_top_control.
  destruct (top_control x >? control_index x) eqn:E1.
  - simpl. rewrite Z.ltb_irrefl. exists (control_index x).
    split; [lia|]. split; [done|].
    by apply (control_within_bounds_self _ _ c); [done | lia | done..].
  - destruct (top_control x <? control_index x) eqn:E2.
    + destruct (scroll_down_first fuel x c) as (t & Hr & Hs & Hw & _);
        [lia | lia | done..|].
      exists t. split; [lia | done].
    + exists (top_control x).
      assert (set_top_control x (top_control x) = x) as -> by (by destruct x).
      split; [lia|]. split; [done|].
      by apply (control_within_bounds_self _ _ c); [lia | lia | done..].
Qed.

(** X13.  The control that [select_class_widget] focuses is on the screen:
    when it fits by itself, the body of [select_class_widget] ends, and
    [reposition_visible_widgets] in the session it leaves shows a run of
    controls that holds the focused one and draws each of its widgets. *)
Theorem focused_control_is_shown fuel x index c :
  Forall channels_ok (controls (current_class x)) ->
  0 <= top_control x < UINT_MOD -> 0 <= index < UINT_MOD ->
  controls (current_class x) !! Z.to_nat index = Some c ->
  5 + control_height c < maxy x - 3 ->
  (Z.to_nat (index - top_control x) <= fuel)%nat ->
  exists x' a mc evs ws,
    select_class_widget_body fuel x index = Done (x', a) /\
    control_index x' = index /\
    reposition_visible_widgets x' = Done (mc, evs) /\
    top_control x' <= index < mc /\
    control_widgets c index = Done ws /\
    Forall (fun w => Draw w ∈ evs) ws.
Proof.
  intros Hok Ht Hi Hc Hfit Hfuel.
  destruct (adjust_top_control_range fuel (set_control_index x index) c)
    as (t & Hr & Hadj & Hw); try done.
  simpl in Hr, Hw.
  set (x' := set_top_control (set_control_index x index) t).
  assert (Hcc : current_class x' = current_class x) by done.
  assert (Hlt : index < ncontrols (current_class x)).
  { apply lookup_lt_Some in Hc. unfold ncontrols. lia. }
  destruct (reposition_visible_widgets_spec x')
    as (mc & evs & Hrep & Hmc & Hin & Hout & _ & Hdraw).
  { by rewrite Hcc. }
  { rewrite Hcc. simpl. lia. }
  assert (Hcok : channels_ok c).
  { eapply Forall_forall in Hok; [done|]. by eapply list_elem_of_lookup_2. }
  destruct (control_widgets_Done c index Hcok) as (_ & ws & Hws & _ & Hslot).
  assert (Hmcgt : index < mc).
  { destruct (decide (index < mc)) as [|Hge]; [done|].
    assert (control_within_bounds x' mc = true) as Hwmc.
    { apply (control_within_bounds_prefix x' index); [done|].
      simpl in *. lia. }
    rewrite Hout in Hwmc; [done|]. rewrite Hcc. lia. }
  unfold select_class_widget_body. cbv zeta. rewrite Hadj. simpl.
  eexists x', _, mc, evs, ws.
  split; [reflexivity|]. split; [done|]. split; [done|].
  split; [simpl; lia|]. split; [done|].
  apply Forall_forall. intros w Hwin. apply Hdraw.
  pose proof Hslot as Hs. eapply Forall_forall in Hs; [|done].
  rewrite Hs, Hcc. split; [simpl; lia|]. by exists c, ws.
Qed.

Lemma focused_control_is_shown_witness :
  exists x' a mc evs,
    select_class_widget_body 1 (set_top_control tall_first_session 0) 1
    = Done (x', a) /\
    reposition_visible_widgets x' = Done (mc, evs) /\
    top_control x' <= 1 < mc /\ Draw (Enum_widget 1) ∈ evs.
Proof.
  destruct (focused_control_is_shown 1 (set_top_control tall_first_session 0) 1
              (fill_control 2 (enum_desc 7 (-1) "mute") "mute"))
    as (x' & a & mc & evs & ws & H1 & _ & H3 & H4 & H5 & H6).
  - channels_ok_all.
  - vm_compute. split; [discriminate | reflexivity].
  - vm_compute. split; [discriminate | reflexivity].
  - reflexivity.
  - vm_compute. reflexivity.
  - vm_compute. lia.
  - exists x', a, mc, evs. split; [exact H1|]. split; [exact H3|].
    split; [exact H4|].
    vm_compute in H5. injection H5 as <-.
    apply (proj1 (Forall_forall _ _) H6). in_list.
Defined.

End VisibleWindow.

(** * Entering a class and walking the channels *)

Section FocusEntry.

Implicit Types (x : aiomixer) (c : aiomixer_control) (a : activation).

Lemma set_top_control_same x : set_top_control x (top_control x) = x.
Proof. by destruct x. Qed.

(** The scroll adjustment changes the scroll offset only, and leaves it at
    or before the focused control. *)
Lemma adjust_top_control_Done fuel x x' :
  adjust_top_control fuel x = Done x' ->
  exists t, x' = set_top_control x t /\ t <= control_index x.
Proof.
  unfold adjust_top_control.
  destruct (top_control x >? control_index x) eqn:E1; simpl.
  - rewrite Z.ltb_irrefl. intros [= <-]. exists (control_index x).
    split; [done | lia].
  - destruct (top_control x <? control_index x) eqn:E2.
    + intros H. apply scroll_down_Done in H as [Hw [t ->]].
      exists t. split; [done|]. simpl in Hw.
      unfold control_within_bounds in Hw. simpl in Hw.
      destruct (control_index x <? t) eqn:E3; [done | lia].
    + intros [= <-]. exists (top_control x).
      split; [by rewrite set_top_control_same | lia].
Qed.

Lemma select_class_widget_body_Done fuel x index x' a c :
  controls (current_class x) !! Z.to_nat index = Some c ->
  select_class_widget_body fuel x index = Done (x', a) ->
  a = control_activation c index /\
  exists t, x' = set_top_control (set_control_index x index) t /\ t <= index.
Proof.
  intros Hc. unfold select_class_widget_body. cbv zeta. rewrite Hc. simpl.
  destruct (adjust_top_control fuel (set_control_index x index)) as [x1| |]
    eqn:E; [|done..].
  simpl. intros [= <- <-]. split; [done|].
  apply adjust_top_control_Done in E as (t & -> & Ht). by exists t.
Qed.

Lemma select_class_widget_inner fuel x index :
  0 <= index < ncontrols (current_class x) -> index < UINT_MOD ->
  select_class_widget fuel x index = select_class_widget_body fuel x index.
Proof.
  intros Hi Hu. unfold select_class_widget. cbv zeta.
  destruct (index <? 0) eqn:E0; [lia|].
  destruct (ncontrols (current_class x) <? 1) eqn:E1; [lia|]. simpl.
  assert (to_unsigned index = index) as ->
      by (unfold to_unsigned; apply Z.mod_small; lia).
  destruct (index >=? ncontrols (current_class x)) eqn:E2; [lia | done].
Qed.

(** [select_class_widget(x, 0)] in a class that has controls: no scroll
    loop is entered. *)
Lemma select_class_widget_zero fuel x c rest :
  0 <= top_control x ->
  controls (current_class x) = c :: rest ->
  select_class_widget fuel x 0
  = Done (set_top_control (set_control_index x 0) 0, control_activation c 0).
Proof.
  intros Ht Hcs.
  assert (Hn : 1 <= ncontrols (current_class x)).
  { unfold ncontrols. rewrite Hcs. simpl. lia. }
  rewrite select_class_widget_inner by (unfold UINT_MOD; lia).
  unfold select_class_widget_body. cbv zeta. rewrite Hcs. simpl.
  unfold adjust_top_control. simpl.
  destruct (top_control x >? 0) eqn:E1; simpl.
  - done.
  - destruct (top_control x <? 0) eqn:E2; [lia|].
    assert (top_control x = 0) as Hz by lia. simpl.
    do 2 f_equal. unfold set_top_control, set_control_index. simpl.
    by rewrite Hz.
Qed.

(** X14.  What [select_class_widget] leaves behind whenever it reaches a
    widget: the classes, the class index and the screen height are
    untouched; either the class selector is activated, in the session as it
    was (the index negative or the class empty), or the control in slot
    [index], slot 0 for an index past the end, is focused, the scroll
    offset is not past it, and the widget activated is the one of its
    type. *)
Theorem select_class_widget_frame fuel x index x' a :
  index < UINT_MOD ->
  select_class_widget fuel x index = Done (x', a) ->
  classes x' = classes x /\ class_index x' = class_index x /\
  maxy x' = maxy x /\
  ((a = Activate_class_buttons /\ x' = x /\
    (index < 0 \/ ncontrols (current_class x) = 0)) \/
   (0 <= index /\
    exists c,
      controls (current_class x) !! Z.to_nat (wrapped_index x index) = Some c /\
      control_index x' = wrapped_index x index /\
      top_control x' <= control_index x' /\
      a = control_activation c (wrapped_index x index))).
Proof.
  intros Hu. unfold select_class_widget. cbv zeta.
  destruct (index <? 0) eqn:E0; simpl.
  { intros [= <- <-]. do 3 (split; [done|]). left. split; [done|].
    split; [done | lia]. }
  destruct (ncontrols (current_class x) <? 1) eqn:E1; simpl.
  { intros [= <- <-]. do 3 (split; [done|]). left. split; [done|].
    split; [done|]. unfold ncontrols in *. lia. }
  assert (to_unsigned index = index) as ->
      by (unfold to_unsigned; apply Z.mod_small; lia).
  assert (exists c, controls (current_class x)
                      !! Z.to_nat (wrapped_index x index) = Some c)
    as [c Hc].
  { apply lookup_lt_is_Some. unfold wrapped_index, ncontrols in *.
    destruct (index <? Z.of_nat _) eqn:E; lia. }
  assert (select_class_widget_body fuel x (wrapped_index x index)
          = Done (x', a) ->
          classes x' = classes x /\ class_index x' = class_index x /\
          maxy x' = maxy x /\
          ((a = Activate_class_buttons /\ x' = x /\
            (index < 0 \/ ncontrols (current_class x) = 0)) \/
           (0 <= index /\
            exists c,
              controls (current_class x)
                !! Z.to_nat (wrapped_index x index) = Some c /\
              control_index x' = wrapped_index x index /\
              top_control x' <= control_index x' /\
              a = control_activation c (wrapped_index x index)))) as Hbody.
  { intros H.
    destruct (select_class_widget_body_Done _ _ _ _ _ _ Hc H)
      as (-> & t & -> & Ht).
    do 3 (split; [done|]). right. split; [lia|]. exists c.
    split; [done|]. split; [done|]. split; [done | done]. }
  unfold wrapped_index in Hbody, Hc.
  destruct (index >=? ncontrols (current_class x)) eqn:E2.
  - destruct (index <? ncontrols (current_class x)) eqn:E3; [lia|].
    unfold wrapped_index. rewrite E3. exact Hbody.
  - destruct (index <? ncontrols (current_class x)) eqn:E3; [|lia].
    unfold wrapped_index. rewrite E3. exact Hbody.
Qed.

Lemma select_class_widget_frame_witness :
  exists x',
    select_class_widget 0 one_enum_session 1 = Done (x', Activate_enum_widget 0) /\
    classes x' = classes one_enum_session /\ control_index x' = 0.
Proof.
  eexists. split; [reflexivity|].
  destruct (select_class_widget_frame 0 one_enum_session 1 _ _
              ltac:(reflexivity) eq_refl)
    as (H1 & _ & _ & [(H & _) | (_ & c & _ & H2 & _)]); [done|].
  split; [exact H1 | exact H2].
Defined.

(** X15.  Entering a class at its first control ends for every fuel, the
    scroll loop not being entered: in a class without controls the class
    selector is activated and the session is as it was; otherwise control 0
    is focused with the scroll offset at 0. *)
Theorem select_class_widget_first fuel x :
  0 <= top_control x ->
  select_class_widget fuel x 0
  = Done (match controls (current_class x) with
          | [] => (x, Activate_class_buttons)
          | c :: _ =>
              (set_top_control (set_control_index x 0) 0,
               control_activation c 0)
          end).
Proof.
  intros Ht. destruct (controls (current_class x)) as [|c rest] eqn:Hcs.
  - unfold select_class_widget. cbv zeta. unfold ncontrols. by rewrite Hcs.
  - by apply (select_class_widget_zero fuel x c rest).
Qed.

Lemma select_class_widget_first_witness :
  select_class_widget 0 tall_first_session 0
  = Done (set_top_control (set_control_index tall_first_session 0) 0,
          Activate_value_widget 0 0).
Proof.
  etrans; [apply (select_class_widget_first 0); vm_compute; discriminate|].
  reflexivity.
Defined.






(** Focusing channel [v] of the value control in slot [index]. *)
Lemma select_channel fuel x index c v :
  0 <= top_control x < UINT_MOD -> 0 <= index < UINT_MOD ->
  controls (current_class x) !! Z.to_nat index = Some c ->
  type c = AUDIO_MIXER_VALUE ->
  5 + control_height c < maxy x - 3 ->
  (Z.to_nat (index - top_control x) <= fuel)%nat ->
  exists x',
    select_class_widget fuel (update_control x index (set_current_chan v))
      index
    = Done (x', Activate_value_widget index v) /\
    control_index x' = index /\ class_index x' = class_index x /\
    controls (current_class x')
    = alter (set_current_chan v) (Z.to_nat index)
        (controls (current_class x)) /\
    control_within_bounds x' index = true.
Proof.
  intros Ht Hi Hc Hty Hfit Hfuel.
  set (x1 := update_control x index (set_current_chan v)).
  assert (Hcs : controls (current_class x1)
                = alter (set_current_chan v) (Z.to_nat index)
                    (controls (current_class x))).
  { unfold x1. by rewrite current_class_update_control. }
  assert (Hc1 : controls (current_class x1) !! Z.to_nat index
                = Some (set_current_chan v c)).
  { by rewrite Hcs, list_lookup_alter_eq, Hc. }
  assert (Hlt : 0 <= index < ncontrols (current_class x1)).
  { apply lookup_lt_Some in Hc1. unfold ncontrols. lia. }
  rewrite select_class_widget_inner by (done || lia).
  destruct (select_class_widget_body_settles fuel x1 index
              (set_current_chan v c))
    as (x' & a & Hb & Hci & Hcl & Hcls & _ & Hw); try done.
  destruct (select_class_widget_body_Done _ _ _ _ _ _ Hc1 Hb) as [Ha _].
  exists x'. rewrite Hb. split.
  { rewrite Ha. unfold control_activation. simpl. by rewrite Hty. }
  split; [done|]. split; [done|]. split; [|done].
  rewrite <- Hcs. unfold current_class. by rewrite Hcls, Hcl.
Qed.

(** X18.  A commit on a channel of a value control that is not its last
    one keeps the control focused and moves to the next channel: the slider
    of channel [current_chan + 1] is activated, that channel is recorded in
    the control and no other control is changed. *)
Theorem commit_next_channel fuel x index result c :
  0 <= top_control x < UINT_MOD -> 0 <= index < UINT_MOD ->
  controls (current_class x) !! Z.to_nat index = Some c ->
  type c = AUDIO_MIXER_VALUE ->
  current_chan c < num_channels c - 1 ->
  result <> -1 ->
  5 + control_height c < maxy x - 3 ->
  (Z.to_nat (index - top_control x) <= fuel)%nat ->
  exists x',
    select_class_widget_resume fuel x index result
    = Done (x', Activate_value_widget index (current_chan c + 1)) /\
    control_index x' = index /\ class_index x' = class_index x /\
    controls (current_class x')
    = alter (set_current_chan (current_chan c + 1)) (Z.to_nat index)
        (controls (current_class x)) /\
    control_within_bounds x' index = true.
Proof.
  intros Ht Hi Hc Hty Hch Hres Hfit Hfuel.
  unfold select_class_widget_resume. cbv zeta. rewrite Hc. simpl.
  rewrite Hty.
  destruct (result =? -1) eqn:E; [lia|].
  destruct (current_chan c <? num_channels c - 1) eqn:E1; [|lia].
  by apply (select_channel fuel x index c).
Qed.

Lemma commit_next_channel_witness :
  exists x',
    select_class_widget_resume 1 (set_control_index three_class_session 1) 1 0
    = Done (x', Activate_value_widget 1 1) /\
    current_chan (current_control x') = 1.
Proof.
  destruct (commit_next_channel 1 (set_control_index three_class_session 1)
              1 0 (fill_control 4 (value_desc 7 (-1) "master" 2 8) "master"))
    as (x' & H1 & H2 & _ & H4 & _).
  - vm_compute. split; [discriminate | reflexivity].
  - vm_compute. split; [discriminate | reflexivity].
  - reflexivity.
  - reflexivity.
  - reflexivity.
  - discriminate.
  - reflexivity.
  - vm_compute. lia.
  - exists x'. split; [exact H1|].
    unfold current_control. rewrite H2, H4. reflexivity.
Defined.

(** X19.  Down (or [j]) on a slider that is not the last channel of its
    control, and up (or [k]) on one that is not the first, stay on the
    control and activate the slider of the channel after, or before. *)
Theorem slider_moves_between_channels fd fuel x value k c v :
  0 <= top_control x < UINT_MOD -> 0 <= control_index x < 2 ^ 31 ->
  controls (current_class x) !! Z.to_nat (control_index x) = Some c ->
  type c = AUDIO_MIXER_VALUE ->
  ((k = Key_j \/ k = KEY_DOWN) /\ current_chan c < num_channels c - 1 /\
     v = current_chan c + 1) \/
  ((k = Key_k \/ k = KEY_UP) /\ 0 < current_chan c /\
     v = current_chan c - 1) ->
  5 + control_height c < maxy x - 3 ->
  (Z.to_nat (control_index x - top_control x) <= fuel)%nat ->
  exists x',
    key_callback_slider fd fuel x value k
    = Done (Refocus x' (Activate_value_widget (control_index x) v)) /\
    control_index x' = control_index x /\
    class_index x' = class_index x /\
    controls (current_class x')
    = alter (set_current_chan v) (Z.to_nat (control_index x))
        (controls (current_class x)) /\
    control_within_bounds x' (control_index x) = true.
Proof.
  intros Ht Hi Hc Hty Hk Hfit Hfuel.
  assert (Hint : to_int (control_index x) = control_index x).
  { unfold to_int, UINT_MOD. cbv zeta. rewrite Z.mod_small by lia.
    destruct (control_index x <? 2 ^ 31) eqn:E; lia. }
  assert (Hcur : current_control x = c).
  { unfold current_control. by rewrite Hc. }
  destruct (select_channel fuel x (control_index x) c v)
    as (x' & Hs & H1 & H2 & H3 & H4); try done.
  { unfold UINT_MOD. lia. }
  exists x'. split; [|done].
  destruct Hk as [([-> | ->] & Hch & ->) | ([-> | ->] & Hch & ->)];
    unfold key_callback_slider; cbv zeta; rewrite Hcur, Hint;
    [ destruct (current_chan c <? num_channels c - 1) eqn:E; [|lia]
    | destruct (current_chan c <? num_channels c - 1) eqn:E; [|lia]
    | destruct (current_chan c >? 0) eqn:E; [|lia]
    | destruct (current_chan c >? 0) eqn:E; [|lia] ];
    unfold refocus; by rewrite Hs.
Qed.

Lemma slider_moves_between_channels_witness :
  exists x',
    key_callback_slider dead_device 1
      (set_control_index three_class_session 1) 0 Key_j
    = Done (Refocus x' (Activate_value_widget 1 1)).
Proof.
  destruct (slider_moves_between_channels dead_device 1
              (set_control_index three_class_session 1) 0 Key_j
              (fill_control 4 (value_desc 7 (-1) "master" 2 8) "master") 1)
    as (x' & H1 & _).
  - vm_compute. split; [discriminate | reflexivity].
  - vm_compute. split; [discriminate | reflexivity].
  - reflexivity.
  - reflexivity.
  - left. split; [by left|]. split; reflexivity.
  - reflexivity.
  - vm_compute. lia.
  - exists x'. exact H1.
Defined.

End FocusEntry.

(** * Reading the device into the widgets, and the slider keys *)

Section DeviceReads.

Implicit Types (fd : device) (x : aiomixer) (c : aiomixer_control).

Lemma member_at_Done c i :
  0 <= i < 32 ->
  member_at c i = Done (default zero_member (member c !! Z.to_nat i)).
Proof.
  intros Hi. unfold member_at.
  destruct (i <? 0) eqn:E1; [lia|]. destruct (32 <=? i) eqn:E2; [lia | done].
Qed.

(** The search loop stops at the first member that carries the value. *)
Lemma select_member_first count i0 c v (n : nat) :
  0 <= i0 -> i0 + Z.of_nat count <= 32 -> (n < count)%nat ->
  member_ord c (i0 + Z.of_nat n) = v ->
  (forall j, i0 <= j < i0 + Z.of_nat n -> member_ord c j <> v) ->
  select_member count i0 c v
  = Done [Ev_setCDKButtonboxCurrentButton (i0 + Z.of_nat n)].
Proof.
  revert i0 n. induction count as [|count IH]; intros i0 n Hi Hle Hn Hv Hno;
    [lia|].
  simpl. rewrite member_at_Done by lia. simpl.
  destruct n as [|n].
  - replace (i0 + Z.of_nat 0) with i0 in * by lia.
    unfold member_ord in Hv. rewrite Hv, Z.eqb_refl. done.
  - destruct (ord _ =? v) eqn:E.
    + exfalso. apply (Hno i0); [lia|]. unfold member_ord. lia.
    + replace (i0 + Z.of_nat (S n)) with (i0 + 1 + Z.of_nat n) in * by lia.
      apply IH; [lia | lia | lia | done|].
      intros j Hj. apply Hno. lia.
Qed.

(** It selects nothing when no member carries the value. *)
Lemma select_member_none count i0 c v :
  0 <= i0 -> i0 + Z.of_nat count <= 32 ->
  (forall j, i0 <= j < i0 + Z.of_nat count -> member_ord c j <> v) ->
  select_member count i0 c v = Done [].
Proof.
  revert i0. induction count as [|count IH]; intros i0 Hi Hle Hno; [done|].
  simpl. rewrite member_at_Done by lia. simpl.
  destruct (ord _ =? v) eqn:E.
  - exfalso. apply (Hno i0); [lia|]. unfold member_ord. lia.
  - apply IH; [lia | lia|]. intros j Hj. apply Hno. lia.
Qed.

Lemma buttons_get_and_select_first_match_lemma ty fd c d i :
  num_mem c <= 32 -> 0 <= i < num_mem c ->
  mixer_read fd (buttons_request ty c) = Some d ->
  member_ord c i = mc_ord d ->
  (forall j, 0 <= j < i -> member_ord c j <> mc_ord d) ->
  buttons_get_and_select ty fd c
  = Done [Ev_ioctl AUDIO_MIXER_READ (buttons_request ty c);
          Ev_setCDKButtonboxCurrentButton i].
Proof.
  intros Hn Hi Hread Hv Hno. unfold buttons_get_and_select. cbv zeta.
  rewrite Hread.
  rewrite (select_member_first _ 0 c (mc_ord d) (Z.to_nat i));
    rewrite ?Z2Nat.id by lia; try done; lia.
Qed.

(** X20.  [enum_get_and_select] and [set_get_and_select], the read
    answered: the button made current is the first member, among the
    [num_mem] of the control, whose value is the one the device reports,
    and the read is the only device call. *)
Theorem buttons_get_and_select_first_match ty fd c d i :
  num_mem c <= 32 -> 0 <= i < num_mem c ->
  mixer_read fd (buttons_request ty c) = Some d ->
  member_ord c i = mc_ord d ->
  (forall j, 0 <= j < i -> member_ord c j <> mc_ord d) ->
  buttons_get_and_select ty fd c
  = Done [Ev_ioctl AUDIO_MIXER_READ (buttons_request ty c);
          Ev_setCDKButtonboxCurrentButton i].
Proof. apply buttons_get_and_select_first_match_lemma. Qed.

Lemma buttons_get_and_select_first_match_witness :
  enum_get_and_select
    {| mixer_read := fun d => Some {| mc_dev := mc_dev d; mc_type := mc_type d;
                                      mc_ord := 1; mc_num_channels := 0;
                                      mc_level := mc_level d |};
       mixer_write := fun _ => true |}
    (current_control three_class_session)
  = Done [Ev_ioctl AUDIO_MIXER_READ
            (buttons_request AUDIO_MIXER_ENUM
               (current_control three_class_session));
          Ev_setCDKButtonboxCurrentButton 1].
Proof.
  eapply (buttons_get_and_select_first_match AUDIO_MIXER_ENUM _
            (current_control three_class_session) _ 1).
  - vm_compute. discriminate.
  - vm_compute. split; [discriminate | reflexivity].
  - reflexivity.
  - reflexivity.
  - intros j Hj. assert (j = 0) as -> by lia. vm_compute. discriminate.
Defined.

(** X21.  [enum_get_and_select] and [set_get_and_select] leave the current
    button as it is when the read fails or when no member of the control
    carries the value the device reports; the read is the only device
    call. *)
Theorem buttons_get_and_select_keeps_button ty fd c :
  num_mem c <= 32 ->
  (forall d, mixer_read fd (buttons_request ty c) = Some d ->
             forall j, 0 <= j < num_mem c -> member_ord c j <> mc_ord d) ->
  exists tr,
    buttons_get_and_select ty fd c = Done tr /\
    ioctls tr = [Ev_ioctl AUDIO_MIXER_READ (buttons_request ty c)] /\
    (mixer_read fd (buttons_request ty c) = None ->
     warnings tr = [Ev_warning AUDIO_MIXER_READ (dev c)]) /\
    forall b, Ev_setCDKButtonboxCurrentButton b ∉ tr.
Proof.
  intros Hn Hno. unfold buttons_get_and_select. cbv zeta.
  destruct (mixer_read fd (buttons_request ty c)) as [d|] eqn:Hread.
  - rewrite (select_member_none _ 0 c (mc_ord d)); [|lia|lia|].
    + simpl. eexists. split; [done|]. split; [done|]. split; [done|].
      intros b Hb. apply list_elem_of_singleton in Hb. done.
    + intros j Hj. apply (Hno d eq_refl). lia.
  - eexists. split; [done|]. split; [done|]. split; [done|].
    intros b Hb. apply elem_of_cons in Hb as [Hb | Hb]; [done|].
    apply list_elem_of_singleton in Hb. done.
Qed.

Lemma buttons_get_and_select_keeps_button_witness :
  exists tr,
    set_get_and_select dead_device (current_control three_class_session)
    = Done tr /\
    forall b, Ev_setCDKButtonboxCurrentButton b ∉ tr.
Proof.
  destruct (buttons_get_and_select_keeps_button AUDIO_MIXER_SET dead_device
              (current_control three_class_session))
    as (tr & H1 & _ & _ & H4).
  - vm_compute. discriminate.
  - intros d Hd. discriminate Hd.
  - exists tr. split; [exact H1 | exact H4].
Defined.

(** The sliders after the loop of [levels_get_and_set]: the channels it
    walks show the levels read, cut to the slider's range, the others what
    they showed. *)
Lemma set_sliders_display count chan d :
  0 <= chan -> chan + Z.of_nat count <= 8 ->
  exists tr,
    set_sliders count chan d = Done tr /\
    ioctls tr = [] /\ warnings tr = [] /\
    forall sliders,
      (chan + Z.of_nat count <= Z.of_nat (length sliders)) ->
      length (display_after tr sliders) = length sliders /\
      forall j, 0 <= j ->
        display_after tr sliders !! Z.to_nat j
        = if (chan <=? j) && (j <? chan + Z.of_nat count)
          then Some (Z.max 0 (Z.min 255
                       (default 0 (mc_level d !! Z.to_nat j))))
          else sliders !! Z.to_nat j.
Proof.
  revert chan. induction count as [|count IH]; intros chan Hc Hle.
  - exists []. split; [done|]. split; [done|]. split; [done|].
    intros sliders _. split; [done|]. intros j Hj. simpl.
    change (Z.of_nat 0) with 0.
    destruct (chan <=? j) eqn:E1; [|done].
    destruct (j <? chan + 0) eqn:E2; [lia | done].
  - remember (Z.of_nat (S count)) as n1 eqn:Hn1.
    assert (Hn : n1 = 1 + Z.of_nat count) by lia. clear Hn1.
    simpl. destruct (8 <=? chan) eqn:E; [lia|].
    destruct (IH (chan + 1)) as (tr & -> & Hio & Hwa & Hd); [lia | lia|].
    simpl. eexists. split; [done|]. split; [done|]. split; [done|].
    intros sliders Hlen. unfold display_after. simpl.
    fold (display_after tr
            (<[Z.to_nat chan
               := Z.max 0 (Z.min 255 (default 0 (mc_level d !! Z.to_nat chan)))]>
               sliders)).
    destruct (Hd (<[Z.to_nat chan
                    := Z.max 0 (Z.min 255
                         (default 0 (mc_level d !! Z.to_nat chan)))]> sliders))
      as [Hl Hj]; [rewrite length_insert; lia|].
    rewrite length_insert in Hl. split; [done|].
    intros j H0. rewrite Hj by done.
    destruct (decide (j = chan)) as [->|Hne].
    + destruct (chan + 1 <=? chan) eqn:E1; [lia|]. simpl.
      destruct (chan <=? chan) eqn:E2; [|lia].
      destruct (chan <? chan + n1) eqn:E3; [|lia]. simpl.
      apply list_lookup_insert_eq. lia.
    + rewrite list_lookup_insert_ne by lia.
      destruct (chan + 1 <=? j) eqn:E1; destruct (chan <=? j) eqn:E2;
        destruct (j <? chan + 1 + Z.of_nat count) eqn:E3;
        destruct (j <? chan + n1) eqn:E4;
        simpl; try done; lia.
Qed.

(** X22.  [levels_get_and_set]: after an answered read the slider of every
    channel of the control shows the level the device reports for that
    channel, and the other sliders are as they were; after a failed read,
    which is reported, every slider is as it was.  The read is the only
    device call. *)
Theorem levels_get_and_set_display fd c sliders :
  0 <= num_channels c <= 8 -> length sliders = 8%nat ->
  (forall d, mixer_read fd (value_request c) = Some d ->
             length (mc_level d) = 8%nat /\
             Forall (fun l => 0 <= l <= 255) (mc_level d)) ->
  exists tr,
    levels_get_and_set fd c = Done tr /\
    ioctls tr = [Ev_ioctl AUDIO_MIXER_READ (value_request c)] /\
    match mixer_read fd (value_request c) with
    | None =>
        warnings tr = [Ev_warning AUDIO_MIXER_READ (dev c)] /\
        display_after tr sliders = sliders
    | Some d =>
        warnings tr = [] /\
        forall ch, 0 <= ch ->
          display_after tr sliders !! Z.to_nat ch
          = if ch <? num_channels c then mc_level d !! Z.to_nat ch
            else sliders !! Z.to_nat ch
    end.
Proof.
  intros Hn Hlen Hdev. unfold levels_get_and_set. cbv zeta.
  destruct (mixer_read fd (value_request c)) as [d|] eqn:Hread.
  - destruct (Hdev d eq_refl) as [Hl Hrange].
    destruct (set_sliders_display (Z.to_nat (num_channels c)) 0 d)
      as (tr & -> & Hio & Hwa & Hd); [lia | lia|].
    simpl. eexists. split; [done|].
    split; [unfold ioctls in *; simpl; by rewrite Hio|].
    split; [unfold warnings in *; simpl; by rewrite Hwa|].
    intros ch Hch. unfold display_after. simpl.
    destruct (Hd sliders) as [_ Hj]; [lia|].
    unfold display_after in Hj. rewrite Hj by done.
    rewrite Z2Nat.id by lia.
    destruct (0 <=? ch) eqn:E0; [|lia]. simpl.
    destruct (ch <? 0 + num_channels c) eqn:E1;
      destruct (ch <? num_channels c) eqn:E2; try lia; [|done].
    destruct (lookup_lt_is_Some_2 (mc_level d) (Z.to_nat ch)) as [l Hlk];
      [lia|].
    rewrite Hlk. simpl. f_equal.
    eapply Forall_forall in Hrange; [|by eapply list_elem_of_lookup_2].
    simpl in Hrange. lia.
  - eexists. split; [done|]. split; [done|]. split; done.
Qed.

Lemma levels_get_and_set_display_witness :
  exists tr,
    levels_get_and_set working_device (stereo false) = Done tr /\
    display_after tr [0; 0; 0; 0; 0; 0; 0; 0] = [70; 30; 0; 0; 0; 0; 0; 0].
Proof.
  destruct (levels_get_and_set_display working_device (stereo false)
              [0; 0; 0; 0; 0; 0; 0; 0])
    as (tr & H1 & _ & H3).
  - vm_compute. split; discriminate.
  - reflexivity.
  - intros d [= <-]. split; [reflexivity|].
    repeat (apply List.Forall_cons; [lia|]). apply List.Forall_nil.
  - exists tr. split; [exact H1|].
    vm_compute in H1. injection H1 as <-. reflexivity.
Defined.

(** The slider values that [set_level] sets are the level it is given. *)
Lemma set_level_all_values count i level d d' tr :
  set_level_all count i level d = Done (d', tr) ->
  forall ch v, Ev_setCDKSliderValue ch v ∈ tr -> v = level.
Proof.
  revert i d d' tr. induction count as [|count IH]; intros i d d' tr; simpl.
  - intros [= <- <-] ch v H. by apply elem_of_nil in H.
  - destruct (8 <=? i); [done|].
    destruct (set_level_all count (i + 1) level (store_level d i level))
      as [[d1 tr1]| |] eqn:E; [|done..].
    simpl. intros [= <- <-] ch v H.
    apply elem_of_cons in H as [[= _ ->] | H]; [done|].
    apply elem_of_cons in H as [H | H]; [done|].
    by apply (IH _ _ _ _ E ch v).
Qed.

Lemma set_level_write_values fd d ch v :
  Ev_setCDKSliderValue ch v ∉ set_level_write fd d.
Proof.
  unfold set_level_write. intros H.
  destruct (mixer_write fd d);
    repeat (apply elem_of_cons in H as [H | H]; [done|]);
    by apply elem_of_nil in H.
Qed.

Lemma set_level_values fd c level channel tr :
  set_level fd c level channel = Done tr ->
  forall ch v, Ev_setCDKSliderValue ch v ∈ tr -> v = level.
Proof.
  unfold set_level. cbv zeta. destruct (negb (chans_unlocked c)).
  - destruct (set_level_all _ 0 level (value_request c)) as [[d tr1]| |]
      eqn:E; [|done..].
    simpl. intros [= <-] ch v [H | H]%elem_of_app.
    + by apply (set_level_all_values _ _ _ _ _ _ E ch v).
    + by apply set_level_write_values in H.
  - destruct (mixer_read fd (value_request c)) as [d|].
    + destruct ((channel <? 0) || (8 <=? channel)); [done|].
      intros [= <-] ch v H.
      apply elem_of_cons in H as [H | H]; [done|].
      apply elem_of_cons in H as [[= _ ->] | H]; [done|].
      apply elem_of_cons in H as [H | H]; [done|].
      by apply set_level_write_values in H.
    + intros [= <-] ch v H.
      repeat (apply elem_of_cons in H as [H | H]; [done|]).
      by apply elem_of_nil in H.
Qed.

Lemma set_level_returns fd c level channel :
  0 <= num_channels c <= 8 -> 0 <= channel < 8 ->
  exists tr, set_level fd c level channel = Done tr.
Proof.
  intros Hn Hch. unfold set_level. cbv zeta.
  destruct (negb (chans_unlocked c)).
  - destruct (set_level_all_spec (Z.to_nat (num_channels c)) 0 level
                (value_request c)) as (d & tr & -> & _); [lia | lia | done|].
    simpl. eauto.
  - destruct (mixer_read fd (value_request c)); [|eauto].
    destruct (channel <? 0) eqn:E1; [lia|].
    destruct (8 <=? channel) eqn:E2; [lia|]. simpl. eauto.
Qed.

Lemma to_int_small z : - 2 ^ 31 <= z < 2 ^ 31 -> to_int z = z.
Proof.
  intros Hz. unfold to_int, UINT_MOD. cbv zeta.
  destruct (decide (0 <= z)) as [Hpos | Hneg].
  - rewrite Z.mod_small by lia. destruct (z <? 2 ^ 31) eqn:E; lia.
  - replace (z mod 2 ^ 32) with (z + 2 ^ 32).
    + destruct (z + 2 ^ 32 <? 2 ^ 31) eqn:E; lia.
    + rewrite <- (Z.mod_small (z + 2 ^ 32) (2 ^ 32)) by lia.
      rewrite <- (Z_mod_plus_full z 1 (2 ^ 32)). f_equal; lia.
Qed.

(** X23.  Left and right on a slider whose value is in 0..255, the step of
    the control being between 0 and [2^31 - 256] so that the [int] sum does
    not wrap: [set_level] is called, for the focused channel, with the
    value one step down, not below 0, or one step up, not above 255; it
    returns, every slider value it sets is that level, and the session is
    left as it was. *)
Theorem slider_step_in_range fd fuel x value k :
  0 <= value <= 255 -> 0 <= delta (current_control x) <= 2 ^ 31 - 256 ->
  0 <= num_channels (current_control x) <= 8 ->
  0 <= current_chan (current_control x) < 8 ->
  k ∈ [Key_h; KEY_LEFT; Key_l; KEY_RIGHT] ->
  exists level tr,
    level = (if bool_decide (k = Key_h \/ k = KEY_LEFT)
             then stepped_down value (delta (current_control x))
             else stepped_up value (delta (current_control x))) /\
    0 <= level <= 255 /\
    set_level fd (current_control x) level
      (current_chan (current_control x)) = Done tr /\
    key_callback_slider fd fuel x value k = Done (Returns x false tr) /\
    forall ch v, Ev_setCDKSliderValue ch v ∈ tr -> v = level.
Proof.
  intros Hv Hd Hn Hch Hk.
  set (c := current_control x) in *.
  assert (Hdown : (if to_int (value - delta c) <? 0 then 0
                   else to_int (value - delta c))
                  = stepped_down value (delta c)).
  { rewrite to_int_small by lia.
    unfold stepped_down. destruct (value - delta c <? 0) eqn:E; lia. }
  assert (Hup : (if to_int (value + delta c) >? 255 then 255
                 else to_int (value + delta c))
                = stepped_up value (delta c)).
  { rewrite to_int_small by lia.
    unfold stepped_up. destruct (value + delta c >? 255) eqn:E; lia. }
  assert (Hgo : forall level,
             0 <= level <= 255 ->
             exists tr,
               set_level fd c level (current_chan c) = Done tr /\
               (tr0 ← set_level fd c level (current_chan c);
                Done (Returns x false tr0)) = Done (Returns x false tr) /\
               forall ch v, Ev_setCDKSliderValue ch v ∈ tr -> v = level).
  { intros level Hl.
    destruct (set_level_returns fd c level (current_chan c) Hn Hch)
      as [tr Htr].
    exists tr. split; [done|]. split; [by rewrite Htr|].
    by apply (set_level_values fd c level (current_chan c)). }
  assert (Hrd : 0 <= stepped_down value (delta c) <= 255)
    by (unfold stepped_down; lia).
  assert (Hru : 0 <= stepped_up value (delta c) <= 255)
    by (unfold stepped_up; lia).
  repeat (apply elem_of_cons in Hk as [-> | Hk]);
    [ | | | | by apply elem_of_nil in Hk ].
  - destruct (Hgo _ Hrd) as (tr & H1 & H2 & H3).
    exists (stepped_down value (delta c)), tr.
    rewrite bool_decide_eq_true_2 by (by left).
    split; [done|]. split; [done|]. split; [done|]. split; [|done].
    unfold key_callback_slider. cbv zeta. fold c. by rewrite Hdown.
  - destruct (Hgo _ Hrd) as (tr & H1 & H2 & H3).
    exists (stepped_down value (delta c)), tr.
    rewrite bool_decide_eq_true_2 by (by right).
    split; [done|]. split; [done|]. split; [done|]. split; [|done].
    unfold key_callback_slider. cbv zeta. fold c. by rewrite Hdown.
  - destruct (Hgo _ Hru) as (tr & H1 & H2 & H3).
    exists (stepped_up value (delta c)), tr.
    rewrite bool_decide_eq_false_2 by (by intros [? | ?]).
    split; [done|]. split; [done|]. split; [done|]. split; [|done].
    unfold key_callback_slider. cbv zeta. fold c. by rewrite Hup.
  - destruct (Hgo _ Hru) as (tr & H1 & H2 & H3).
    exists (stepped_up value (delta c)), tr.
    rewrite bool_decide_eq_false_2 by (by intros [? | ?]).
    split; [done|]. split; [done|]. split; [done|]. split; [|done].
    unfold key_callback_slider. cbv zeta. fold c. by rewrite Hup.
Qed.

Lemma slider_step_in_range_witness :
  exists tr,
    key_callback_slider working_device 0
      (set_control_index three_class_session 1) 250 Key_l
    = Done (Returns (set_control_index three_class_session 1) false tr) /\
    Ev_setCDKSliderValue 0 255 ∈ tr.
Proof.
  destruct (slider_step_in_range working_device 0
              (set_control_index three_class_session 1) 250 Key_l)
    as (level & tr & H1 & _ & _ & H4 & _).
  - lia.
  - vm_compute. split; discriminate.
  - vm_compute. split; discriminate.
  - vm_compute. split; [discriminate | reflexivity].
  - in_list.
  - exists tr. split; [exact H4|].
    vm_compute in H4. injection H4 as <-. in_list.
Defined.

Lemma alter_at (A : Type) (f : A -> A) (l : list A) (i : nat) (a : A) :
  l !! i = Some a -> f a = a -> alter f i l = l.
Proof.
  revert i. induction l as [|b l IH]; intros [|i] H Hf; simpl in *; try done.
  - injection H as ->. by rewrite Hf.
  - f_equal. by apply IH.
Qed.

Lemma alter_twice (A : Type) (f g : A -> A) (l : list A) (i : nat) :
  alter g i (alter f i l) = alter (fun a => g (f a)) i l.
Proof.
  revert i. induction l as [|b l IH]; intros [|i]; simpl; try done.
  f_equal. apply IH.
Qed.

(** X24.  The key [u] on a slider flips [chans_unlocked] of the focused
    control and nothing else, with no device call and no widget call;
    pressed again it restores the session. *)
Theorem slider_lock_toggle fd fuel x value value' cl c :
  classes x !! Z.to_nat (class_index x) = Some cl ->
  controls cl !! Z.to_nat (control_index x) = Some c ->
  exists x1,
    key_callback_slider fd fuel x value Key_u = Done (Returns x1 false []) /\
    current_control x1 = set_chans_unlocked (negb (chans_unlocked c)) c /\
    class_index x1 = class_index x /\ control_index x1 = control_index x /\
    top_control x1 = top_control x /\
    (forall j, j <> Z.to_nat (control_index x) ->
               controls (current_class x1) !! j
               = controls (current_class x) !! j) /\
    key_callback_slider fd fuel x1 value' Key_u = Done (Returns x false []).
Proof.
  intros Hcl Hc.
  assert (Hcc : current_class x = cl) by (unfold current_class; by rewrite Hcl).
  assert (Hcur : current_control x = c)
    by (unfold current_control; by rewrite Hcc, Hc).
  set (f := set_chans_unlocked (negb (chans_unlocked c))).
  set (x1 := update_control x (control_index x) f).
  assert (Hcs1 : controls (current_class x1)
                 = alter f (Z.to_nat (control_index x)) (controls cl)).
  { unfold x1. by rewrite current_class_update_control, Hcc. }
  assert (Hcur1 : current_control x1 = f c).
  { unfold current_control. rewrite Hcs1. simpl.
    by rewrite list_lookup_alter_eq, Hc. }
  exists x1. split; [by unfold key_callback_slider; rewrite Hcur|].
  split; [done|]. split; [done|]. split; [done|]. split; [done|].
  split.
  { intros j Hj. rewrite Hcs1, Hcc. by apply list_lookup_alter_ne. }
  unfold key_callback_slider. rewrite Hcur1. do 2 f_equal.
  unfold x1, update_control. simpl. rewrite alter_twice.
  destruct x as [cls ci coi top my]. unfold set_classes. simpl in *.
  f_equal. apply (alter_at _ _ _ _ cl Hcl).
  destruct cl as [nm i cs]. unfold set_controls. simpl in *. f_equal.
  rewrite alter_twice. apply (alter_at _ _ _ _ c Hc).
  unfold f. destruct c. unfold set_chans_unlocked. simpl.
  by rewrite negb_involutive.
Qed.

Lemma slider_lock_toggle_witness :
  exists x1,
    key_callback_slider dead_device 0
      (set_control_index three_class_session 1) 0 Key_u
    = Done (Returns x1 false []) /\
    chans_unlocked (current_control x1) = true /\
    key_callback_slider dead_device 0 x1 0 Key_u
    = Done (Returns (set_control_index three_class_session 1) false []).
Proof.
  destruct (slider_lock_toggle dead_device 0
              (set_control_index three_class_session 1) 0 0
              (current_class three_class_session)
              (fill_control 4 (value_desc 7 (-1) "master" 2 8) "master"))
    as (x1 & H1 & H2 & _ & _ & _ & _ & H7).
  - reflexivity.
  - reflexivity.
  - exists x1. split; [exact H1|]. split; [by rewrite H2 | exact H7].
Defined.

End DeviceReads.

(** * Keys of the class selector and of the button boxes *)

Section Navigation.

Implicit Types (fd : device) (x : aiomixer) (c : aiomixer_control).

(** Left and right at the class selector, in a catalog that has
    classes: the callback ends for every fuel and returns false; the class
    index it leaves is a valid one, the class after the current button for
    right (the first after the last) and the class before it for left from
    a button other than the first; the widgets of the old class are
    destroyed before those of the new class are created; the letter keys
    also make the new class the current button; the control index and the
    scroll offset are not reset. *)
Lemma class_buttons_horizontal fuel x current k :
  k ∈ [Key_h; KEY_LEFT; Key_l; KEY_RIGHT] ->
  1 <= nclasses x <= MAX_CLASSES ->
  exists ci,
    key_callback_class_buttons fuel x current k
    = Done (Returns (set_class_index x ci) false
              ([Ev_destroy_class_widgets; Ev_create_class_widgets ci]
                 ++ if bool_decide (k = KEY_LEFT \/ k = KEY_RIGHT) then []
                    else [Ev_setCDKButtonboxCurrentButton_class ci])) /\
    0 <= ci < nclasses x /\
    (k = Key_l \/ k = KEY_RIGHT -> 0 <= current < nclasses x ->
     ci = (current + 1) mod nclasses x) /\
    (k = Key_h \/ k = KEY_LEFT -> 1 <= current < nclasses x ->
     ci = current - 1).
Proof.
  intros Hk Hn. unfold MAX_CLASSES in Hn.
  assert (Hmove : forall target arrow,
             exists ci,
               class_buttons_move x target arrow
               = Done (Returns (set_class_index x ci) false
                         ([Ev_destroy_class_widgets; Ev_create_class_widgets ci]
                            ++ if arrow then []
                               else [Ev_setCDKButtonboxCurrentButton_class ci]))
               /\ 0 <= ci < nclasses x /\
               ci = to_unsigned target mod nclasses x).
  { intros target arrow. unfold class_buttons_move.
    destruct (nclasses x =? 0) eqn:E; [lia|].
    assert (Hm : 0 <= to_unsigned target mod nclasses x < nclasses x)
      by (apply Z.mod_pos_bound; lia).
    exists (to_unsigned target mod nclasses x).
    split; [|done]. do 4 f_equal.
    unfold to_int, UINT_MOD. cbv zeta.
    rewrite (Z.mod_small (_ mod nclasses x)) by lia.
    destruct (_ <? 2 ^ 31) eqn:E1; [done | lia]. }
  assert (Hright : 0 <= current < nclasses x ->
                   to_unsigned (current + 1) mod nclasses x
                   = (current + 1) mod nclasses x).
  { intros Hc. unfold to_unsigned, UINT_MOD.
    by rewrite (Z.mod_small (current + 1)) by lia. }
  assert (Hleft : 1 <= current < nclasses x ->
                  to_unsigned (current - 1) mod nclasses x = current - 1).
  { intros Hc. unfold to_unsigned, UINT_MOD.
    rewrite (Z.mod_small (current - 1)) by lia. apply Z.mod_small. lia. }
  repeat (apply elem_of_cons in Hk as [-> | Hk]);
    [ | | | | by apply elem_of_nil in Hk ]; simpl.
  - destruct (Hmove (current - 1) false) as (ci & -> & Hci & Heq).
    exists ci. split; [done|]. split; [done|].
    split; [by intros [? | ?] | intros _ Hc; by rewrite Heq, Hleft].
  - destruct (Hmove (current - 1) true) as (ci & -> & Hci & Heq).
    exists ci. split; [done|]. split; [done|].
    split; [by intros [? | ?] | intros _ Hc; by rewrite Heq, Hleft].
  - destruct (Hmove (current + 1) false) as (ci & -> & Hci & Heq).
    exists ci. split; [done|]. split; [done|].
    split; [intros _ Hc; by rewrite Heq, Hright | by intros [? | ?]].
  - destruct (Hmove (current + 1) true) as (ci & -> & Hci & Heq).
    exists ci. split; [done|]. split; [done|].
    split; [intros _ Hc; by rewrite Heq, Hright | by intros [? | ?]].
Qed.

Lemma class_buttons_horizontal_witness :
  key_callback_class_buttons 0 three_class_session 2 Key_l
  = Done (Returns (set_class_index three_class_session 0) false
            [Ev_destroy_class_widgets; Ev_create_class_widgets 0;
             Ev_setCDKButtonboxCurrentButton_class 0]).
Proof.
  destruct (class_buttons_horizontal 0 three_class_session 2 Key_l)
    as (ci & H1 & _ & H3 & _).
  - in_list.
  - vm_compute. split; discriminate.
  - rewrite H1.
    rewrite (H3 (or_introl eq_refl)); [reflexivity|].
    vm_compute. split; [discriminate | reflexivity].
Defined.

(** Focusing a control that fits on the screen: the widget activated is
    the one of its type. *)
Lemma select_class_widget_focus fuel x index c :
  0 <= top_control x < UINT_MOD -> 0 <= index < UINT_MOD ->
  controls (current_class x) !! Z.to_nat (wrapped_index x index) = Some c ->
  5 + control_height c < maxy x - 3 ->
  (Z.to_nat MAX_CONTROLS <= fuel)%nat ->
  ncontrols (current_class x) <= MAX_CONTROLS ->
  exists x',
    select_class_widget fuel x index
    = Done (x', control_activation c (wrapped_index x index)) /\
    control_index x' = wrapped_index x index /\
    class_index x' = class_index x /\ classes x' = classes x /\
    control_within_bounds x' (wrapped_index x index) = true.
Proof.
  intros Ht Hi Hc Hfit Hfuel Hcap.
  destruct (select_class_widget_settles fuel x index c)
    as (x' & a & Hs & H1 & H2 & H3 & _ & H5); try done.
  exists x'. split; [|done]. rewrite Hs. do 2 f_equal.
  assert (Hn : 1 <= ncontrols (current_class x)).
  { apply lookup_lt_Some in Hc. unfold ncontrols. lia. }
  unfold select_class_widget in Hs. cbv zeta in Hs.
  destruct (index <? 0) eqn:E0; [lia|].
  destruct (ncontrols (current_class x) <? 1) eqn:E1; [lia|].
  simpl in Hs.
  assert (to_unsigned index = index) as Hu
      by (unfold to_unsigned; apply Z.mod_small; lia).
  rewrite Hu in Hs. unfold wrapped_index in *.
  destruct (index >=? ncontrols (current_class x)) eqn:E2;
    destruct (index <? ncontrols (current_class x)) eqn:E3; try lia;
    by destruct (select_class_widget_body_Done _ _ _ _ _ _ Hc Hs).
Qed.

(** X25.  Down and up on an enum or set control: focus goes to the control
    after it, to control 0 from the last one, or to the control before it
    from a control other than the first, when that control fits on the
    screen; the widget of its type is activated and the control is within
    bounds. *)
Theorem control_buttons_vertical fd fuel x current count k target ct :
  0 <= top_control x < UINT_MOD ->
  ncontrols (current_class x) <= MAX_CONTROLS ->
  0 <= control_index x < ncontrols (current_class x) ->
  ((k = Key_j \/ k = KEY_DOWN) /\ target = control_index x + 1) \/
  ((k = Key_k \/ k = KEY_UP) /\ target = control_index x - 1 /\
     1 <= control_index x) ->
  controls (current_class x) !! Z.to_nat (wrapped_index x target) = Some ct ->
  5 + control_height ct < maxy x - 3 ->
  (Z.to_nat MAX_CONTROLS <= fuel)%nat ->
  exists x',
    key_callback_control_buttons fd fuel x current count k
    = Done (Refocus x' (control_activation ct (wrapped_index x target))) /\
    control_index x' = wrapped_index x target /\
    class_index x' = class_index x /\ classes x' = classes x /\
    control_within_bounds x' (wrapped_index x target) = true.
Proof.
  intros Ht Hcap Hci Hk Hc Hfit Hfuel. unfold MAX_CONTROLS in Hcap.
  assert (Hconv : forall t, 0 <= t <= 64 -> to_int (to_unsigned t) = t).
  { intros t Ht0. unfold to_int, to_unsigned, UINT_MOD. cbv zeta.
    rewrite Z.mod_mod by lia. rewrite Z.mod_small by lia.
    destruct (t <? 2 ^ 31) eqn:E; [done | lia]. }
  assert (Htarget : 0 <= target <= 64) by (destruct Hk as [[_ ->] | (_ & -> & ?)]; lia).
  destruct (select_class_widget_focus fuel x target ct)
    as (x' & Hs & H1 & H2 & H3 & H4); try done.
  { unfold UINT_MOD. lia. }
  exists x'. split; [|done].
  destruct Hk as [([-> | ->] & Heq) | ([-> | ->] & Heq & _)];
    unfold key_callback_control_buttons; cbv zeta;
    rewrite <- Heq, Hconv by done; unfold refocus; by rewrite Hs.
Qed.

Lemma control_buttons_vertical_witness :
  exists x',
    key_callback_control_buttons dead_device 64 three_class_session 0 2 Key_j
    = Done (Refocus x' (Activate_value_widget 1 0)) /\
    control_index x' = 1.
Proof.
  destruct (control_buttons_vertical dead_device 64 three_class_session 0 2
              Key_j 1
              (fill_control 4 (value_desc 7 (-1) "master" 2 8) "master"))
    as (x' & H1 & H2 & _).
  - vm_compute. split; [discriminate | reflexivity].
  - vm_compute. discriminate.
  - vm_compute. split; [discriminate | reflexivity].
  - left. split; [by left | reflexivity].
  - reflexivity.
  - reflexivity.
  - vm_compute. lia.
  - exists x'. split; [exact H1 | exact H2].
Defined.

(** Left and right on an enum or set control, for a new index inside the
    member array. *)
Lemma control_buttons_step fd fuel x current count k target :
  type (current_control x) = AUDIO_MIXER_ENUM \/
    type (current_control x) = AUDIO_MIXER_SET ->
  0 <= current < count -> count <= 32 ->
  ((k = Key_l \/ k = KEY_RIGHT) /\ target = (current + 1) mod count) \/
  ((k = Key_h \/ k = KEY_LEFT) /\ 1 <= current /\ target = current - 1) ->
  0 <= target < count /\
  key_callback_control_buttons fd fuel x current count k
  = Done (Returns x false
            (set_enum_or_set fd (type (current_control x))
               (dev (current_control x))
               (member_ord (current_control x) target)
               ++ if bool_decide (k = KEY_LEFT \/ k = KEY_RIGHT) then []
                  else [Ev_setCDKButtonboxCurrentButton target])).
Proof.
  intros Hty Hc Hn Hk.
  assert (Hr : Z.rem (current + 1) count = (current + 1) mod count)
    by (apply Z.rem_mod_nonneg; lia).
  assert (Hl : 1 <= current -> Z.rem (current - 1) count = current - 1)
    by (intros ?; apply Z.rem_small; lia).
  assert (Hb : 0 <= (current + 1) mod count < count)
    by (apply Z.mod_pos_bound; lia).
  assert (Hrange : 0 <= target < count)
    by (destruct Hk as [[_ ->] | (_ & ? & ->)]; lia).
  split; [done|].
  assert (Hcommit : forall arrow,
             control_buttons_commit fd x (current_control x) target arrow
             = Done (Returns x false
                       (set_enum_or_set fd (type (current_control x))
                          (dev (current_control x))
                          (member_ord (current_control x) target)
                          ++ if arrow then []
                             else [Ev_setCDKButtonboxCurrentButton target]))).
  { intros arrow. unfold control_buttons_commit.
    rewrite member_at_Done by lia.
    by destruct Hty as [-> | ->]. }
  destruct Hk as [([-> | ->] & ->) | ([-> | ->] & H1 & ->)]; simpl;
    (destruct (count =? 0) eqn:E; [lia|]);
    rewrite ?Hr, ?Hl by done; by rewrite Hcommit.
Qed.

(** X26.  Right on an enum or set control, and left from a member other
    than the first: the session is left as it was, and the one device call
    is a write for the control that carries the value of the member after
    the highlighted one (the first after the last), or before it; a failed
    write is reported; the letter keys make that member the current
    button, the arrow keys call no widget. *)
Theorem member_step_writes fd fuel x current count k target :
  type (current_control x) = AUDIO_MIXER_ENUM \/
    type (current_control x) = AUDIO_MIXER_SET ->
  0 <= current < count -> count <= 32 ->
  ((k = Key_l \/ k = KEY_RIGHT) /\ target = (current + 1) mod count) \/
  ((k = Key_h \/ k = KEY_LEFT) /\ 1 <= current /\ target = current - 1) ->
  exists tr w,
    key_callback_control_buttons fd fuel x current count k
    = Done (Returns x false tr) /\
    ioctls tr = [Ev_ioctl AUDIO_MIXER_WRITE w] /\
    mc_dev w = dev (current_control x) /\
    mc_type w = type (current_control x) /\
    mc_ord w = member_ord (current_control x) target /\
    warnings tr = (if mixer_write fd w then []
                   else [Ev_warning AUDIO_MIXER_WRITE (dev (current_control x))])
    /\
    List.filter (fun e => negb (is_ioctl e || is_warning e)) tr
    = if bool_decide (k = KEY_LEFT \/ k = KEY_RIGHT) then []
      else [Ev_setCDKButtonboxCurrentButton target].
Proof.
  intros Hty Hc Hn Hk.
  destruct (control_buttons_step fd fuel x current count k target)
    as [_ ->]; try done.
  set (w := {| mc_dev := dev (current_control x);
               mc_type := type (current_control x);
               mc_ord := member_ord (current_control x) target;
               mc_num_channels := 0; mc_level := replicate 8 0 |}).
  eexists _, w. split; [reflexivity|].
  unfold set_enum_or_set, set_level_write, ioctls, warnings. fold w.
  destruct (mixer_write fd w); simpl;
    destruct (bool_decide (k = KEY_LEFT \/ k = KEY_RIGHT)); simpl;
    repeat split; reflexivity.
Qed.

Lemma member_step_writes_witness :
  exists tr w,
    key_callback_control_buttons working_device 0 three_class_session 1 2 Key_h
    = Done (Returns three_class_session false tr) /\
    ioctls tr = [Ev_ioctl AUDIO_MIXER_WRITE w] /\
    mc_ord w = member_ord (current_control three_class_session) 0.
Proof.
  destruct (member_step_writes working_device 0 three_class_session 1 2
              Key_h 0)
    as (tr & w & H1 & H2 & _ & _ & H5 & _).
  - by left.
  - lia.
  - lia.
  - right. split; [by left|]. split; [lia | reflexivity].
  - exists tr, w. split; [exact H1|]. split; [exact H2 | exact H5].
Defined.

(** X27.  A commit read back: after right on an enum or set control whose
    members carry different values, a device that reports the value just
    written makes [enum_get_and_select] (or [set_get_and_select]) select
    the member that was written, the one after the member highlighted
    before. *)
Theorem committed_member_is_selected fd fuel x current k tr w d :
  type (current_control x) = AUDIO_MIXER_ENUM \/
    type (current_control x) = AUDIO_MIXER_SET ->
  0 <= current < num_mem (current_control x) ->
  num_mem (current_control x) <= 32 ->
  k = Key_l \/ k = KEY_RIGHT ->
  (forall i j, 0 <= i < num_mem (current_control x) ->
               0 <= j < num_mem (current_control x) ->
               member_ord (current_control x) i
               = member_ord (current_control x) j -> i = j) ->
  key_callback_control_buttons fd fuel x current
    (num_mem (current_control x)) k = Done (Returns x false tr) ->
  Ev_ioctl AUDIO_MIXER_WRITE w ∈ tr ->
  mixer_read fd (buttons_request (type (current_control x)) (current_control x))
  = Some d ->
  mc_ord d = mc_ord w ->
  buttons_get_and_select (type (current_control x)) fd (current_control x)
  = Done [Ev_ioctl AUDIO_MIXER_READ
            (buttons_request (type (current_control x)) (current_control x));
          Ev_setCDKButtonboxCurrentButton
            ((current + 1) mod num_mem (current_control x))].
Proof.
  intros Hty Hc Hn Hk Hinj Hkey Hw Hread Hord.
  set (c := current_control x) in *.
  destruct (control_buttons_step fd fuel x current (num_mem c) k
              ((current + 1) mod num_mem c))
    as [Hrange Hstep]; try done.
  { by left. }
  fold c in Hstep. rewrite Hstep in Hkey. injection Hkey as <-.
  assert (Hval : mc_ord w = member_ord c ((current + 1) mod num_mem c)).
  { apply elem_of_app in Hw as [Hw | Hw].
    - unfold set_enum_or_set, set_level_write in Hw.
      destruct (mixer_write fd _).
      + apply list_elem_of_singleton in Hw. by injection Hw as ->.
      + apply elem_of_cons in Hw as [Hw | Hw]; [by injection Hw as ->|].
        apply list_elem_of_singleton in Hw. done.
    - destruct (bool_decide _); [by apply elem_of_nil in Hw|].
      apply list_elem_of_singleton in Hw. done. }
  apply buttons_get_and_select_first_match_lemma with (d := d);
    [done | done | done | by rewrite Hord, Hval |].
  intros j Hj Heq. rewrite Hord, Hval in Heq.
  apply Hinj in Heq; lia.
Qed.

Lemma committed_member_is_selected_witness :
  buttons_get_and_select AUDIO_MIXER_ENUM
    {| mixer_read := fun d => Some {| mc_dev := mc_dev d; mc_type := mc_type d;
                                      mc_ord := 1; mc_num_channels := 0;
                                      mc_level := mc_level d |};
       mixer_write := fun _ => true |}
    (current_control three_class_session)
  = Done [Ev_ioctl AUDIO_MIXER_READ
            (buttons_request AUDIO_MIXER_ENUM
               (current_control three_class_session));
          Ev_setCDKButtonboxCurrentButton 1].
Proof.
  eapply (committed_member_is_selected _ 0 three_class_session 0 Key_l).
  - by left.
  - vm_compute. split; [discriminate | reflexivity].
  - vm_compute. discriminate.
  - by left.
  - intros i j Hi Hj.
    change (num_mem (current_control three_class_session)) with 2 in Hi, Hj.
    assert (i = 0 \/ i = 1) as [-> | ->] by lia;
      assert (j = 0 \/ j = 1) as [-> | ->] by lia;
      vm_compute; intros H; (reflexivity || discriminate H).
  - reflexivity.
  - vm_compute. in_list.
  - reflexivity.
  - reflexivity.
Defined.

End Navigation.

(** * Class lookup *)

Section ClassLookup.

Lemma get_class_from_first cls i class_id :
  match get_class_from cls i class_id with
  | Some (k, cl) =>
      (i <= k)%nat /\ cls !! (k - i)%nat = Some cl /\ id cl = class_id /\
      forall j cl', (j < k - i)%nat -> cls !! j = Some cl' ->
                    id cl' <> class_id
  | None => forall cl, cl ∈ cls -> id cl <> class_id
  end.
Proof.
  revert i. induction cls as [|c0 cls IH]; intros i; simpl.
  - intros cl H. by apply elem_of_nil in H.
  - destruct (id c0 =? class_id) eqn:E.
    + replace (i - i)%nat with 0%nat by lia.
      split; [lia|]. split; [done|]. split; [lia|]. intros j cl' Hj. lia.
    + specialize (IH (S i)).
      destruct (get_class_from cls (S i) class_id) as [[k cl]|].
      * destruct IH as (Hle & Hk & Hid & Hbefore).
        split; [lia|]. replace (k - i)%nat with (S (k - S i)) by lia.
        split; [done|]. split; [done|].
        intros [|j] cl' Hj; simpl.
        -- intros [= <-]. lia.
        -- apply Hbefore. lia.
      * intros cl [-> | Hcl]%elem_of_cons; [lia | by apply IH].
Qed.

(** X8.  [aiomixer_get_class] returns the first class of the catalog
    that has the id asked for, so that of two classes with one id the later
    one is never found, and nothing when no class has the id. *)
Theorem aiomixer_get_class_first x class_id :
  match aiomixer_get_class x class_id with
  | Some (k, cl) =>
      classes x !! k = Some cl /\ id cl = class_id /\
      forall j cl', (j < k)%nat -> classes x !! j = Some cl' ->
                    id cl' <> class_id
  | None => forall cl, cl ∈ classes x -> id cl <> class_id
  end.
Proof.
  unfold aiomixer_get_class.
  pose proof (get_class_from_first (classes x) 0 class_id) as H.
  destruct (get_class_from (classes x) 0 class_id) as [[k cl]|]; [|done].
  destruct H as (_ & Hk & Hid & Hbefore).
  rewrite Nat.sub_0_r in Hk, Hbefore. done.
Qed.

End ClassLookup.

(** * The widgets of a class *)

Section ClassWidgets.

Implicit Types (tk : toolkit) (fd : device) (x : aiomixer).
Implicit Types (c : aiomixer_control) (ws : list widget).

Lemma widget_rows_nil y : widget_rows [] y = [].
Proof. done. Qed.

Lemma widget_rows_cons w ws y :
  widget_rows (w :: ws) y = (w, y) :: widget_rows ws (y + 3).
Proof.
  unfold widget_rows. simpl. f_equal; [f_equal; lia|].
  apply imap_ext. intros k w' _. simpl. f_equal. lia.
Qed.

Lemma widget_rows_app ws1 ws2 y :
  widget_rows (ws1 ++ ws2) y
  = widget_rows ws1 y ++ widget_rows ws2 (y + 3 * Z.of_nat (length ws1)).
Proof.
  revert y. induction ws1 as [|w ws1 IH]; intros y.
  - simpl. f_equal. lia.
  - rewrite <- app_comm_cons, !widget_rows_cons, IH. simpl length.
    rewrite <- app_comm_cons. do 3 f_equal. lia.
Qed.

Lemma fst_widget_rows ws y : (widget_rows ws y).*1 = ws.
Proof.
  revert y. induction ws as [|w ws IH]; intros y; [done|].
  rewrite widget_rows_cons. simpl. by rewrite IH.
Qed.

Lemma length_widget_rows ws y : length (widget_rows ws y) = length ws.
Proof. unfold widget_rows. by rewrite length_imap. Qed.

Lemma move_widgets_rows ws y :
  move_widgets ws y = (fun p => Move p.1 p.2) <$> widget_rows ws y.
Proof.
  revert y. induction ws as [|w ws IH]; intros y; [done|].
  rewrite widget_rows_cons. simpl. by rewrite IH.
Qed.

Local Opaque widget_rows.

Lemma creations_app evs1 evs2 :
  creations (evs1 ++ evs2) = creations evs1 ++ creations evs2.
Proof. apply omap_app. Qed.

Lemma drawn_app evs1 evs2 : drawn (evs1 ++ evs2) = drawn evs1 ++ drawn evs2.
Proof. apply omap_app. Qed.

Lemma device_events_app evs1 evs2 :
  device_events (evs1 ++ evs2) = device_events evs1 ++ device_events evs2.
Proof. apply omap_app. Qed.

Lemma events_of_device (tr : list event) :
  creations (Ev_device <$> tr) = [] /\ drawn (Ev_device <$> tr) = [] /\
  device_events (Ev_device <$> tr) = tr.
Proof.
  induction tr as [|e tr (H1 & H2 & H3)]; [done|].
  split; [exact H1|]. split; [exact H2|].
  change (e :: device_events (Ev_device <$> tr) = e :: tr). by f_equal.
Qed.

Lemma filter_rows_app (f : widget * Z -> bool) (l1 l2 : list (widget * Z)) :
  List.filter f (l1 ++ l2) = List.filter f l1 ++ List.filter f l2.
Proof. apply List.filter_app. Qed.

Lemma select_member_Done count i0 c v :
  0 <= i0 -> i0 + Z.of_nat count <= 32 ->
  exists tr, select_member count i0 c v = Done tr /\ ioctls tr = [].
Proof.
  revert i0. induction count as [|count IH]; intros i0 Hi Hle.
  - by exists [].
  - simpl. rewrite member_at_Done by lia. simpl.
    destruct (ord _ =? v); [by eexists|]. apply IH; lia.
Qed.

Lemma buttons_get_and_select_Done ty fd c :
  0 <= num_mem c <= 32 ->
  exists tr,
    buttons_get_and_select ty fd c = Done tr /\
    ioctls tr = [Ev_ioctl AUDIO_MIXER_READ (buttons_request ty c)].
Proof.
  intros Hn. unfold buttons_get_and_select. cbv zeta.
  destruct (mixer_read fd (buttons_request ty c)) as [d|]; [|by eexists].
  destruct (select_member_Done (Z.to_nat (num_mem c)) 0 c (mc_ord d))
    as (tr & -> & Hio); [lia | lia|].
  simpl. eexists. split; [done|]. unfold ioctls in *. simpl. by rewrite Hio.
Qed.

Lemma levels_get_and_set_Done fd c :
  0 <= num_channels c <= 8 ->
  exists tr,
    levels_get_and_set fd c = Done tr /\
    ioctls tr = [Ev_ioctl AUDIO_MIXER_READ (value_request c)].
Proof.
  intros Hn. unfold levels_get_and_set. cbv zeta.
  destruct (mixer_read fd (value_request c)) as [d|]; [|by eexists].
  destruct (set_sliders_display (Z.to_nat (num_channels c)) 0 d)
    as (tr & -> & Hio & _); [lia | lia|].
  simpl. eexists. split; [done|]. unfold ioctls in *. simpl. by rewrite Hio.
Qed.

(** The first loop of the value case. *)
Lemma create_sliders_spec tk c i count chan y :
  0 <= chan -> chan + Z.of_nat count <= 8 ->
  exists ws r,
    slider_widgets count i chan = Done ws /\
    create_sliders tk c i count chan y = Done r /\
    drawn (events_of r) = [] /\ device_events (events_of r) = [] /\
    match r with
    | Goes_on y' evs =>
        y' = y + 3 * Z.of_nat (length ws) /\
        creations evs = widget_rows ws y /\
        Forall (fun w => widget_ok tk w = true) ws
    | Quits status evs =>
        status = 1 /\
        exists k w,
          ws !! k = Some w /\ widget_ok tk w = false /\
          Forall (fun w => widget_ok tk w = true) (take k ws) /\
          creations evs = take (S k) (widget_rows ws y)
    end.
Proof.
  revert chan y. induction count as [|count IH]; intros chan y H0 H8.
  - exists [], (Goes_on y []). simpl. repeat split; try done. lia.
  - remember (Z.of_nat (S count)) as n1 eqn:Hn1.
    assert (Hn : n1 = 1 + Z.of_nat count) by lia. clear Hn1. simpl.
    destruct (8 <=? chan) eqn:E; [lia|].
    destruct (IH (chan + 1) (y + 3)) as (ws & r & -> & Hr & Hd & Hdev & Hspec);
      [lia | lia|].
    simpl. exists (Value_widget i chan :: ws).
    destruct (widget_ok tk (Value_widget i chan)) eqn:Hok; simpl.
    + rewrite Hr. simpl. eexists. split; [done|]. split; [done|].
      destruct r as [y' evs | st evs]; simpl in *.
      * split; [done|]. split; [done|].
        destruct Hspec as (-> & Hc & Hall).
        split; [lia|]. split; [by rewrite widget_rows_cons, <- Hc|].
        by constructor.
      * split; [done|]. split; [done|].
        destruct Hspec as (-> & k & w & Hk & Hw & Hall & Hc).
        split; [done|]. exists (S k), w. split; [done|]. split; [done|].
        split; [simpl; by constructor|].
        rewrite widget_rows_cons. simpl. by rewrite <- Hc.
    + eexists. split; [done|]. split; [done|]. simpl.
      split; [done|]. split; [done|]. split; [done|].
      exists 0%nat, (Value_widget i chan). split; [done|]. split; [done|].
      split; [simpl; constructor|].
      rewrite widget_rows_cons. simpl. by rewrite take_0.
Qed.

(** The second loop of the value case. *)
Lemma draw_sliders_spec i count chan y max_y ws :
  slider_widgets count i chan = Done ws ->
  (draw_sliders i count chan y max_y).1 = y + 3 * Z.of_nat count /\
  creations (draw_sliders i count chan y max_y).2 = [] /\
  device_events (draw_sliders i count chan y max_y).2 = [] /\
  drawn (draw_sliders i count chan y max_y).2
  = (List.filter (fun p => p.2 <? max_y) (widget_rows ws y)).*1.
Proof.
  revert chan y ws. induction count as [|count IH]; intros chan y ws.
  - simpl. intros [= <-]. repeat split; try done. lia.
  - remember (Z.of_nat (S count)) as n1 eqn:Hn1.
    assert (Hn : n1 = 1 + Z.of_nat count) by lia. clear Hn1. simpl.
    destruct (8 <=? chan); [done|].
    destruct (slider_widgets count i (chan + 1)) as [ws'| |] eqn:E;
      [|done..].
    simpl. intros [= <-].
    destruct (IH (chan + 1) (y + 3) ws' E) as (H1 & H2 & H3 & H4).
    rewrite creations_app, device_events_app, drawn_app, H1, H2, H3, H4.
    rewrite widget_rows_cons. simpl.
    split; [lia|]. destruct (y <? max_y); by repeat split.
Qed.

(** The enum and set cases. *)
Lemma create_buttonbox_spec tk fd ty c w y max_y :
  0 <= num_mem c <= 32 -> calloc_ok tk (num_mem c) = true ->
  exists r,
    create_buttonbox tk fd ty c w y max_y = Done r /\
    created_spec tk [w] y max_y
      [Ev_ioctl AUDIO_MIXER_READ (buttons_request ty c)] r.
Proof.
  intros Hn Hcal. unfold create_buttonbox, make_list. rewrite Hcal.
  destruct (num_mem c <? 0) eqn:E0; [lia|].
  destruct (32 <? num_mem c) eqn:E1; [lia|]. simpl.
  assert (Hrows : widget_rows [w] y = [(w, y)])
    by (by rewrite widget_rows_cons, widget_rows_nil).
  destruct (widget_ok tk w) eqn:Hok; simpl.
  - destruct (buttons_get_and_select_Done ty fd c Hn) as (tr & -> & Hio).
    simpl. eexists. split; [done|].
    destruct (events_of_device tr) as (H1 & H2 & H3).
    match goal with
    | |- created_spec _ _ _ _ _ (Goes_on _ (?new :: ?dv ++ ?bd :: ?dr)) =>
        change (new :: dv ++ bd :: dr) with ([new] ++ dv ++ [bd] ++ dr)
    end.
    unfold created_spec.
    rewrite !creations_app, !drawn_app, !device_events_app, H1, H2, H3, Hrows.
    split; [simpl; lia|]. split.
    { simpl. by destruct (y <? max_y). }
    split.
    { simpl. by destruct (y <? max_y). }
    split.
    { replace (device_events _ ++ tr ++ _ ++ _) with tr; [done|].
      simpl. destruct (y <? max_y); simpl; by rewrite app_nil_r. }
    by repeat constructor.
  - eexists. split; [done|]. simpl. split; [done|].
    exists 0%nat, w. split; [done|]. split; [done|].
    split; [constructor|]. by rewrite Hrows.
Qed.

(** One round of the loop. *)
Lemma create_control_spec tk fd c i y max_y :
  control_fits_arrays c ->
  (forall n, 0 <= n <= 32 -> calloc_ok tk n = true) ->
  exists ws r,
    control_widgets c i = Done ws /\
    create_control tk fd c i y max_y = Done r /\
    created_spec tk ws y max_y (control_reads c) r.
Proof.
  intros [Hch Hmem] Hcal.
  unfold create_control, control_widgets, control_reads, channels_ok in *.
  destruct (type c) eqn:Hty.
  - exists [], (Goes_on y []). split; [done|]. split; [done|].
    unfold created_spec. rewrite widget_rows_nil. simpl.
    repeat split; try done. lia.
  - destruct (create_buttonbox_spec tk fd AUDIO_MIXER_ENUM c (Enum_widget i)
                y max_y) as (r & Hr & Hspec); [auto | auto|].
    by exists [Enum_widget i], r.
  - destruct (create_buttonbox_spec tk fd AUDIO_MIXER_SET c (Set_widget i)
                y max_y) as (r & Hr & Hspec); [auto | auto|].
    by exists [Set_widget i], r.
  - specialize (Hch eq_refl).
    destruct (create_sliders_spec tk c i (Z.to_nat (num_channels c)) 0 y)
      as (ws & r & Hws & -> & Hd & Hdev & Hspec); [lia | lia|].
    exists ws. rewrite Hws. simpl.
    destruct r as [y1 evs | st evs]; simpl in Hd, Hdev.
    + destruct Hspec as (-> & Hc & Hall).
      destruct (levels_get_and_set_Done fd c Hch) as (tr & -> & Hio).
      simpl. eexists. split; [done|]. split; [done|].
      assert (Hlen : length ws = Z.to_nat (num_channels c)).
      { destruct (slider_widgets_Done (Z.to_nat (num_channels c)) i 0)
          as (ws' & Hws' & Hl & _); [lia | lia|].
        rewrite Hws in Hws'. by injection Hws' as ->. }
      replace (y + 3 * Z.of_nat (length ws) - 3 * num_channels c) with y
        by lia.
      destruct (draw_sliders_spec i (Z.to_nat (num_channels c)) 0 y max_y ws
                  Hws) as (H1 & H2 & H3 & H4).
      destruct (events_of_device tr) as (G1 & G2 & G3).
      unfold created_spec.
      rewrite !creations_app, !drawn_app, !device_events_app.
      rewrite H1, H2, H3, H4, G1, G2, G3, Hc, Hd, Hdev, Hlen.
      rewrite !app_nil_r. simpl. by repeat split.
    + eexists. split; [done|]. split; [done|]. exact Hspec.
Qed.

(** The loop of [create_class_widgets] from slot [i] at row [y]. *)
Lemma create_controls_spec tk fd cs i y max_y :
  Forall control_fits_arrays cs ->
  (forall n, 0 <= n <= 32 -> calloc_ok tk n = true) ->
  exists ws r,
    destroy_controls cs i = Done ws /\
    create_controls tk fd cs i y max_y = Done r /\
    created_spec tk ws y max_y (cs ≫= control_reads) r.
Proof.
  intros Hfit Hcal. revert i y.
  induction Hfit as [|c cs Hc Hfit IH]; intros i y.
  - exists [], (Goes_on y []). split; [done|]. split; [done|].
    unfold created_spec. rewrite widget_rows_nil. simpl.
    repeat split; try done. lia.
  - simpl.
    destruct (create_control_spec tk fd c i y max_y Hc Hcal)
      as (ws1 & r1 & -> & -> & Hspec1).
    simpl. destruct r1 as [y1 evs1 | st evs1].
    + destruct Hspec1 as (-> & Hc1 & Hd1 & Hio1 & Hall1).
      destruct (IH (i + 1) (y + 3 * Z.of_nat (length ws1)))
        as (ws2 & r2 & -> & -> & Hspec2).
      simpl. exists (ws1 ++ ws2). eexists. split; [done|]. split; [done|].
      destruct r2 as [y2 evs2 | st evs2]; simpl.
      * destruct Hspec2 as (-> & Hc2 & Hd2 & Hio2 & Hall2).
        unfold created_spec.
        rewrite creations_app, drawn_app, device_events_app, ioctls_app.
        rewrite widget_rows_app, filter_rows_app, fmap_app, length_app.
        rewrite Hc1, Hc2, Hd1, Hd2, Hio1, Hio2.
        split; [lia|]. split; [done|]. split; [done|]. split; [done|].
        by apply Forall_app.
      * destruct Hspec2 as (-> & k & w & Hk & Hw & Hall2 & Hc2).
        split; [done|].
        exists (length ws1 + k)%nat, w.
        split; [by rewrite lookup_app_r, Nat.add_comm, Nat.add_sub by lia|].
        split; [done|].
        split.
        { rewrite take_app_add. by apply Forall_app. }
        rewrite creations_app, Hc1, Hc2, widget_rows_app.
        rewrite <- (length_widget_rows ws1 y) at 2.
        by rewrite <- Nat.add_succ_r, take_app_add.
    + destruct Hspec1 as (-> & k & w & Hk & Hw & Hall1 & Hc1).
      destruct (IH (i + 1) 0) as (ws2 & _ & -> & _).
      simpl. exists (ws1 ++ ws2). eexists. split; [done|]. split; [done|].
      simpl. split; [done|].
      assert (Hlt : (k < length ws1)%nat) by (by eapply lookup_lt_Some).
      exists k, w.
      split; [by rewrite lookup_app_l|]. split; [done|].
      split; [by rewrite take_app_le by lia|].
      rewrite Hc1, widget_rows_app, take_app_le; [done|].
      rewrite length_widget_rows. lia.
Qed.

Lemma created_after_label y r :
  creations (events_of (created_after [Ev_newCDKLabel y] r))
  = creations (events_of r) /\
  drawn (events_of (created_after [Ev_newCDKLabel y] r))
  = drawn (events_of r) /\
  device_events (events_of (created_after [Ev_newCDKLabel y] r))
  = device_events (events_of r).
Proof. by destruct r. Qed.

(** [create_class_widgets] with an allocator that gives memory. *)
Lemma create_class_widgets_spec tk fd x :
  Forall control_fits_arrays (controls (current_class x)) ->
  label_ok tk = true ->
  (forall n, 0 <= n <= 32 -> calloc_ok tk n = true) ->
  exists ws r,
    destroy_class_widgets x = Done ws /\
    create_class_widgets tk fd x 3 = Done r /\
    created_spec tk ws 5 (maxy x - 6)
      (controls (current_class x) ≫= control_reads) r.
Proof.
  intros Hfit Hlab Hcal.
  unfold create_class_widgets, destroy_class_widgets. cbv zeta.
  rewrite Hlab. cbn [negb].
  destruct (create_controls_spec tk fd (controls (current_class x)) 0 5
              (maxy x - 6) Hfit Hcal) as (ws & r & Hws & Hr & Hspec).
  replace (maxy x - 3 - 3) with (maxy x - 6) by lia.
  change (3 + 2) with 5. rewrite Hr. simpl. exists ws. eexists. split; [done|]. split; [done|].
  by destruct r.
Qed.

(** X28.  [create_class_widgets] with a toolkit and an allocator that give
    what they are asked for, in a class whose controls fit the widget and
    member arrays: it returns; it makes the widgets that
    [destroy_class_widgets] destroys, in that order, the [k]-th of them at
    row [5 + 3 k]; it draws those whose row is above [maxy - 6]; and it
    reads the device once for every control, in order, and never writes
    to it. *)
Theorem create_class_widgets_layout tk fd x :
  Forall control_fits_arrays (controls (current_class x)) ->
  toolkit_works tk ->
  exists y evs ws,
    create_class_widgets tk fd x 3 = Done (Goes_on y evs) /\
    destroy_class_widgets x = Done ws /\
    y = 5 + 3 * Z.of_nat (length ws) /\
    creations evs = widget_rows ws 5 /\
    drawn evs
    = (List.filter (fun p => p.2 <? maxy x - 6) (widget_rows ws 5)).*1 /\
    ioctls (device_events evs) = controls (current_class x) ≫= control_reads.
Proof.
  intros Hfit (Hlab & Hcal & Hwid).
  destruct (create_class_widgets_spec tk fd x Hfit Hlab Hcal)
    as (ws & r & Hws & Hr & Hspec).
  destruct r as [y evs | st evs].
  - destruct Hspec as (Hy & Hc & Hd & Hio & _). by exists y, evs, ws.
  - destruct Hspec as (_ & k & w & _ & Hw & _). by rewrite Hwid in Hw.
Qed.

Lemma create_class_widgets_layout_witness :
  exists y evs,
    create_class_widgets
      {| label_ok := true; calloc_ok := fun _ => true;
         widget_ok := fun _ => true |}
      dead_device (session 12 master_family) 3
    = Done (Goes_on y evs) /\
    creations evs
    = [(Value_widget 0 0, 5); (Value_widget 0 1, 8); (Enum_widget 1, 11);
       (Set_widget 2, 14); (Value_widget 3 0, 17)] /\
    drawn evs = [Value_widget 0 0].
Proof.
  destruct (create_class_widgets_layout
              {| label_ok := true; calloc_ok := fun _ => true;
                 widget_ok := fun _ => true |}
              dead_device (session 12 master_family))
    as (y & evs & ws & H1 & H2 & _ & H4 & H5 & _).
  - vm_compute.
    repeat (apply List.Forall_cons;
            [split; [intros _; split; discriminate
                    |intros _; split; discriminate]|]).
    apply List.Forall_nil.
  - by repeat split.
  - exists y, evs. split; [exact H1|].
    vm_compute in H2. injection H2 as <-.
    split; [exact H4 | exact H5].
Defined.

(** X29.  When the toolkit does not make a widget, [create_class_widgets]
    leaves the program with status 1 right after the constructor call that
    failed: the widgets before it in the order of the class were made, at
    their rows, and none after it. *)
Theorem create_class_widgets_quits tk fd x ws k w :
  Forall control_fits_arrays (controls (current_class x)) ->
  label_ok tk = true ->
  (forall n, 0 <= n <= 32 -> calloc_ok tk n = true) ->
  destroy_class_widgets x = Done ws ->
  ws !! k = Some w -> widget_ok tk w = false ->
  Forall (fun w => widget_ok tk w = true) (take k ws) ->
  exists evs,
    create_class_widgets tk fd x 3 = Done (Quits 1 evs) /\
    creations evs = take (S k) (widget_rows ws 5).
Proof.
  intros Hfit Hlab Hcal Hws Hk Hw Hbefore.
  destruct (create_class_widgets_spec tk fd x Hfit Hlab Hcal)
    as (ws' & r & Hws' & Hr & Hspec).
  rewrite Hws in Hws'. injection Hws' as <-.
  destruct r as [y evs | st evs].
  - destruct Hspec as (_ & _ & _ & _ & Hall).
    eapply Forall_forall in Hall; [|by eapply list_elem_of_lookup_2].
    simpl in Hall. by rewrite Hw in Hall.
  - destruct Hspec as (-> & k' & w' & Hk' & Hw' & Hall' & Hc).
    exists evs. split; [done|].
    assert (k' = k) as ->; [|done].
    destruct (Nat.lt_trichotomy k' k) as [Hlt | [Heq | Hgt]]; [|done|].
    + assert (w' ∈ take k ws) as Hin.
      { apply (list_elem_of_lookup_2 _ k'). by rewrite lookup_take_lt. }
      apply (proj1 (Forall_forall _ _) Hbefore) in Hin. simpl in Hin.
      congruence.
    + assert (w ∈ take k' ws) as Hin.
      { apply (list_elem_of_lookup_2 _ k). by rewrite lookup_take_lt. }
      apply (proj1 (Forall_forall _ _) Hall') in Hin. simpl in Hin.
      congruence.
Qed.

Lemma create_class_widgets_quits_witness :
  exists evs,
    create_class_widgets
      {| label_ok := true; calloc_ok := fun _ => true;
         widget_ok := fun w => match w with
                               | Enum_widget _ => false
                               | _ => true
                               end |}
      dead_device (session 12 master_family) 3
    = Done (Quits 1 evs) /\
    creations evs
    = [(Value_widget 0 0, 5); (Value_widget 0 1, 8); (Enum_widget 1, 11)].
Proof.
  destruct (create_class_widgets_quits
              {| label_ok := true; calloc_ok := fun _ => true;
                 widget_ok := fun w => match w with
                                       | Enum_widget _ => false
                                       | _ => true
                                       end |}
              dead_device (session 12 master_family)
              [Value_widget 0 0; Value_widget 0 1; Enum_widget 1;
               Set_widget 2; Value_widget 3 0]
              2 (Enum_widget 1))
    as (evs & H1 & H2).
  - vm_compute.
    repeat (apply List.Forall_cons;
            [split; [intros _; split; discriminate
                    |intros _; split; discriminate]|]).
    apply List.Forall_nil.
  - reflexivity.
  - reflexivity.
  - reflexivity.
  - reflexivity.
  - reflexivity.
  - vm_compute. repeat (apply List.Forall_cons; [reflexivity|]).
    apply List.Forall_nil.
  - exists evs. split; [exact H1|].
    etrans; [exact H2|]. vm_compute. reflexivity.
Defined.

Lemma destroy_controls_take (cs : list aiomixer_control) i n ws ws' :
  destroy_controls cs i = Done ws ->
  destroy_controls (take n cs) i = Done ws' ->
  exists rest, ws = ws' ++ rest.
Proof.
  revert i n ws ws'. induction cs as [|c cs IH]; intros i n ws ws'.
  - destruct n; simpl; intros [= <-] [= <-]; by exists [].
  - destruct n as [|n].
    + simpl. intros H [= <-]. by exists ws.
    + simpl. destruct (control_widgets c i) as [ws1| |]; [|done..]. simpl.
      destruct (destroy_controls cs (i + 1)) as [ws2| |] eqn:E2; [|done..].
      destruct (destroy_controls (take n cs) (i + 1)) as [ws3| |] eqn:E3;
        [|done..].
      simpl. intros [= <-] [= <-].
      destruct (IH _ _ _ _ E2 E3) as [rest ->].
      exists rest. by rewrite app_assoc.
Qed.

(** The rows [reposition_visible_widgets] moves widgets to. *)
Lemma place_visible_rows x (cs : list aiomixer_control) i y mc mv :
  Forall channels_ok cs ->
  place_visible x cs i y = Done (mc, mv) ->
  exists n ws',
    destroy_controls (take n cs) i = Done ws' /\
    mv = (fun p => Move p.1 p.2) <$> widget_rows ws' y.
Proof.
  intros Hok. revert i y mc mv.
  induction Hok as [|c cs Hc Hok IH]; intros i y mc mv.
  - simpl. intros [= <- <-]. by exists 0%nat, [].
  - simpl. destruct (control_within_bounds x i); simpl.
    + destruct (control_widgets_Done c i Hc) as (_ & ws & Hws & _).
      rewrite Hws. simpl.
      destruct (place_visible x cs (i + 1) (y + 3 * Z.of_nat (length ws)))
        as [[mc1 mv1]| |] eqn:E; [|done..].
      simpl. intros [= <- <-].
      destruct (IH _ _ _ _ E) as (n & ws' & Hd & ->).
      exists (S n), (ws ++ ws'). simpl. rewrite Hws, Hd. simpl.
      split; [done|].
      by rewrite widget_rows_app, fmap_app, move_widgets_rows.
    + intros [= <- <-]. by exists 0%nat, [].
Qed.

Lemma reposition_moves_rows x mc revs :
  Forall channels_ok (controls (current_class x)) ->
  reposition_visible_widgets x = Done (mc, revs) ->
  exists n ws',
    destroy_controls
      (take n (drop (Z.to_nat (top_control x)) (controls (current_class x))))
      (top_control x) = Done ws' /\
    forall w r, Move w r ∈ revs <-> (w, r) ∈ widget_rows ws' 5.
Proof.
  intros Hok. unfold reposition_visible_widgets. cbv zeta.
  destruct (each_widget_Done Hide (controls (current_class x)) 0 Hok)
    as (hidden & -> & Hhid).
  simpl.
  destruct (place_visible x _ (top_control x) 5) as [[mc1 mv]| |] eqn:E;
    [|done..].
  simpl.
  destruct (each_widget_Done Draw
              (take (Z.to_nat (mc1 - top_control x))
                 (drop (Z.to_nat (top_control x))
                    (controls (current_class x))))
              (top_control x))
    as (dr & -> & Hdr); [by apply Forall_take, Forall_drop|].
  simpl. intros [= <- <-].
  destruct (place_visible_rows _ _ _ _ _ _ (Forall_drop _ _ _ Hok) E)
    as (n & ws' & Hd & ->).
  exists n, ws'. split; [done|]. intros w r. split.
  - intros [He | [He | [He | He]%elem_of_app]%elem_of_app]%elem_of_app.
    + apply Hhid in He as (? & ? & ? & ? & _ & _ & _ & ?). done.
    + apply list_elem_of_fmap in He as ([w' r'] & [= <- <-] & He). done.
    + apply Hdr in He as (? & ? & ? & ? & _ & _ & _ & ?). done.
    + apply list_elem_of_singleton in He. done.
  - intros He. apply elem_of_app. right. apply elem_of_app. left.
    apply list_elem_of_fmap. by exists (w, r).
Qed.

(** X30.  At scroll offset 0, [reposition_visible_widgets] moves a widget
    to the row at which [create_class_widgets] made it, and the widgets it
    moves are among those drawn at creation. *)
Theorem reposition_matches_creation tk fd x :
  Forall control_fits_arrays (controls (current_class x)) ->
  toolkit_works tk ->
  top_control x = 0 ->
  exists y evs,
    create_class_widgets tk fd x 3 = Done (Goes_on y evs) /\
    forall mc revs w r,
      reposition_visible_widgets x = Done (mc, revs) ->
      Move w r ∈ revs ->
      (w, r) ∈ creations evs /\ w ∈ drawn evs.
Proof.
  intros Hfit (Hlab & Hcal & Hwid) Htop.
  destruct (create_class_widgets_spec tk fd x Hfit Hlab Hcal)
    as (ws & r & Hws & Hr & Hspec).
  destruct r as [y evs | st evs].
  2:{ destruct Hspec as (_ & k & w & _ & Hw & _). by rewrite Hwid in Hw. }
  destruct Hspec as (_ & Hc & Hd & _ & _).
  exists y, evs. split; [done|]. intros mc revs w r Hrep Hmove.
  assert (Hok : Forall channels_ok (controls (current_class x))).
  { eapply Forall_impl; [exact Hfit|]. by intros c [? _]. }
  destruct (reposition_moves_rows x mc revs Hok Hrep) as (n & ws' & Hd' & Hrows).
  rewrite Htop in Hd'. simpl in Hd'. rewrite drop_0 in Hd'.
  destruct (destroy_controls_take _ _ _ _ _ Hws Hd') as [rest ->].
  assert (Hin : (w, r) ∈ widget_rows (ws' ++ rest) 5).
  { rewrite widget_rows_app. apply elem_of_app. left. by apply Hrows. }
  split; [by rewrite Hc|].
  destruct (reposition_visible_widgets_spec x Hok) as
    (mc' & revs' & Hrep' & _ & _ & _ & Hmov & _).
  { rewrite Htop. unfold ncontrols. lia. }
  rewrite Hrep in Hrep'. injection Hrep' as <- <-.
  destruct (Hmov w r Hmove) as (_ & _ & Hrow).
  rewrite Hd. apply list_elem_of_fmap. exists (w, r). split; [done|].
  apply list_elem_of_In. apply List.filter_In. split.
  - by apply list_elem_of_In.
  - simpl. apply Z.ltb_lt. lia.
Qed.

Lemma reposition_matches_creation_witness :
  exists y evs,
    create_class_widgets
      {| label_ok := true; calloc_ok := fun _ => true;
         widget_ok := fun _ => true |}
      dead_device three_class_session 3
    = Done (Goes_on y evs) /\
    (Value_widget 1 1, 11) ∈ creations evs /\ Value_widget 1 1 ∈ drawn evs.
Proof.
  destruct (reposition_matches_creation
              {| label_ok := true; calloc_ok := fun _ => true;
                 widget_ok := fun _ => true |}
              dead_device three_class_session)
    as (y & evs & H1 & H2).
  - vm_compute.
    repeat (apply List.Forall_cons;
            [split; [intros _; split; discriminate
                    |intros _; split; discriminate]|]).
    apply List.Forall_nil.
  - by repeat split.
  - reflexivity.
  - exists y, evs. split; [exact H1|].
    eapply (H2 2 _ (Value_widget 1 1) 11).
    + vm_compute. reflexivity.
    + in_list.
Defined.

End ClassWidgets.
